(** * The giveaway lifecycle engine of [giveaways/models/giveaway.py]

    A shallow embedding of [GiveawayMeta], [Giveaway] and [EndedGiveaway]:
    construction from keyword arguments, the JSON mapping and its inverse,
    entry verification, the entrant set, winner selection, the lifecycle
    guards of [start] and [end], and [reroll].

    Conventions.
    - A Python call that may raise returns a [res]; the exception is a value
      of [exn].
    - Mutable attributes of [self] are threaded explicitly: a method returns
      the updated object next to its result.
    - Everything the engine reaches through the chat client, the reputation
      service, the multiplier expansion and [random] is read from a [World].
    - A [datetime] is an aware UTC instant, held as its number of
      microseconds since the epoch.  [datetime.timestamp()] is a float: a
      [posix] is an IEEE binary64 value, and [timestamp] and
      [fromtimestamp] round as CPython does. *)

From Stdlib Require Import ZArith String Ascii List Lia SpecFloat.
From stdpp Require Import base gmap strings list pretty.
Local Open Scope string_scope.
Local Open Scope list_scope.
Local Open Scope Z_scope.

(** ** Exceptions and results *)

Inductive exn : Type :=
| GiveawayError (msg : string)
| GiveawayAlreadyEnded (msg : string)
| GiveawayNotStarted (msg : string)
| AttributeError (attr : string)
| TypeError (what : string)
| KeyError (key : string)
| IndexError
| ValueError
| OverflowError
| OSError
| ServiceError.

Inductive res (A : Type) : Type :=
| Ret (a : A)
| Raise (e : exn).
Arguments Ret {A} a.
Arguments Raise {A} e.

#[export] Instance res_ret : MRet res := fun _ a => Ret a.

#[export] Instance res_bind : MBind res := fun _ _ k m =>
  match m with
  | Ret a => k a
  | Raise e => Raise e
  end.

Definition is_ret {A : Type} (m : res A) : bool :=
  match m with Ret _ => true | Raise _ => false end.

(** ** Time *)

Definition datetime : Type := Z.

(** A Python [float]: a binary64 value, 53 bits of mantissa. *)
Definition posix : Type := spec_float.

(** [float(n)] for an [int] a float holds exactly; a larger [n] is kept
    unrounded for [true_divide], which rounds once. *)
Definition float_of_int (n : Z) : posix :=
  match n with
  | Z0 => S754_zero false
  | Zpos p => S754_finite false p 0
  | Zneg p => S754_finite true p 0
  end.

(** [a / b] on two [int]s, [b] not zero: the quotient rounded once, to
    nearest-even. *)
Definition true_divide (a b : Z) : posix :=
  SFdiv 53 1024 (float_of_int a) (float_of_int b).

(** [d.timestamp()] on an aware datetime:
    [(d - epoch).total_seconds()], the microseconds of the difference
    divided by [10**6]. *)
Definition timestamp (d : datetime) : posix := true_divide d 1000000.

(** C's [modf]: the integral part and the fractional part, both with the
    sign of the argument, the latter exact. *)
Definition modf (t : posix) : Z * posix :=
  match t with
  | S754_finite s m e =>
    let sign := if s then -1 else 1 in
    if 0 <=? e then (sign * (Z.pos m * 2 ^ e), S754_zero s)
    else
      let d := 2 ^ (- e) in
      (sign * (Z.pos m / d),
       match Z.pos m mod d with
       | Zpos r => S754_finite s r e
       | _ => S754_zero s
       end)
  | _ => (0, t)
  end.

(** CPython's [_PyTime_RoundHalfEven] on a finite float. *)
Definition round_half_even (t : posix) : Z :=
  match t with
  | S754_finite s m e =>
    let sign := if s then -1 else 1 in
    if 0 <=? e then sign * (Z.pos m * 2 ^ e)
    else
      let d := 2 ^ (- e) in
      let q := Z.pos m / d in
      let r := Z.pos m mod d in
      sign * match 2 * r ?= d with
             | Lt => q
             | Gt => q + 1
             | Eq => if Z.even q then q else q + 1
             end
  | _ => 0
  end.

(** [datetime.fromtimestamp(t, tz=timezone.utc)].  The float is split by
    [modf], the fraction is scaled to microseconds in float arithmetic and
    rounded half-even, and a carry moves into the seconds.  A NaN raises
    [ValueError]; seconds outside [time_t] raise [OverflowError], seconds
    that [gmtime] refuses raise [OSError], and a year outside 1..9999
    raises [ValueError].  The bounds of the first two are those of a
    64-bit [time_t] and of glibc's [gmtime]. *)
Definition fromtimestamp (t : posix) : res datetime :=
  match t with
  | S754_nan => Raise ValueError
  | S754_infinity _ => Raise OverflowError
  | _ =>
    let '(intpart, floatpart) := modf t in
    let us :=
      round_half_even (SFmul 53 1024 floatpart (float_of_int 1000000)) in
    let '(sec, us) :=
      if 1000000 <=? us then (intpart + 1, us - 1000000)
      else if us <? 0 then (intpart - 1, us + 1000000)
      else (intpart, us) in
    if negb ((- 2 ^ 63 <=? sec) && (sec <=? 2 ^ 63))
    then Raise OverflowError
    else if negb ((-67768040609740800 <=? sec) && (sec <=? 67768036191676799))
    then Raise OSError
    else if negb ((-62135596800 <=? sec) && (sec <=? 253402300799))
    then Raise ValueError
    else Ret (sec * 1000000 + us)
  end.

Arguments timestamp : simpl never.
Arguments fromtimestamp : simpl never.

(** ** Guild objects *)

Inductive Bot : Type := BotHandle (tag : nat).

Record Role : Type := { role_id : Z; role_name : string }.

Record Member : Type :=
  { member_id : Z; member_guild : Z; member_roles : list Role }.

(** [role in member.roles]: discord objects compare by id. *)
Definition has_role (r : Role) (m : Member) : bool :=
  existsb (fun r' => role_id r =? role_id r') (member_roles m).

(** ** The collaborating classes [Requirements] and [GiveawayFlags]

    Both live in sibling modules.  The records carry the attributes this
    file reads; [as_role_dict] keeps the item order of the dict it returns. *)

Inductive reqval : Type :=
| RNone
| RRoles (roles : list Role)
| RNum (n : Z).

Record Requirements : Type :=
  { null : bool;
    as_role_dict : Z → list (string * reqval);
    messages : option Z }.

Record GiveawayFlags : Type :=
  { no_donor : bool;
    donor : option Member;
    no_multiple_winners : bool;
    no_multi : bool;
    message_count : Z }.

(** ** Truthiness *)

Definition truthy_int (n : Z) : bool := negb (n =? 0).

(** A float is falsy when it is zero, of either sign. *)
Definition truthy_posix (t : posix) : bool :=
  match t with S754_zero _ => false | _ => true end.
Arguments truthy_posix : simpl never.

(** A [datetime], a [Bot]: plain objects, always truthy. *)
Definition truthy_object {A : Type} (_ : A) : bool := true.

Definition truthy_list {A : Type} (l : list A) : bool :=
  match l with [] => false | _ :: _ => true end.

Definition truthy_str (s : string) : bool :=
  match s with EmptyString => false | String _ _ => true end.

Definition truthy_reqval (v : reqval) : bool :=
  match v with
  | RNone => false
  | RRoles roles => truthy_list roles
  | RNum n => truthy_int n
  end.

Definition truthy_opt {A : Type} (truthy : A → bool) (o : option A) : bool :=
  match o with None => false | Some a => truthy a end.

(** ** Keyword arguments and JSON mappings

    One entry of a [dict] with a fixed key: the key is absent, or bound to
    [None], or bound to a value.  The same shape serves [**kwargs] (times
    are datetimes, rule sets are objects) and the mapping of [json] (times
    are timestamps, rule sets are their own dicts). *)

Inductive arg (T : Type) : Type :=
| Absent
| IsNone
| Given (v : T).
Arguments Absent {T}.
Arguments IsNone {T}.
Arguments Given {T} v.

Record kwargs (TIME REQ FLAGS : Type) : Type :=
  { k_bot : arg Bot;
    k_message_id : arg Z;
    k_channel_id : arg Z;
    k_guild_id : arg Z;
    k_prize : arg string;
    k_requirements : arg REQ;
    k_flags : arg FLAGS;
    k_emoji : arg string;
    k_amount_of_winners : arg Z;
    k_entrants : arg (list Z);
    k_winners : arg (list Z);
    k_host : arg Z;
    k_starts_at : arg TIME;
    k_ends_at : arg TIME;
    k_reason : arg string }.
Arguments k_bot {TIME REQ FLAGS} k.
Arguments k_message_id {TIME REQ FLAGS} k.
Arguments k_channel_id {TIME REQ FLAGS} k.
Arguments k_guild_id {TIME REQ FLAGS} k.
Arguments k_prize {TIME REQ FLAGS} k.
Arguments k_requirements {TIME REQ FLAGS} k.
Arguments k_flags {TIME REQ FLAGS} k.
Arguments k_emoji {TIME REQ FLAGS} k.
Arguments k_amount_of_winners {TIME REQ FLAGS} k.
Arguments k_entrants {TIME REQ FLAGS} k.
Arguments k_winners {TIME REQ FLAGS} k.
Arguments k_host {TIME REQ FLAGS} k.
Arguments k_starts_at {TIME REQ FLAGS} k.
Arguments k_ends_at {TIME REQ FLAGS} k.
Arguments k_reason {TIME REQ FLAGS} k.

(** [d.get(key)] *)
Definition kw_get {T : Type} (a : arg T) : option T :=
  match a with
  | Given v => Some v
  | Absent | IsNone => None
  end.

(** [d.get(key, default)]: the default stands in for an absent key only. *)
Definition kw_get_default {T : Type} (a : arg T) (default : T) : option T :=
  match a with
  | Absent => Some default
  | IsNone => None
  | Given v => Some v
  end.

(** [x or []] *)
Definition or_empty {A : Type} (o : option (list A)) : list A :=
  match o with
  | Some l => l
  | None => []
  end.

(** Passing a Python value on as a keyword argument. *)
Definition pass {T : Type} (o : option T) : arg T :=
  match o with
  | Some v => Given v
  | None => IsNone
  end.

(** [if not (v := d.get(key))]: the value when it is truthy. *)
Definition kw_truthy {T : Type} (truthy : T → bool) (a : arg T) : option T :=
  match kw_get a with
  | Some v => if truthy v then Some v else None
  | None => None
  end.

(** ** [GiveawayMeta] *)

Record GiveawayMeta : Type :=
  { bot : Bot;
    message_id : Z;
    channel_id : Z;
    guild_id : Z;
    prize : option string;
    requirements : option Requirements;
    flags : option GiveawayFlags;
    emoji : option string;
    amount_of_winners : option Z;
    _entrants : gset Z;
    _winners : list Z;
    _host : option Z;
    starts_at : option datetime;
    ends_at : datetime }.

(** [GiveawayMeta.check_kwargs] *)
Definition check_kwargs {TIME REQ FLAGS : Type} (truthy_time : TIME → bool)
    (k : kwargs TIME REQ FLAGS) : res (Z * Z * Z * TIME * Bot) :=
  match kw_truthy truthy_int (k_message_id k) with
  | None => Raise (GiveawayError "No message ID provided.")
  | Some mid =>
    match kw_truthy truthy_int (k_guild_id k) with
    | None => Raise (GiveawayError "No guild ID provided.")
    | Some gid =>
      match kw_truthy truthy_int (k_channel_id k) with
      | None => Raise (GiveawayError "No channel ID provided.")
      | Some cid =>
        match kw_truthy truthy_time (k_ends_at k) with
        | None => Raise (GiveawayError "No ends_at provided for the giveaway.")
        | Some e =>
          match kw_truthy truthy_object (k_bot k) with
          | None => Raise (GiveawayError "No bot object provided.")
          | Some b => Ret (mid, gid, cid, e, b)
          end
        end
      end
    end
  end.

(** [GiveawayMeta.__init__], run on [kwargs] when the clock reads [now]. *)
Definition GiveawayMeta_init (now : datetime)
    (k : kwargs datetime Requirements GiveawayFlags) : res GiveawayMeta :=
  '(mid, gid, cid, e, b) ← check_kwargs truthy_object k;
  Ret {| bot := b;
         message_id := mid;
         channel_id := cid;
         guild_id := gid;
         prize := kw_get_default (k_prize k) "Giveaway prize";
         requirements := kw_get (k_requirements k);
         flags := kw_get (k_flags k);
         emoji := kw_get_default (k_emoji k) ":tada:";
         amount_of_winners := kw_get_default (k_amount_of_winners k) 1;
         _entrants := list_to_set (or_empty (kw_get_default (k_entrants k) []));
         _winners := or_empty (kw_get (k_winners k));
         _host := kw_get (k_host k);
         starts_at := kw_get_default (k_starts_at k) now;
         ends_at := e |}.

(** ** [Giveaway] and [EndedGiveaway]

    Both constructors take every field as a keyword parameter whose default
    is [None], except [starts_at]: its default expression
    [datetime.now(tz=timezone.utc)] is evaluated once, when the [def] runs
    at import, and that instant ([import_time]) is what an omitted
    [starts_at] receives.  [None] in [init_args] is the parameter left at
    its default. *)

Record init_args : Type :=
  { a_bot : Bot;
    a_message_id : option Z;
    a_channel_id : option Z;
    a_guild_id : option Z;
    a_requirements : option Requirements;
    a_flags : option GiveawayFlags;
    a_prize : option string;
    a_host : option Z;
    a_amount_of_winners : option Z;
    a_emoji : option string;
    a_starts_at : option datetime;
    a_ends_at : option datetime;
    a_entrants : option (list Z);
    a_winners : option (list Z);
    a_reason : option string }.

(** The call [super().__init__(bot=bot, message_id=message_id, ...)]: every
    key is passed, whatever its value. *)
Definition super_kwargs (import_time : datetime) (a : init_args)
    : kwargs datetime Requirements GiveawayFlags :=
  {| k_bot := Given (a_bot a);
     k_message_id := pass (a_message_id a);
     k_channel_id := pass (a_channel_id a);
     k_guild_id := pass (a_guild_id a);
     k_prize := pass (a_prize a);
     k_requirements := pass (a_requirements a);
     k_flags := pass (a_flags a);
     k_emoji := pass (a_emoji a);
     k_amount_of_winners := pass (a_amount_of_winners a);
     k_entrants := pass (a_entrants a);
     k_winners := pass (a_winners a);
     k_host := pass (a_host a);
     k_starts_at := Given (default import_time (a_starts_at a));
     k_ends_at := pass (a_ends_at a);
     k_reason := Absent |}.

Record Giveaway : Type :=
  { meta : GiveawayMeta;
    _message_cache : option (gmap Z Z) }.

Record EndedGiveaway : Type :=
  { ended_meta : GiveawayMeta;
    reason : option string }.

(** [self.starts_at > datetime.now(timezone.utc)] *)
Definition starts_after (now : datetime) (g : GiveawayMeta) : res bool :=
  match starts_at g with
  | Some s => Ret (now <? s)
  | None => Raise (TypeError "'>' not supported between NoneType and datetime")
  end.

(** [self.flags.message_count or self.requirements.messages], as a
    condition. *)
Definition wants_message_cache (g : GiveawayMeta) : res bool :=
  match flags g with
  | None => Raise (AttributeError "message_count")
  | Some f =>
    if truthy_int (message_count f) then Ret true
    else match requirements g with
         | None => Raise (AttributeError "messages")
         | Some r => Ret (truthy_opt truthy_int (messages r))
         end
  end.

(** [Giveaway.__init__]; the boolean tells whether a [_wait_until_start]
    task was appended to [_tasks]. *)
Definition Giveaway_init (import_time now : datetime) (a : init_args)
    : res (Giveaway * bool) :=
  g ← GiveawayMeta_init now (super_kwargs import_time a);
  waits ← starts_after now g;
  caches ← wants_message_cache g;
  Ret ({| meta := g;
          _message_cache := if caches : bool then Some ∅ else None |},
       waits).

(** [EndedGiveaway.__init__] *)
Definition EndedGiveaway_init (import_time now : datetime) (a : init_args)
    : res EndedGiveaway :=
  g ← GiveawayMeta_init now (super_kwargs import_time a);
  Ret {| ended_meta := g; reason := a_reason a |}.

(** A constructor called on an unpacked mapping: a key's value reaches the
    parameter of that name. *)
Definition args_of_kwargs (b : Bot)
    (k : kwargs datetime Requirements GiveawayFlags) : init_args :=
  {| a_bot := b;
     a_message_id := kw_get (k_message_id k);
     a_channel_id := kw_get (k_channel_id k);
     a_guild_id := kw_get (k_guild_id k);
     a_requirements := kw_get (k_requirements k);
     a_flags := kw_get (k_flags k);
     a_prize := kw_get (k_prize k);
     a_host := kw_get (k_host k);
     a_amount_of_winners := kw_get (k_amount_of_winners k);
     a_emoji := kw_get (k_emoji k);
     a_starts_at := kw_get (k_starts_at k);
     a_ends_at := kw_get (k_ends_at k);
     a_entrants := kw_get (k_entrants k);
     a_winners := kw_get (k_winners k);
     a_reason := kw_get (k_reason k) |}.

(** ** Derived properties *)

(** [started]: [datetime.now(tz=timezone.utc) > self.starts_at] *)
Definition started (now : datetime) (g : GiveawayMeta) : res bool :=
  match starts_at g with
  | Some s => Ret (s <? now)
  | None => Raise (TypeError "'>' not supported between datetime and NoneType")
  end.

(** [ended]: [datetime.now(tz=timezone.utc) > self.ends_at] *)
Definition ended (now : datetime) (g : GiveawayMeta) : bool :=
  ends_at g <? now.

Definition jump_url (g : GiveawayMeta) : string :=
  "https://discord.com/channels/" +:+ pretty (guild_id g) +:+ "/"
    +:+ pretty (channel_id g) +:+ "/" +:+ pretty (message_id g).

(** ** Serialization

    [Requirements.json], [Requirements.from_json], [GiveawayFlags.json] and
    [GiveawayFlags.from_json] belong to the sibling modules; they are taken
    as given, together with the dict types they exchange and the empty dict
    of each.  [from_json] receives what [json.get(key, {})] returns, which
    is [None] when the key is bound to [None]. *)

Section Serialization.
Context {ReqJson FlagsJson : Type}.
Variable Requirements_json : Requirements → ReqJson.
Variable Requirements_from_json : option ReqJson → Requirements.
Variable GiveawayFlags_json : GiveawayFlags → FlagsJson.
Variable GiveawayFlags_from_json : option FlagsJson → Z → GiveawayFlags.
Variable empty_requirements : ReqJson.
Variable empty_flags : FlagsJson.

(** [GiveawayMeta.json].  An instance of either sibling class is truthy,
    so [x.json if x else {}] takes the [else] branch on [None] only. *)
Definition json (g : GiveawayMeta) : res (kwargs posix ReqJson FlagsJson) :=
  match starts_at g with
  | None => Raise (AttributeError "timestamp")
  | Some s =>
    Ret {| k_bot := Absent;
           k_message_id := Given (message_id g);
           k_channel_id := Given (channel_id g);
           k_guild_id := Given (guild_id g);
           k_prize := pass (prize g);
           k_amount_of_winners := pass (amount_of_winners g);
           k_requirements :=
             Given (match requirements g with
                    | Some r => Requirements_json r
                    | None => empty_requirements
                    end);
           k_flags :=
             Given (match flags g with
                    | Some f => GiveawayFlags_json f
                    | None => empty_flags
                    end);
           k_emoji := pass (emoji g);
           k_entrants := Given (elements (_entrants g));
           k_winners := Given (_winners g);
           k_host := pass (_host g);
           k_ends_at := Given (timestamp (ends_at g));
           k_starts_at := Given (timestamp s);
           k_reason := Absent |}
  end.

(** [mapping.update(reason=reason, bot=bot)] *)
Definition update_reason_bot (r : option string) (b : Bot)
    (j : kwargs posix ReqJson FlagsJson) : kwargs posix ReqJson FlagsJson :=
  {| k_bot := Given b;
     k_message_id := k_message_id j;
     k_channel_id := k_channel_id j;
     k_guild_id := k_guild_id j;
     k_prize := k_prize j;
     k_amount_of_winners := k_amount_of_winners j;
     k_requirements := k_requirements j;
     k_flags := k_flags j;
     k_emoji := k_emoji j;
     k_entrants := k_entrants j;
     k_winners := k_winners j;
     k_host := k_host j;
     k_ends_at := k_ends_at j;
     k_starts_at := k_starts_at j;
     k_reason := pass r |}.

(** [mapping.update(bot=bot)]: the caller supplies the client handle. *)
Definition update_bot (b : Bot) (j : kwargs posix ReqJson FlagsJson)
    : kwargs posix ReqJson FlagsJson :=
  {| k_bot := Given b;
     k_message_id := k_message_id j;
     k_channel_id := k_channel_id j;
     k_guild_id := k_guild_id j;
     k_prize := k_prize j;
     k_amount_of_winners := k_amount_of_winners j;
     k_requirements := k_requirements j;
     k_flags := k_flags j;
     k_emoji := k_emoji j;
     k_entrants := k_entrants j;
     k_winners := k_winners j;
     k_host := k_host j;
     k_ends_at := k_ends_at j;
     k_starts_at := k_starts_at j;
     k_reason := k_reason j |}.

(** [EndedGiveaway.json] *)
Definition EndedGiveaway_json (g : EndedGiveaway)
    : res (kwargs posix ReqJson FlagsJson) :=
  j ← json (ended_meta g);
  Ret {| k_bot := k_bot j;
         k_message_id := k_message_id j;
         k_channel_id := k_channel_id j;
         k_guild_id := k_guild_id j;
         k_prize := k_prize j;
         k_amount_of_winners := k_amount_of_winners j;
         k_requirements := k_requirements j;
         k_flags := k_flags j;
         k_emoji := k_emoji j;
         k_entrants := k_entrants j;
         k_winners := k_winners j;
         k_host := k_host j;
         k_ends_at := k_ends_at j;
         k_starts_at := k_starts_at j;
         k_reason := pass (reason g) |}.

(** The keyword mapping that [GiveawayMeta.from_json] builds for [cls].
    The dict display is evaluated in key order: "ends_at" is converted
    before "starts_at", and [fromtimestamp(None)] is a [TypeError]. *)
Definition from_json_kwargs (j : kwargs posix ReqJson FlagsJson)
    : res (kwargs datetime Requirements GiveawayFlags) :=
  '(mid, gid, cid, e, b) ← check_kwargs truthy_posix j;
  ends ← fromtimestamp e;
  starts ← match kw_get (k_starts_at j) with
           | Some t => fromtimestamp t
           | None => Raise (TypeError "fromtimestamp")
           end;
  Ret {| k_message_id := Given mid;
         k_channel_id := Given cid;
         k_guild_id := Given gid;
         k_bot := Given b;
         k_prize := pass (kw_get_default (k_prize j) "Giveaway prize");
         k_amount_of_winners := pass (kw_get_default (k_amount_of_winners j) 1);
         k_requirements :=
           Given (Requirements_from_json
                    (kw_get_default (k_requirements j) empty_requirements));
         k_flags :=
           Given (GiveawayFlags_from_json
                    (kw_get_default (k_flags j) empty_flags) gid);
         k_emoji := pass (kw_get_default (k_emoji j) ":tada:");
         k_entrants := pass (kw_get_default (k_entrants j) []);
         k_winners := pass (kw_get_default (k_winners j) []);
         k_host := pass (kw_get (k_host j));
         k_ends_at := Given ends;
         k_starts_at := Given starts;
         k_reason := Absent |}.

(** [GiveawayMeta.from_json] with [cls = GiveawayMeta] *)
Definition GiveawayMeta_from_json (now : datetime)
    (j : kwargs posix ReqJson FlagsJson) : res GiveawayMeta :=
  k ← from_json_kwargs j;
  GiveawayMeta_init now k.

(** [GiveawayMeta.from_json] with [cls = Giveaway] *)
Definition Giveaway_from_json (import_time now : datetime)
    (j : kwargs posix ReqJson FlagsJson) : res (Giveaway * bool) :=
  k ← from_json_kwargs j;
  match kw_get (k_bot k) with
  | Some b => Giveaway_init import_time now (args_of_kwargs b k)
  | None => Raise (TypeError "missing keyword-only argument: bot")
  end.

(** [EndedGiveaway.from_json] *)
Definition EndedGiveaway_from_json (import_time now : datetime)
    (j : kwargs posix ReqJson FlagsJson) : res EndedGiveaway :=
  k ← from_json_kwargs j;
  match kw_get (k_bot k) with
  | Some b =>
    self ← EndedGiveaway_init import_time now (args_of_kwargs b k);
    Ret {| ended_meta := ended_meta self; reason := kw_get (k_reason j) |}
  | None => Raise (TypeError "missing keyword-only argument: bot")
  end.

(** [EndedGiveaway.from_giveaway] *)
Definition from_giveaway (import_time now : datetime) (g : GiveawayMeta)
    (why : option string) : res EndedGiveaway :=
  let why := match why with
             | Some s => if truthy_str s then s
                         else "Giveaway ended successfully."
             | None => "Giveaway ended successfully."
             end in
  j ← json g;
  EndedGiveaway_from_json import_time now
    (update_reason_bot (Some why) (bot g) j).

End Serialization.

(** ** The world outside the engine *)

(** What [await self.message] comes to: [_get_message] raises when the
    channel cannot be resolved, returns [None] when the message cannot be
    fetched, and the message otherwise. *)
Inductive lookup : Type :=
| ChannelMissing
| MessageMissing
| MessageFound.

(** The user dict of the reputation service: each key may be missing. *)
Record AmariUser : Type :=
  { level : option Z; weeklyExp : option Z }.

(** A call of [bot.amari.get_user]: it raises, or returns a user dict or a
    falsy value. *)
Inductive amari_reply : Type :=
| AmariRaises
| AmariReturns (user : option AmariUser).

(** The two places [verify_entry] calls the service from. *)
Inductive amari_site : Type :=
| LevelLookup
| WeeklyLookup.

Record World : Type :=
  { get_member : Z → option Member;
    amari_get_user : amari_site → Z → Z → amari_reply;
    fetch_message : lookup;
    apply_multi : list (option Member) → list (option Member);
    random_index : nat → nat }.

(** [guild.get_member(id)], where [id] may be [None]. *)
Definition resolve (w : World) (id : option Z) : option Member :=
  match id with
  | Some n => get_member w n
  | None => None
  end.

(** The properties [host], [entrants] and [winners]. *)
Definition host (w : World) (g : GiveawayMeta) : option Member :=
  resolve w (_host g).

Definition entrants (w : World) (g : GiveawayMeta) : list (option Member) :=
  map (get_member w) (elements (_entrants g)).

Definition winners (w : World) (g : GiveawayMeta) : list (option Member) :=
  map (get_member w) (_winners g).

(** ** Python equality on the objects that meet in a list

    An [int], a [discord.Member] (equal to another user object of the same
    id, and to nothing else) and [None]. *)
Inductive pyobj : Type :=
| PyInt (n : Z)
| PyMember (m : Member)
| PyNone.

Definition py_eq (a b : pyobj) : bool :=
  match a, b with
  | PyInt x, PyInt y => x =? y
  | PyMember x, PyMember y => member_id x =? member_id y
  | PyNone, PyNone => true
  | _, _ => false
  end.

(** [a in l] *)
Definition py_in (a : pyobj) (l : list pyobj) : bool := existsb (py_eq a) l.

Definition of_member (o : option Member) : pyobj :=
  match o with
  | Some m => PyMember m
  | None => PyNone
  end.

(** ** [Giveaway.verify_entry] *)

Definition nl : string := String (ascii_of_nat 10) EmptyString.

Definition removed (g : GiveawayMeta) : string :=
  "Your entry for [this](" +:+ jump_url g +:+ ") giveaway has been removed."
    +:+ nl.

(** [self.flags.no_donor and member.id == (self.flags.donor or self.host).id] *)
Definition is_excluded_donor (w : World) (g : GiveawayMeta)
    (member : option Member) : res bool :=
  match flags g with
  | None => Raise (AttributeError "no_donor")
  | Some f =>
    if no_donor f then
      match member with
      | None => Raise (AttributeError "id")
      | Some m =>
        match (match donor f with Some d => Some d | None => host w g end) with
        | None => Raise (AttributeError "id")
        | Some d => Ret (member_id m =? member_id d)
        end
      end
    else Ret false
  end.

(** [requirements[key]] on the dict of [as_role_dict]. *)
Fixpoint getitem (key : string) (items : list (string * reqval))
    : res reqval :=
  match items with
  | [] => Raise (KeyError key)
  | (k, v) :: rest => if String.eqb k key then Ret v else getitem key rest
  end.

(** The bypass test: [requirements["bypass"]] truthy and
    [any(role in member.roles for role in requirements["bypass"])]. *)
Definition bypasses (items : list (string * reqval)) (m : Member) : res bool :=
  v ← getitem "bypass" items;
  if truthy_reqval v then
    match v with
    | RRoles roles => Ret (existsb (fun role => has_role role m) roles)
    | RNum _ | RNone => Raise (TypeError "object is not iterable")
    end
  else Ret false.

(** [for i in value] over a list value: the statement of the [return False],
    if one is reached. *)
Fixpoint verify_roles (g : GiveawayMeta) (key : string) (value : list Role)
    (m : Member) : option string :=
  match value with
  | [] => None
  | i :: rest =>
    if String.eqb key "blacklist" && has_role i m then
      Some (removed g
              +:+ "You had a role that was blacklisted from this giveaway."
              +:+ nl +:+ "Blacklisted role: `" +:+ role_name i +:+ "`")
    else if String.eqb key "required" && negb (has_role i m) then
      Some (removed g
              +:+ "You did not have the required role to join it."
              +:+ nl +:+ "Required role: `" +:+ role_name i +:+ "`")
    else verify_roles g key rest m
  end.

(** [user = await self.bot.amari.get_user(...) or {}] *)
Definition user_or_empty (user : option AmariUser) : AmariUser :=
  match user with
  | Some u => u
  | None => {| level := None; weeklyExp := None |}
  end.

(** [dict.setdefault(key, 0)]: the value read and the dict left behind. *)
Definition setdefault (key : Z) (d : gmap Z Z) : Z * gmap Z Z :=
  match d !! key with
  | Some v => (v, d)
  | None => (0, <[key := 0]> d)
  end.

(** The [else] branch of the loop body: a truthy value that is no list.
    The result is the statement of the [return False], if one is reached,
    next to [self._message_cache] ([None]: the attribute was never set). *)
Definition verify_number (w : World) (g : GiveawayMeta)
    (cache : option (gmap Z Z)) (m : Member) (key : string) (value : Z)
    : res (option string) * option (gmap Z Z) :=
  if String.eqb key "amari_level" then
    match amari_get_user w LevelLookup (member_guild m) (member_id m) with
    | AmariRaises => (Raise ServiceError, cache)
    | AmariReturns user =>
      let lvl := default 0 (level (user_or_empty user)) in
      if lvl <? value then
        (Ret (Some (removed g +:+ "You are amari level `" +:+ pretty lvl
                      +:+ "` which is `" +:+ pretty (value - lvl)
                      +:+ "` levels fewer than the required `"
                      +:+ pretty value +:+ "`.")), cache)
      else (Ret None, cache)
    end
  else if String.eqb key "amari_weekly" then
    let user :=
      match amari_get_user w WeeklyLookup (member_guild m) (member_id m) with
      | AmariRaises => user_or_empty None
      | AmariReturns user => user_or_empty user
      end in
    let weeklyxp := default 0 (weeklyExp user) in
    if weeklyxp <? value then
      (Ret (Some (removed g +:+ "You have `" +:+ pretty weeklyxp
                    +:+ "` weekly amari xp which is `"
                    +:+ pretty (value - weeklyxp)
                    +:+ "` xp fewer than the required `"
                    +:+ pretty value +:+ "`.")), cache)
    else (Ret None, cache)
  else if String.eqb key "messages" then
    match cache with
    | None => (Raise (AttributeError "_message_cache"), cache)
    | Some d =>
      let '(sent, d') := setdefault (member_id m) d in
      if negb (value <=? sent) then
        (Ret (Some (removed g +:+ "You have sent `" +:+ pretty sent
                      +:+ "` messages since the giveaway started which is `"
                      +:+ pretty (value - sent)
                      +:+ "` messages fewer than the required `"
                      +:+ pretty value +:+ "`.")), Some d')
      else (Ret None, Some d')
    end
  else (Ret None, cache).

(** [for key, value in requirements.items()] *)
Fixpoint verify_items (w : World) (g : GiveawayMeta)
    (cache : option (gmap Z Z)) (m : Member) (items : list (string * reqval))
    : res (option string) * option (gmap Z Z) :=
  match items with
  | [] => (Ret None, cache)
  | (key, value) :: rest =>
    if truthy_reqval value then
      match value with
      | RRoles roles =>
        match verify_roles g key roles m with
        | Some statement => (Ret (Some statement), cache)
        | None => verify_items w g cache m rest
        end
      | RNum n =>
        match verify_number w g cache m key n with
        | (Ret None, cache') => verify_items w g cache' m rest
        | stop => stop
        end
      | RNone => verify_items w g cache m rest
      end
    else verify_items w g cache m rest
  end.

(** [verify_entry(self, member)]: the pair it returns, or the exception,
    next to [self._message_cache] as the call leaves it. *)
Definition verify_entry (w : World) (g : GiveawayMeta)
    (cache : option (gmap Z Z)) (member : option Member)
    : res (bool * string) * option (gmap Z Z) :=
  match is_excluded_donor w g member with
  | Raise e => (Raise e, cache)
  | Ret true =>
    (Ret (false,
          removed g +:+ "You used the `--no-donor` flag which "
            +:+ "restricts you from joining your own giveaway."), cache)
  | Ret false =>
    match requirements g with
    | None => (Raise (AttributeError "null"), cache)
    | Some r =>
      if null r then (Ret (true, ""), cache)
      else
        match member with
        | None => (Raise (AttributeError "guild"), cache)
        | Some m =>
          let items := as_role_dict r (member_guild m) in
          match bypasses items m with
          | Raise e => (Raise e, cache)
          | Ret true => (Ret (true, ""), cache)
          | Ret false =>
            match verify_items w g cache m items with
            | (Raise e, cache') => (Raise e, cache')
            | (Ret (Some statement), cache') => (Ret (false, statement), cache')
            | (Ret None, cache') => (Ret (true, ""), cache')
            end
          end
        end
    end
  end.

(** ** Attribute assignment on [self] *)

Definition set_entrants (s : gset Z) (g : GiveawayMeta) : GiveawayMeta :=
  {| bot := bot g;
     message_id := message_id g;
     channel_id := channel_id g;
     guild_id := guild_id g;
     prize := prize g;
     requirements := requirements g;
     flags := flags g;
     emoji := emoji g;
     amount_of_winners := amount_of_winners g;
     _entrants := s;
     _winners := _winners g;
     _host := _host g;
     starts_at := starts_at g;
     ends_at := ends_at g |}.

Definition set_winners (l : list Z) (g : GiveawayMeta) : GiveawayMeta :=
  {| bot := bot g;
     message_id := message_id g;
     channel_id := channel_id g;
     guild_id := guild_id g;
     prize := prize g;
     requirements := requirements g;
     flags := flags g;
     emoji := emoji g;
     amount_of_winners := amount_of_winners g;
     _entrants := _entrants g;
     _winners := l;
     _host := _host g;
     starts_at := starts_at g;
     ends_at := ends_at g |}.

(** ** The entrant set *)

(** What [add_entrant] returns: the statement of a failed verification,
    [False], or [True]. *)
Inductive entry : Type :=
| EntryStatement (statement : string)
| EntryFalse
| EntryTrue.

(** [Giveaway.add_entrant] *)
Definition add_entrant (w : World) (g : Giveaway) (member : option Member)
    : res entry * Giveaway :=
  match verify_entry w (meta g) (_message_cache g) member with
  | (Raise e, cache) => (Raise e, {| meta := meta g; _message_cache := cache |})
  | (Ret (false, statement), cache) =>
    (Ret (EntryStatement statement),
     {| meta := meta g; _message_cache := cache |})
  | (Ret (true, _), cache) =>
    match member with
    | None =>
      (Raise (AttributeError "id"),
       {| meta := meta g; _message_cache := cache |})
    | Some m =>
      if py_in (PyInt (member_id m)) (map of_member (entrants w (meta g))) then
        (Ret EntryFalse, {| meta := meta g; _message_cache := cache |})
      else
        (Ret EntryTrue,
         {| meta := set_entrants ({[member_id m]} ∪ _entrants (meta g)) (meta g);
            _message_cache := cache |})
    end
  end.

(** [Giveaway.remove_entrant] *)
Definition remove_entrant (g : Giveaway) (member : option Member)
    : res bool * Giveaway :=
  match member with
  | None => (Raise (AttributeError "id"), g)
  | Some m =>
    if bool_decide (member_id m ∈ _entrants (meta g)) then
      (Ret true,
       {| meta := set_entrants (_entrants (meta g) ∖ {[member_id m]}) (meta g);
          _message_cache := _message_cache g |})
    else (Ret false, g)
  end.

(** ** Winner selection *)

(** [random.choice(seq)], the [n]-th call to it: an index below [len(seq)],
    or [IndexError] on an empty sequence. *)
Definition choice {A : Type} (w : World) (n : nat) (seq : list A) : res A :=
  match seq !! (random_index w n mod length seq)%nat with
  | Some x => Ret x
  | None => Raise IndexError
  end.

(** The body of [for _ in range(self.amount_of_winners)], with [rounds]
    iterations left; [n] counts the calls to [random.choice] made so far. *)
Fixpoint pick_loop (w : World) (g : GiveawayMeta) (rounds : nat)
    (pool w_list : list (option Member)) (cache : option (gmap Z Z)) (n : nat)
    : res (list (option Member)) * option (gmap Z Z) * nat :=
  match rounds with
  | O => (Ret w_list, cache, n)
  | S rounds' =>
    match choice w n pool with
    | Raise e => (Raise e, cache, n)
    | Ret c =>
      match verify_entry w g cache c with
      | (Raise e, cache') => (Raise e, cache', S n)
      | (Ret (false, _), cache') => pick_loop w g rounds' pool w_list cache' (S n)
      | (Ret (true, _), cache') =>
        match flags g with
        | None => (Raise (AttributeError "no_multiple_winners"), cache', S n)
        | Some f =>
          if no_multiple_winners f
             && py_in (of_member c) (map of_member w_list)
          then pick_loop w g rounds' pool w_list cache' (S n)
          else pick_loop w g rounds' pool (w_list ++ [c]) cache' (S n)
        end
      end
    end
  end.

(** [entrants or self.entrants] *)
Definition pool_or_entrants (w : World) (g : GiveawayMeta)
    (pool : option (list (option Member))) : list (option Member) :=
  match pool with
  | Some (c :: l) => c :: l
  | Some [] | None => entrants w g
  end.

(** [Giveaway.pick_winners] *)
Definition pick_winners (w : World) (g : Giveaway)
    (pool : option (list (option Member))) (n : nat)
    : res (list (option Member)) * Giveaway * nat :=
  let pool := pool_or_entrants w (meta g) pool in
  if truthy_list pool then
    match amount_of_winners (meta g) with
    | None => (Raise (TypeError "range() of NoneType"), g, n)
    | Some amount =>
      let '(r, cache, n') :=
        pick_loop w (meta g) (Z.to_nat amount) pool [] (_message_cache g) n in
      (r, {| meta := meta g; _message_cache := cache |}, n')
    end
  else (Ret [], g, n).

(** ** [get_winners_str] *)

(** [Counter(seq)]: one item per distinct object, in order of first
    appearance. *)
Fixpoint count_in (c : option Member) (items : list (option Member * Z))
    : list (option Member * Z) :=
  match items with
  | [] => [(c, 1)]
  | (k, v) :: rest =>
    if py_eq (of_member c) (of_member k) then (k, v + 1) :: rest
    else (k, v) :: count_in c rest
  end.

Definition Counter (seq : list (option Member)) : list (option Member * Z) :=
  fold_left (fun items c => count_in c items) seq [].

Fixpoint join_winners (items : list (option Member * Z)) : res string :=
  match items with
  | [] => Ret ""
  | (None, _) :: _ => Raise (AttributeError "id")
  | (Some k, v) :: rest =>
    tail ← join_winners rest;
    Ret ((if 1 <? v
          then "<@" +:+ pretty (member_id k) +:+ "> x " +:+ pretty v +:+ ", "
          else "<@" +:+ pretty (member_id k) +:+ "> ") +:+ tail)
  end.

Definition get_winners_str (w : World) (g : GiveawayMeta) : res string :=
  let wcounter := Counter (winners w g) in
  s ← join_winners wcounter;
  Ret (if truthy_list wcounter then s else s +:+ "There were no winners. ").

(** ** Lifecycle guards

    Names that attribute lookup on a [Giveaway] resolves through its
    classes: the members of [Giveaway] and of [GiveawayMeta]. *)

Definition Giveaway_members : list string :=
  [ "__init__"; "_wait_until_start"; "hdm"; "wdm"; "create_embed";
    "verify_entry"; "add_entrant"; "remove_entrant"; "_handle_flags";
    "pick_winners"; "start"; "end" ].

Definition GiveawayMeta_members : list string :=
  [ "_tasks"; "__init__"; "cog"; "guild"; "channel"; "message"; "host";
    "winners"; "entrants"; "started"; "ended"; "jump_url"; "duration";
    "json"; "check_kwargs"; "__str__"; "__repr__"; "get_winners_str";
    "get_embed_color"; "_get_message"; "from_json" ].

(** Names bound on the instance by [__init__]. *)
Definition instance_attributes (g : Giveaway) : list string :=
  [ "bot"; "message_id"; "channel_id"; "guild_id"; "prize"; "requirements";
    "flags"; "emoji"; "amount_of_winners"; "_entrants"; "_winners"; "_host";
    "starts_at"; "ends_at" ]
  ++ match _message_cache g with
     | Some _ => [ "_message_cache" ]
     | None => []
     end.

(** [self.name]: whether the lookup finds anything. *)
Definition has_attribute (g : Giveaway) (name : string) : bool :=
  existsb (String.eqb name)
    (instance_attributes g ++ Giveaway_members ++ GiveawayMeta_members).

Section Lifecycle.
(** What [start] does once its guard has passed (the cache update, the
    embed, the send, the reaction, the new message id, the flag actions)
    and what [end] does once its guard has passed (fetching the message,
    drawing, announcing, the snapshot): delegated work, taken as given. *)
Variable publish : Giveaway → res unit * Giveaway.
Variable conclude : Giveaway → option string → res EndedGiveaway * Giveaway.

(** [Giveaway.start].  The arguments of [str.format] are evaluated before
    the exception is built. *)
Definition start (now : datetime) (g : Giveaway) : res unit * Giveaway :=
  if ended now (meta g) then
    if has_attribute g "time_to_end" then
      (Raise (GiveawayAlreadyEnded
                ("The Giveaway (" +:+ pretty (message_id (meta g))
                   +:+ ") has already ended at {time_to_end}")), g)
    else (Raise (AttributeError "time_to_end"), g)
  else publish g.

(** [Giveaway.end] *)
Definition end_ (now : datetime) (g : Giveaway) (why : option string)
    : res EndedGiveaway * Giveaway :=
  match started now (meta g) with
  | Raise e => (Raise e, g)
  | Ret false =>
    (Raise (GiveawayNotStarted
              ("The Giveaway (" +:+ pretty (message_id (meta g))
                 +:+ ") has not started yet")), g)
  | Ret true => conclude g why
  end.
End Lifecycle.

(** ** [EndedGiveaway.reroll] *)

(** A message the call sends: [ctx.send] or [gmsg.reply]. *)
Inductive chat : Type :=
| CtxSend (content : string)
| Reply (content : string).

(** [list.remove(x)]: drops the first element equal to [x]. *)
Fixpoint list_remove (c : option Member) (l : list (option Member))
    : list (option Member) :=
  match l with
  | [] => []
  | x :: rest =>
    if py_eq (of_member x) (of_member c) then rest else x :: list_remove c rest
  end.

(** [winners = winners or 1] *)
Definition winners_or_one (count : option Z) : Z :=
  match count with
  | Some c => if truthy_int c then c else 1
  | None => 1
  end.

(** The body of [for _ in self.entrants], with [rounds] iterations left.
    [self] is an [EndedGiveaway]: it has no [_message_cache]. *)
Fixpoint reroll_loop (w : World) (g : GiveawayMeta) (count : Z) (rounds : nat)
    (pool : list (option Member)) (winner : list Z) (n : nat)
    : res (list Z) * nat :=
  match rounds with
  | O => (Ret winner, n)
  | S rounds' =>
    match choice w n pool with
    | Raise e => (Raise e, n)
    | Ret c =>
      match fst (verify_entry w g None c) with
      | Raise e => (Raise e, S n)
      | Ret (false, _) =>
        reroll_loop w g count rounds' (list_remove c pool) winner (S n)
      | Ret (true, _) =>
        match c with
        | None => (Raise (AttributeError "id"), S n)
        | Some m =>
          let winner' := winner ++ [member_id m] in
          if Z.of_nat (length winner') =? count then (Ret winner', S n)
          else reroll_loop w g count rounds' pool winner' (S n)
        end
      end
    end
  end.

Definition not_enough_entrants : string :=
  "There weren't enough entrants to determine a winner." +:+ nl
    +:+ "Click on my replied message to jump to the giveaway.".

Definition not_enough_eligible : string :=
  "There weren't enough entrants with the requirement to determine a winner."
    +:+ nl +:+ "Click on my replied message to jump to the giveaway.".

(** [EndedGiveaway.reroll(ctx, winners)].  The call returns [None]; its
    outcome is the messages it sent, the object it leaves and the number of
    calls to [random.choice] so far. *)
Definition reroll (w : World) (g : EndedGiveaway) (count : option Z) (n : nat)
    : res (list chat) * EndedGiveaway * nat :=
  match fetch_message w with
  | ChannelMissing =>
    (Raise (GiveawayError "The channel for this giveaway could not be found."),
     g, n)
  | MessageMissing => (Ret [CtxSend "I couldn't find the giveaway message."], g, n)
  | MessageFound =>
    let count := winners_or_one count in
    let pool := apply_multi w (entrants w (ended_meta g)) in
    let link := jump_url (ended_meta g) in
    if (length pool =? 0)%nat then (Ret [Reply not_enough_entrants], g, n)
    else
      match reroll_loop w (ended_meta g) count
              (length (entrants w (ended_meta g))) pool [] n with
      | (Raise e, n') => (Raise e, g, n')
      | (Ret winner, n') =>
        let g' := {| ended_meta := set_winners winner (ended_meta g);
                     reason := reason g |} in
        match get_winners_str w (ended_meta g') with
        | Raise e => (Raise e, g', n')
        | Ret s =>
          (Ret [Reply (if truthy_list winner
                       then "Congratulations :tada:" +:+ s
                              +:+ ":tada:. You are the new winner(s) for the giveaway below."
                              +:+ nl +:+ link
                       else not_enough_eligible)], g', n')
        end
      end
  end.

(** ** [Giveaway._wait_until_start]

    [clock k] is what the [k]-th call of [datetime.now] reads, counted from
    the call that opens the waiter.  A pass of the loop that finds the start
    ahead sleeps and goes round again; the first pass that does not awaits
    [start], which reads the clock once more.  [passes] bounds the passes
    followed; [None] is a waiter still asleep after them.  The result names
    the pass that left the loop. *)
Fixpoint _wait_until_start (publish : Giveaway → res unit * Giveaway)
    (clock : nat → datetime) (g : Giveaway) (k passes : nat)
    : option (nat * (res unit * Giveaway)) :=
  match passes with
  | O => None
  | S passes' =>
    match starts_after (clock k) (meta g) with
    | Raise e => Some (k, (Raise e, g))
    | Ret true => _wait_until_start publish clock g (S k) passes'
    | Ret false => Some (k, start publish (clock (S k)) g)
    end
  end.

(** ** [GiveawayMeta._get_message]

    What the method reads from the client: the message cache, the guild
    ([None] when the guild is not cached), the guild's channel table,
    [bot.fetch_channel] and [channel.fetch_message].  A [Raise] of
    [channel_fetch_message] is an exception of class [Exception], which
    the [except Exception] of the method catches; the cancellation of the
    task, which it does not catch, is not modelled. *)

Record Message : Type := { msg_id : Z; msg_channel : Z }.

Record Client : Type :=
  { cached_messages : list Message;
    guild_cached : bool;
    get_channel : Z → option Z;
    fetch_channel : Z → res (option Z);
    channel_fetch_message : Z → Z → res Message }.

(** [self.channel or await self.bot.fetch_channel(self.channel_id)] *)
Definition resolve_channel (c : Client) (g : GiveawayMeta) : res (option Z) :=
  if guild_cached c then
    match get_channel c (channel_id g) with
    | Some ch => Ret (Some ch)
    | None => fetch_channel c (channel_id g)
    end
  else Raise (AttributeError "get_channel").

Definition _get_message (c : Client) (g : GiveawayMeta) : res (option Message) :=
  let msg :=
    List.filter (fun x => msg_id x =? message_id g) (cached_messages c) in
  channel ← resolve_channel c g;
  match channel with
  | None =>
    Raise (GiveawayError "The channel for this giveaway could not be found.")
  | Some ch =>
    match msg with
    | first :: _ => Ret (Some first)
    | [] =>
      match channel_fetch_message c ch (message_id g) with
      | Ret fetched => Ret (Some fetched)
      | Raise _ => Ret None
      end
    end
  end.

(** * Notions used in the statements *)

(** A keyword argument that [check_kwargs] accepts: present and truthy. *)
Definition provided {T : Type} (truthy : T → bool) (a : arg T) : bool :=
  match kw_truthy truthy a with
  | Some _ => true
  | None => false
  end.

(** The record [g] with another client handle. *)
Definition set_bot (b : Bot) (g : GiveawayMeta) : GiveawayMeta :=
  {| bot := b;
     message_id := message_id g;
     channel_id := channel_id g;
     guild_id := guild_id g;
     prize := prize g;
     requirements := requirements g;
     flags := flags g;
     emoji := emoji g;
     amount_of_winners := amount_of_winners g;
     _entrants := _entrants g;
     _winners := _winners g;
     _host := _host g;
     starts_at := starts_at g;
     ends_at := ends_at g |}.

(** The identity under which Python compares two drawn candidates. *)
Definition member_key (c : option Member) : option Z :=
  match c with
  | Some m => Some (member_id m)
  | None => None
  end.

(** The candidates that [rounds] successive calls of [random.choice] on
    [pool] return, the first of them being call number [n]. *)
Fixpoint drawn (w : World) (n rounds : nat) (pool : list (option Member))
    : list (option Member) :=
  match rounds with
  | O => []
  | S rounds' =>
    match choice w n pool with
    | Ret c => c :: drawn w (S n) rounds' pool
    | Raise _ => []
    end
  end.

(** Every candidate that [rounds] successive draws return passes
    [verify_entry]; the first draw is call number [n] and is verified with
    the counters [cache], each later one with the counters the
    verifications before it left. *)
Fixpoint all_drawn_pass (w : World) (g : GiveawayMeta) (rounds : nat)
    (pool : list (option Member)) (cache : option (gmap Z Z)) (n : nat)
    : bool :=
  match rounds with
  | O => true
  | S rounds' =>
    match choice w n pool with
    | Raise _ => true
    | Ret c =>
      match verify_entry w g cache c with
      | (Ret (true, _), cache') => all_drawn_pass w g rounds' pool cache' (S n)
      | _ => false
      end
    end
  end.

(** How many entries of [seq] are the object [k], under Python's
    equality. *)
Definition occurrences (k : option Member) (seq : list (option Member)) : Z :=
  Z.of_nat
    (length (List.filter (fun c => py_eq (of_member c) (of_member k)) seq)).

(** The count a tally holds for the objects equal to [k]. *)
Fixpoint tallied (k : option Member) (items : list (option Member * Z)) : Z :=
  match items with
  | [] => 0
  | (k', v) :: rest =>
    (if py_eq (of_member k') (of_member k) then v else 0) + tallied k rest
  end.

(** The world in which a weekly lookup that would raise returns a user
    whose weekly score is 0 instead. *)
Definition weekly_zero (w : World) : World :=
  {| get_member := get_member w;
     amari_get_user := fun site gid uid =>
       match site with
       | LevelLookup => amari_get_user w LevelLookup gid uid
       | WeeklyLookup =>
         match amari_get_user w WeeklyLookup gid uid with
         | AmariRaises =>
           AmariReturns (Some {| level := None; weeklyExp := Some 0 |})
         | AmariReturns user => AmariReturns user
         end
       end;
     fetch_message := fetch_message w;
     apply_multi := apply_multi w;
     random_index := random_index w |}.

(** What a call may do to the message counters when it verifies the
    member of id [who]: keep every count there was, and add that member's
    own count, at 0; an object without counters stays without them. *)
Definition counters_kept (who : option Z) (cache cache' : option (gmap Z Z))
    : Prop :=
  match cache, cache' with
  | Some d, Some d' =>
    d ⊆ d'
    ∧ ∀ k, d !! k = None → d' !! k ≠ None → who = Some k ∧ d' !! k = Some 0
  | None, None => True
  | _, _ => False
  end.

(** * Sample objects

    Guild 3 has the members 7 (no role) and 8 (role [vip]).  Instants are
    small numbers: a giveaway runs from 1000 to 5000. *)

Definition vip : Role := {| role_id := 40; role_name := "vip" |}.

Definition alice : Member :=
  {| member_id := 7; member_guild := 3; member_roles := [] |}.

Definition bob : Member :=
  {| member_id := 8; member_guild := 3; member_roles := [vip] |}.

(** No rule configured, no flag set. *)
Definition no_requirements : Requirements :=
  {| null := true; as_role_dict := fun _ => []; messages := None |}.

Definition no_flags : GiveawayFlags :=
  {| no_donor := false;
     donor := None;
     no_multiple_winners := false;
     no_multi := false;
     message_count := 0 |}.

(** A primary score threshold of 5. *)
Definition level_five : Requirements :=
  {| null := false;
     as_role_dict := fun _ => [("bypass", RRoles []); ("amari_level", RNum 5)];
     messages := None |}.

(** The role [vip] required. *)
Definition vip_only : Requirements :=
  {| null := false;
     as_role_dict := fun _ =>
       [("bypass", RRoles []); ("required", RRoles [vip])];
     messages := None |}.

(** The reputation service answers with no user, the message is found, no
    multiplier applies, and every draw takes the first candidate. *)
Definition quiet_world : World :=
  {| get_member := fun n =>
       if n =? 7 then Some alice else if n =? 8 then Some bob else None;
     amari_get_user := fun _ _ _ => AmariReturns None;
     fetch_message := MessageFound;
     apply_multi := fun l => l;
     random_index := fun _ => 0%nat |}.

(** As [quiet_world], with the reputation service down. *)
Definition amari_down : World :=
  {| get_member := get_member quiet_world;
     amari_get_user := fun _ _ _ => AmariRaises;
     fetch_message := MessageFound;
     apply_multi := apply_multi quiet_world;
     random_index := random_index quiet_world |}.

(** As [quiet_world], with the draws going through the candidates in turn. *)
Definition alternating_world : World :=
  {| get_member := get_member quiet_world;
     amari_get_user := amari_get_user quiet_world;
     fetch_message := MessageFound;
     apply_multi := apply_multi quiet_world;
     random_index := fun n => n |}.

(** As [quiet_world], with the published message gone. *)
Definition message_gone : World :=
  {| get_member := get_member quiet_world;
     amari_get_user := amari_get_user quiet_world;
     fetch_message := MessageMissing;
     apply_multi := apply_multi quiet_world;
     random_index := random_index quiet_world |}.

Definition example_record (r : Requirements) (amount : Z) (ids : gset Z)
    (starts ends : datetime) : GiveawayMeta :=
  {| bot := BotHandle 0;
     message_id := 1;
     channel_id := 2;
     guild_id := 3;
     prize := Some "Nitro";
     requirements := Some r;
     flags := Some no_flags;
     emoji := Some ":tada:";
     amount_of_winners := Some amount;
     _entrants := ids;
     _winners := [];
     _host := Some 9;
     starts_at := Some starts;
     ends_at := ends |}.

(** A record with every field set, and the same record ending at the epoch
    instant. *)
Definition running_record : GiveawayMeta :=
  example_record no_requirements 2 {[ 7; 8 ]} 1000 5000.

Definition epoch_record : GiveawayMeta :=
  example_record no_requirements 2 {[ 7; 8 ]} (-1000) 0.

(** A record that ends at 2300-01-11T16:11:29.869113, which no float
    holds to the microsecond. *)
Definition far_record : GiveawayMeta :=
  example_record no_requirements 2 {[ 7; 8 ]} 1000 10414714289869113.

(** A record that ends at 9999-12-31T23:59:59.999999, the last instant
    of [datetime]. *)
Definition last_record : GiveawayMeta :=
  example_record no_requirements 2 {[ 7; 8 ]} 1000 253402300799999999.

(** A record built without a rule set and without flags. *)
Definition unruled_record : GiveawayMeta :=
  {| bot := BotHandle 0;
     message_id := 1;
     channel_id := 2;
     guild_id := 3;
     prize := Some "Giveaway prize";
     requirements := None;
     flags := None;
     emoji := Some ":tada:";
     amount_of_winners := Some 1;
     _entrants := ∅;
     _winners := [];
     _host := None;
     starts_at := Some 1000;
     ends_at := 5000 |}.

(** No rules, one winner, nobody entered yet. *)
Definition fresh_giveaway : Giveaway :=
  {| meta := example_record no_requirements 1 ∅ 1000 5000;
     _message_cache := None |}.

(** No rules, one winner, member 7 entered. *)
Definition entered_giveaway : Giveaway :=
  {| meta := example_record no_requirements 1 {[ 7 ]} 1000 5000;
     _message_cache := None |}.

(** A primary score threshold, nobody entered yet. *)
Definition levelled_giveaway : Giveaway :=
  {| meta := example_record level_five 1 ∅ 1000 5000;
     _message_cache := None |}.

(** The role [vip] required, two winners, both members entered. *)
Definition vip_giveaway : Giveaway :=
  {| meta := example_record vip_only 2 {[ 7; 8 ]} 1000 5000;
     _message_cache := None |}.

(** The giveaway of the reroll scenario: it ended with the single entrant
    7. *)
Definition ended_example : EndedGiveaway :=
  {| ended_meta := example_record no_requirements 1 {[ 7 ]} 1000 5000;
     reason := Some "Giveaway ended successfully." |}.

(** Four of the five required keys, without the bot. *)
Definition four_fields_no_bot : kwargs datetime Requirements GiveawayFlags :=
  {| k_bot := Absent;
     k_message_id := Given 1;
     k_channel_id := Given 2;
     k_guild_id := Given 3;
     k_prize := Absent;
     k_requirements := Absent;
     k_flags := Absent;
     k_emoji := Absent;
     k_amount_of_winners := Absent;
     k_entrants := Absent;
     k_winners := Absent;
     k_host := Absent;
     k_starts_at := Absent;
     k_ends_at := Given 5000;
     k_reason := Absent |}.

(** A schedule that ends before it starts. *)
Definition ends_before_start : kwargs datetime Requirements GiveawayFlags :=
  {| k_bot := Given (BotHandle 0);
     k_message_id := Given 1;
     k_channel_id := Given 2;
     k_guild_id := Given 3;
     k_prize := Absent;
     k_requirements := Absent;
     k_flags := Absent;
     k_emoji := Absent;
     k_amount_of_winners := Absent;
     k_entrants := Absent;
     k_winners := Absent;
     k_host := Absent;
     k_starts_at := Given 100;
     k_ends_at := Given 50;
     k_reason := Absent |}.

(** The required fields, a rule set and flags, and nothing else. *)
Definition optionals_omitted : init_args :=
  {| a_bot := BotHandle 0;
     a_message_id := Some 1;
     a_channel_id := Some 2;
     a_guild_id := Some 3;
     a_requirements := Some no_requirements;
     a_flags := Some no_flags;
     a_prize := None;
     a_host := None;
     a_amount_of_winners := None;
     a_emoji := None;
     a_starts_at := None;
     a_ends_at := Some 5000;
     a_entrants := None;
     a_winners := None;
     a_reason := None |}.

(** The no-donor flag set, alice the donor, and no rule set at all. *)
Definition donor_giveaway : Giveaway :=
  {| meta :=
       {| bot := BotHandle 0;
          message_id := 1;
          channel_id := 2;
          guild_id := 3;
          prize := Some "Nitro";
          requirements := None;
          flags :=
            Some {| no_donor := true;
                    donor := Some alice;
                    no_multiple_winners := false;
                    no_multi := false;
                    message_count := 0 |};
          emoji := Some ":tada:";
          amount_of_winners := Some 1;
          _entrants := ∅;
          _winners := [];
          _host := Some 9;
          starts_at := Some 1000;
          ends_at := 5000 |};
     _message_cache := None |}.

(** The role [vip] bypasses a primary score threshold of 5. *)
Definition vip_bypass : Requirements :=
  {| null := false;
     as_role_dict := fun _ =>
       [("bypass", RRoles [vip]); ("amari_level", RNum 5)];
     messages := None |}.

(** Three messages asked for. *)
Definition three_messages : Requirements :=
  {| null := false;
     as_role_dict := fun _ => [("bypass", RRoles []); ("messages", RNum 3)];
     messages := Some 3 |}.

(** A giveaway with a message threshold that ended with the entrant 7. *)
Definition ended_with_messages : EndedGiveaway :=
  {| ended_meta := example_record three_messages 1 {[ 7 ]} 1000 5000;
     reason := Some "Giveaway ended successfully." |}.

(** A giveaway that counts messages and has counted four of member 7. *)
Definition counting_giveaway : Giveaway :=
  {| meta := example_record three_messages 1 {[ 7 ]} 1000 5000;
     _message_cache := Some {[ 7 := 4 ]} |}.

(** A stored mapping with the five required keys and "starts_at" only. *)
Definition bare_mapping : kwargs posix Requirements GiveawayFlags :=
  {| k_bot := Given (BotHandle 0);
     k_message_id := Given 1;
     k_channel_id := Given 2;
     k_guild_id := Given 3;
     k_prize := Absent;
     k_requirements := Absent;
     k_flags := Absent;
     k_emoji := Absent;
     k_amount_of_winners := Absent;
     k_entrants := Absent;
     k_winners := Absent;
     k_host := Absent;
     k_starts_at := Given (timestamp 1000);
     k_ends_at := Given (timestamp 5000);
     k_reason := Absent |}.

(** A clock read at 900, 960, 1020, ... *)
Definition minute_clock (k : nat) : datetime := 900 + 60 * Z.of_nat k.

(** A client that has the channel and the message of the sample records in
    its caches, and whose fetches all fail. *)
Definition warm_client : Client :=
  {| cached_messages :=
       [ {| msg_id := 5; msg_channel := 2 |};
         {| msg_id := 1; msg_channel := 2 |} ];
     guild_cached := true;
     get_channel := fun cid => if cid =? 2 then Some 2 else None;
     fetch_channel := fun _ => Raise (GiveawayError "not found");
     channel_fetch_message := fun _ _ => Raise (GiveawayError "not found") |}.

(** Three distinct winners asked for, one entrant. *)
Definition distinct_giveaway : Giveaway :=
  {| meta :=
       {| bot := BotHandle 0;
          message_id := 1;
          channel_id := 2;
          guild_id := 3;
          prize := Some "Nitro";
          requirements := Some no_requirements;
          flags :=
            Some {| no_donor := false;
                    donor := None;
                    no_multiple_winners := true;
                    no_multi := false;
                    message_count := 0 |};
          emoji := Some ":tada:";
          amount_of_winners := Some 3;
          _entrants := {[ 7 ]};
          _winners := [];
          _host := Some 9;
          starts_at := Some 1000;
          ends_at := 5000 |};
     _message_cache := None |}.

(** * Properties *)

(** ** Construction *)

Lemma provided_some {T : Type} (truthy : T → bool) (a : arg T) :
  provided truthy a = true → ∃ v, a = Given v ∧ kw_truthy truthy a = Some v.
Proof.
  unfold provided, kw_truthy.
  destruct a as [| |v]; simpl; try discriminate.
  destruct (truthy v); [eauto | discriminate].
Qed.

Lemma provided_none {T : Type} (truthy : T → bool) (a : arg T) :
  provided truthy a = false → kw_truthy truthy a = None.
Proof.
  unfold provided. destruct (kw_truthy truthy a); [discriminate | reflexivity].
Qed.

(** [check_kwargs] reports the first of the five keys that is not provided,
    in the order message id, guild id, channel id, ends_at, bot. *)
Lemma check_kwargs_cases {TIME REQ FLAGS : Type} (truthy_time : TIME → bool)
    (k : kwargs TIME REQ FLAGS) :
  check_kwargs truthy_time k =
    if negb (provided truthy_int (k_message_id k)) then
      Raise (GiveawayError "No message ID provided.")
    else if negb (provided truthy_int (k_guild_id k)) then
      Raise (GiveawayError "No guild ID provided.")
    else if negb (provided truthy_int (k_channel_id k)) then
      Raise (GiveawayError "No channel ID provided.")
    else if negb (provided truthy_time (k_ends_at k)) then
      Raise (GiveawayError "No ends_at provided for the giveaway.")
    else if negb (provided truthy_object (k_bot k)) then
      Raise (GiveawayError "No bot object provided.")
    else
      match kw_get (k_message_id k), kw_get (k_guild_id k),
            kw_get (k_channel_id k), kw_get (k_ends_at k), kw_get (k_bot k) with
      | Some mid, Some gid, Some cid, Some e, Some b => Ret (mid, gid, cid, e, b)
      | _, _, _, _, _ => Raise (GiveawayError "No message ID provided.")
      end.
Proof.
  unfold check_kwargs, provided, kw_truthy.
  destruct (k_message_id k) as [| |mid]; simpl; try reflexivity.
  destruct (truthy_int mid); simpl; try reflexivity.
  destruct (k_guild_id k) as [| |gid]; simpl; try reflexivity.
  destruct (truthy_int gid); simpl; try reflexivity.
  destruct (k_channel_id k) as [| |cid]; simpl; try reflexivity.
  destruct (truthy_int cid); simpl; try reflexivity.
  destruct (k_ends_at k) as [| |e]; simpl; try reflexivity.
  destruct (truthy_time e); simpl; try reflexivity.
  destruct (k_bot k) as [| |b]; simpl; reflexivity.
Qed.

Lemma init_ret_inv (now : datetime)
    (k : kwargs datetime Requirements GiveawayFlags) (r : GiveawayMeta) :
  GiveawayMeta_init now k = Ret r →
  ∃ mid gid cid e b,
    check_kwargs truthy_object k = Ret (mid, gid, cid, e, b)
    ∧ r = {| bot := b;
             message_id := mid;
             channel_id := cid;
             guild_id := gid;
             prize := kw_get_default (k_prize k) "Giveaway prize";
             requirements := kw_get (k_requirements k);
             flags := kw_get (k_flags k);
             emoji := kw_get_default (k_emoji k) ":tada:";
             amount_of_winners := kw_get_default (k_amount_of_winners k) 1;
             _entrants :=
               list_to_set (or_empty (kw_get_default (k_entrants k) []));
             _winners := or_empty (kw_get (k_winners k));
             _host := kw_get (k_host k);
             starts_at := kw_get_default (k_starts_at k) now;
             ends_at := e |}.
Proof.
  unfold GiveawayMeta_init.
  destruct (check_kwargs truthy_object k) as [[[[[mid gid] cid] e] b]|err];
    simpl; [|discriminate].
  intros [= <-]. by exists mid, gid, cid, e, b.
Qed.

Lemma check_kwargs_ends_at {TIME REQ FLAGS : Type} (truthy_time : TIME → bool)
    (k : kwargs TIME REQ FLAGS) mid gid cid e b :
  check_kwargs truthy_time k = Ret (mid, gid, cid, e, b) →
  k_message_id k = Given mid ∧ k_guild_id k = Given gid
  ∧ k_channel_id k = Given cid ∧ k_ends_at k = Given e ∧ k_bot k = Given b
  ∧ truthy_int mid = true ∧ truthy_int gid = true ∧ truthy_int cid = true
  ∧ truthy_time e = true.
Proof.
  unfold check_kwargs, kw_truthy.
  destruct (k_message_id k) as [| |mid']; simpl; try discriminate.
  destruct (truthy_int mid') eqn:Hm; try discriminate.
  destruct (k_guild_id k) as [| |gid']; simpl; try discriminate.
  destruct (truthy_int gid') eqn:Hg; try discriminate.
  destruct (k_channel_id k) as [| |cid']; simpl; try discriminate.
  destruct (truthy_int cid') eqn:Hc; try discriminate.
  destruct (k_ends_at k) as [| |e']; simpl; try discriminate.
  destruct (truthy_time e') eqn:He; try discriminate.
  destruct (k_bot k) as [| |b']; simpl; try discriminate.
  intros [= <- <- <- <- <-]. by repeat split.
Qed.

Lemma provided_given {T : Type} (truthy : T → bool) (a : arg T) :
  provided truthy a = true ↔ ∃ v, a = Given v ∧ truthy v = true.
Proof.
  unfold provided, kw_truthy. split.
  - destruct a as [| |v]; simpl; try discriminate.
    destruct (truthy v) eqn:Hv; [eauto | discriminate].
  - intros (v & -> & Hv). simpl. by rewrite Hv.
Qed.

(** C7, as stated, fails: with message id, guild id, channel id and ends_at
    all present, construction still fails for a missing field, the bot. *)
Lemma construction_without_bot_fails :
  provided truthy_int (k_message_id four_fields_no_bot) = true
  ∧ provided truthy_int (k_guild_id four_fields_no_bot) = true
  ∧ provided truthy_int (k_channel_id four_fields_no_bot) = true
  ∧ provided truthy_object (k_ends_at four_fields_no_bot) = true
  ∧ GiveawayMeta_init 2000 four_fields_no_bot
    = Raise (GiveawayError "No bot object provided.").
Proof. repeat split. Qed.

(** C7 (amended): construction requires five keyword values, message id,
    guild id, channel id, ends_at and the bot handle, each present and
    truthy.  It succeeds exactly when all five are provided; otherwise it
    raises a [GiveawayError] whose message names the first one missing, in
    that order.  No other key is required. *)
Theorem construction_required_fields (now : datetime)
    (k : kwargs datetime Requirements GiveawayFlags) :
  (is_ret (GiveawayMeta_init now k) = true ↔
     provided truthy_int (k_message_id k) = true
     ∧ provided truthy_int (k_guild_id k) = true
     ∧ provided truthy_int (k_channel_id k) = true
     ∧ provided truthy_object (k_ends_at k) = true
     ∧ provided truthy_object (k_bot k) = true)
  ∧ (provided truthy_int (k_message_id k) = false →
     GiveawayMeta_init now k = Raise (GiveawayError "No message ID provided."))
  ∧ (provided truthy_int (k_message_id k) = true →
     provided truthy_int (k_guild_id k) = false →
     GiveawayMeta_init now k = Raise (GiveawayError "No guild ID provided."))
  ∧ (provided truthy_int (k_message_id k) = true →
     provided truthy_int (k_guild_id k) = true →
     provided truthy_int (k_channel_id k) = false →
     GiveawayMeta_init now k = Raise (GiveawayError "No channel ID provided."))
  ∧ (provided truthy_int (k_message_id k) = true →
     provided truthy_int (k_guild_id k) = true →
     provided truthy_int (k_channel_id k) = true →
     provided truthy_object (k_ends_at k) = false →
     GiveawayMeta_init now k
     = Raise (GiveawayError "No ends_at provided for the giveaway."))
  ∧ (provided truthy_int (k_message_id k) = true →
     provided truthy_int (k_guild_id k) = true →
     provided truthy_int (k_channel_id k) = true →
     provided truthy_object (k_ends_at k) = true →
     provided truthy_object (k_bot k) = false →
     GiveawayMeta_init now k = Raise (GiveawayError "No bot object provided.")).
Proof.
  unfold GiveawayMeta_init. rewrite check_kwargs_cases.
  destruct (provided truthy_int (k_message_id k)) eqn:Hm; simpl;
    [|by repeat split; try discriminate; intros; intuition discriminate].
  destruct (provided truthy_int (k_guild_id k)) eqn:Hg; simpl;
    [|by repeat split; try discriminate; intros; intuition discriminate].
  destruct (provided truthy_int (k_channel_id k)) eqn:Hc; simpl;
    [|by repeat split; try discriminate; intros; intuition discriminate].
  destruct (provided truthy_object (k_ends_at k)) eqn:He; simpl;
    [|by repeat split; try discriminate; intros; intuition discriminate].
  destruct (provided truthy_object (k_bot k)) eqn:Hb; simpl;
    [|by repeat split; try discriminate; intros; intuition discriminate].
  apply provided_some in Hm as (mid & -> & _).
  apply provided_some in Hg as (gid & -> & _).
  apply provided_some in Hc as (cid & -> & _).
  apply provided_some in He as (e & -> & _).
  apply provided_some in Hb as (b & -> & _).
  simpl. repeat split; try discriminate; done.
Qed.

(** C3, as stated, fails: construction succeeds on a schedule whose ends_at
    lies before its starts_at and produces that record. *)
Lemma construction_accepts_ends_before_start :
  ∃ r, GiveawayMeta_init 7 ends_before_start = Ret r
       ∧ starts_at r = Some 100 ∧ ends_at r = 50 ∧ ends_at r <= 100.
Proof. eexists. repeat split. simpl. lia. Qed.

(** C3 (amended): construction does not compare ends_at with starts_at.  A
    construction that succeeds yields a record whose ends_at is the ends_at
    supplied and whose starts_at is the starts_at supplied (the clock at
    construction when the key is absent); so ends_at > starts_at holds of
    the record exactly when it holds of the supplied values. *)
Theorem construction_keeps_schedule (now : datetime)
    (k : kwargs datetime Requirements GiveawayFlags) (r : GiveawayMeta) :
  GiveawayMeta_init now k = Ret r →
  k_ends_at k = Given (ends_at r)
  ∧ starts_at r = kw_get_default (k_starts_at k) now
  ∧ ∀ s, starts_at r = Some s →
      (s < ends_at r ↔
       ∃ e s', k_ends_at k = Given e
               ∧ kw_get_default (k_starts_at k) now = Some s' ∧ s' < e).
Proof.
  intros Hinit.
  apply init_ret_inv in Hinit as (mid & gid & cid & e & b & Hck & ->).
  apply check_kwargs_ends_at in Hck as (_ & _ & _ & He & _).
  simpl. split; [done|]. split; [done|].
  intros s Hs. split.
  - intros Hlt. exists e, s. by rewrite He.
  - intros (e' & s' & He' & Hs' & Hlt).
    rewrite He in He'. injection He' as <-.
    rewrite Hs in Hs'. by injection Hs' as <-.
Qed.

Lemma construction_keeps_schedule_witness :
  ∃ r, GiveawayMeta_init 7 ends_before_start = Ret r
       ∧ k_ends_at ends_before_start = Given (ends_at r)
       ∧ starts_at r = Some 100.
Proof.
  eexists. split; [reflexivity|].
  pose proof (construction_keeps_schedule 7 ends_before_start _ eq_refl)
    as (He & Hs & _).
  split; [exact He | exact Hs].
Defined.

(** [GiveawayMeta.__init__] on a mapping that lacks the optional keys: the
    defaults of the [kwargs.get] calls apply. *)
Lemma GiveawayMeta_init_defaults (now : datetime)
    (k : kwargs datetime Requirements GiveawayFlags) (r : GiveawayMeta) :
  GiveawayMeta_init now k = Ret r →
  (k_prize k = Absent → prize r = Some "Giveaway prize")
  ∧ (k_amount_of_winners k = Absent → amount_of_winners r = Some 1)
  ∧ (k_emoji k = Absent → emoji r = Some ":tada:")
  ∧ (k_entrants k = Absent → _entrants r = ∅)
  ∧ (k_winners k = Absent → _winners r = [])
  ∧ (k_starts_at k = Absent → starts_at r = Some now).
Proof.
  intros Hinit.
  apply init_ret_inv in Hinit as (mid & gid & cid & e & b & _ & ->).
  simpl. repeat split; intros ->; reflexivity.
Qed.

(** [Giveaway.__init__] hands every parameter to [GiveawayMeta.__init__],
    [None] included, so no default of the [kwargs.get] calls applies; an
    omitted [starts_at] is the import instant. *)
Lemma Giveaway_init_fields (import_time now : datetime) (a : init_args)
    (g : Giveaway) (waits : bool) :
  Giveaway_init import_time now a = Ret (g, waits) →
  prize (meta g) = a_prize a
  ∧ emoji (meta g) = a_emoji a
  ∧ amount_of_winners (meta g) = a_amount_of_winners a
  ∧ _entrants (meta g) = list_to_set (default [] (a_entrants a))
  ∧ _winners (meta g) = default [] (a_winners a)
  ∧ starts_at (meta g) = Some (default import_time (a_starts_at a)).
Proof.
  unfold Giveaway_init.
  destruct (GiveawayMeta_init now (super_kwargs import_time a)) as [m|err]
    eqn:Hinit; simpl; [|discriminate].
  destruct (starts_after now m) as [ws|err]; simpl; [|discriminate].
  destruct (wants_message_cache m) as [cs|err]; simpl; [|discriminate].
  intros [= <- <-]. simpl.
  apply init_ret_inv in Hinit as (mid & gid & cid & e & b & _ & ->). simpl.
  destruct a as [ab am ac ag ar af ap ah aw ae asa aea aen awi are]; simpl.
  repeat split.
  - by destruct ap.
  - by destruct ae.
  - by destruct aw.
  - by destruct aen.
  - by destruct awi.
Qed.

(** [Giveaway.__init__] reads [self.flags.message_count]: without flags it
    raises, whatever else is passed. *)
Lemma Giveaway_init_without_flags (import_time now : datetime)
    (a : init_args) :
  a_flags a = None → is_ret (Giveaway_init import_time now a) = false.
Proof.
  intros Hflags. unfold Giveaway_init.
  destruct (GiveawayMeta_init now (super_kwargs import_time a)) as [m|err]
    eqn:Hinit; simpl; [|reflexivity].
  apply init_ret_inv in Hinit as (mid & gid & cid & e & b & _ & ->).
  unfold starts_after, wants_message_cache. simpl. by rewrite Hflags.
Qed.

(** C6: the code at the failing input.  Module imported at instant 10,
    [Giveaway] constructed at instant 2000 with the optional fields omitted:
    prize, emoji and amount_of_winners are [None], not the defaults, and
    starts_at is the import instant, not the construction instant; only
    entrants and winners come out empty as documented. *)
Theorem Giveaway_init_optionals_omitted :
  ∃ g waits,
    Giveaway_init 10 2000 optionals_omitted = Ret (g, waits)
    ∧ prize (meta g) = None
    ∧ emoji (meta g) = None
    ∧ amount_of_winners (meta g) = None
    ∧ starts_at (meta g) = Some 10
    ∧ _entrants (meta g) = ∅
    ∧ _winners (meta g) = [].
Proof. do 2 eexists. repeat split. Qed.

(** ** Serialization *)

Lemma kw_get_pass {T : Type} (o : option T) : kw_get (pass o) = o.
Proof. by destruct o. Qed.

Lemma kw_get_default_pass {T : Type} (o : option T) (d : T) :
  kw_get_default (pass o) d = o.
Proof. by destruct o. Qed.

(** The float model at a few points: an instant of the year 2300 comes
    back one microsecond later; an instant before the epoch comes back;
    the last instant of [datetime] rounds up out of range; [1e18] is
    refused by [gmtime]; a NaN and an infinity are refused. *)
Lemma fromtimestamp_examples :
  fromtimestamp (timestamp 10414714289869113) = Ret 10414714289869114
  ∧ fromtimestamp (timestamp (-1)) = Ret (-1)
  ∧ fromtimestamp (timestamp 253402300799999999) = Raise ValueError
  ∧ fromtimestamp (float_of_int (10 ^ 18)) = Raise OSError
  ∧ fromtimestamp S754_nan = Raise ValueError
  ∧ fromtimestamp (S754_infinity false) = Raise OverflowError.
Proof. split_and!; vm_compute; reflexivity. Qed.

(** The only instant whose timestamp is falsy is the epoch, among the
    instants that come back from their timestamp. *)
Lemma timestamp_truthy (d : datetime) :
  d ≠ 0 → fromtimestamp (timestamp d) = Ret d →
  truthy_posix (timestamp d) = true.
Proof.
  intros Hd Hback. destruct (timestamp d) as [[|]| | |]; try reflexivity;
    vm_compute in Hback; by injection Hback.
Qed.

Lemma timestamp_epoch : truthy_posix (timestamp 0) = false.
Proof. reflexivity. Qed.

Section RoundTrip.
Context {ReqJson FlagsJson : Type}.
Variable Requirements_json : Requirements → ReqJson.
Variable Requirements_from_json : option ReqJson → Requirements.
Variable GiveawayFlags_json : GiveawayFlags → FlagsJson.
Variable GiveawayFlags_from_json : option FlagsJson → Z → GiveawayFlags.
Variable empty_requirements : ReqJson.
Variable empty_flags : FlagsJson.

Local Abbreviation to_json :=
  (json Requirements_json GiveawayFlags_json empty_requirements empty_flags).
Local Abbreviation of_json :=
  (GiveawayMeta_from_json Requirements_from_json GiveawayFlags_from_json
     empty_requirements empty_flags).

(** What [from_json] rebuilds from [json], field by field, whenever the
    mapping passes [check_kwargs] and both timestamps convert back. *)
Lemma from_json_json_fields (now : datetime) (b : Bot) (x : GiveawayMeta)
    (s e' s' : datetime) :
  truthy_int (message_id x) = true →
  truthy_int (guild_id x) = true →
  truthy_int (channel_id x) = true →
  truthy_posix (timestamp (ends_at x)) = true →
  starts_at x = Some s →
  fromtimestamp (timestamp (ends_at x)) = Ret e' →
  fromtimestamp (timestamp s) = Ret s' →
  ∃ j, to_json x = Ret j
       ∧ of_json now (update_bot b j)
         = Ret {| bot := b;
                  message_id := message_id x;
                  channel_id := channel_id x;
                  guild_id := guild_id x;
                  prize := prize x;
                  requirements :=
                    Some (Requirements_from_json
                            (Some (match requirements x with
                                   | Some r => Requirements_json r
                                   | None => empty_requirements
                                   end)));
                  flags :=
                    Some (GiveawayFlags_from_json
                            (Some (match flags x with
                                   | Some f => GiveawayFlags_json f
                                   | None => empty_flags
                                   end)) (guild_id x));
                  emoji := emoji x;
                  amount_of_winners := amount_of_winners x;
                  _entrants := _entrants x;
                  _winners := _winners x;
                  _host := _host x;
                  starts_at := Some s';
                  ends_at := e' |}.
Proof.
  intros Hm Hg Hc He Hs Hte Hts.
  unfold json. rewrite Hs. eexists. split; [reflexivity|].
  unfold GiveawayMeta_from_json, from_json_kwargs, check_kwargs, kw_truthy.
  simpl. rewrite Hm, Hg, Hc, He. simpl. rewrite Hte. simpl. rewrite Hts.
  simpl. unfold GiveawayMeta_init, check_kwargs, kw_truthy. simpl.
  rewrite Hm, Hg, Hc. simpl.
  rewrite !kw_get_default_pass, !kw_get_pass, list_to_set_elements_L.
  reflexivity.
Qed.

(** C4 (amended): for every record whose three ids are non-zero, whose
    ends_at is not the epoch instant, whose starts_at is set, whose two
    instants are ones that [fromtimestamp] gives back from their float
    [timestamp], and whose requirements and flags are objects that their
    own [json] and [from_json] reproduce, [from_json] applied to the
    [json] mapping with a bot handle re-supplied succeeds and yields a
    record equal to the original in every field, the bot being the handle
    supplied. *)
Theorem from_json_json (now : datetime) (b : Bot) (x : GiveawayMeta)
    (s : datetime) (r : Requirements) (f : GiveawayFlags) :
  truthy_int (message_id x) = true →
  truthy_int (guild_id x) = true →
  truthy_int (channel_id x) = true →
  ends_at x ≠ 0 →
  starts_at x = Some s →
  fromtimestamp (timestamp (ends_at x)) = Ret (ends_at x) →
  fromtimestamp (timestamp s) = Ret s →
  requirements x = Some r →
  flags x = Some f →
  Requirements_from_json (Some (Requirements_json r)) = r →
  GiveawayFlags_from_json (Some (GiveawayFlags_json f)) (guild_id x) = f →
  ∃ j, to_json x = Ret j ∧ of_json now (update_bot b j) = Ret (set_bot b x).
Proof.
  intros Hm Hg Hc He Hs Hte Hts Hr Hf Hrr Hff.
  apply timestamp_truthy in He; [|exact Hte].
  destruct (from_json_json_fields now b x s _ _ Hm Hg Hc He Hs Hte Hts)
    as (j & Hj & Hx).
  exists j. split; [exact Hj|].
  rewrite Hx, Hr, Hf, Hrr, Hff. unfold set_bot. by rewrite Hr, Hf, Hs.
Qed.

(** A record without a rule set comes back with the rule set that
    [Requirements.from_json] builds from the empty dict; likewise for
    flags. *)
Lemma from_json_json_none (now : datetime) (b : Bot) (x : GiveawayMeta)
    (s e' s' : datetime) :
  truthy_int (message_id x) = true →
  truthy_int (guild_id x) = true →
  truthy_int (channel_id x) = true →
  truthy_posix (timestamp (ends_at x)) = true →
  starts_at x = Some s →
  fromtimestamp (timestamp (ends_at x)) = Ret e' →
  fromtimestamp (timestamp s) = Ret s' →
  requirements x = None →
  ∃ j y, to_json x = Ret j ∧ of_json now (update_bot b j) = Ret y
         ∧ requirements y
           = Some (Requirements_from_json (Some empty_requirements))
         ∧ requirements y ≠ requirements x.
Proof.
  intros Hm Hg Hc He Hs Hte Hts Hr.
  destruct (from_json_json_fields now b x s _ _ Hm Hg Hc He Hs Hte Hts)
    as (j & Hj & Hx).
  eexists j, _. split; [exact Hj|]. split; [exact Hx|].
  simpl. rewrite Hr. split; [reflexivity | discriminate].
Qed.

(** A timestamp that does not convert back makes [from_json] raise what
    [fromtimestamp] raises; one that converts to another instant comes
    back as that instant. *)
Lemma from_json_json_ends_raises (now : datetime) (b : Bot)
    (x : GiveawayMeta) (s : datetime) (err : exn) :
  truthy_int (message_id x) = true →
  truthy_int (guild_id x) = true →
  truthy_int (channel_id x) = true →
  truthy_posix (timestamp (ends_at x)) = true →
  starts_at x = Some s →
  fromtimestamp (timestamp (ends_at x)) = Raise err →
  ∃ j, to_json x = Ret j ∧ of_json now (update_bot b j) = Raise err.
Proof.
  intros Hm Hg Hc He Hs Hte.
  unfold json. rewrite Hs. eexists. split; [reflexivity|].
  unfold GiveawayMeta_from_json, from_json_kwargs, check_kwargs, kw_truthy.
  simpl. rewrite Hm, Hg, Hc, He. simpl. rewrite Hte. reflexivity.
Qed.

(** A record whose ends_at is the epoch instant serializes, and its
    mapping is refused by [check_kwargs]: the timestamp 0.0 is falsy. *)
Lemma from_json_json_epoch (now : datetime) (b : Bot) (x : GiveawayMeta)
    (s : datetime) :
  truthy_int (message_id x) = true →
  truthy_int (guild_id x) = true →
  truthy_int (channel_id x) = true →
  ends_at x = 0 →
  starts_at x = Some s →
  ∃ j, to_json x = Ret j
       ∧ of_json now (update_bot b j)
         = Raise (GiveawayError "No ends_at provided for the giveaway.").
Proof.
  intros Hm Hg Hc He Hs.
  unfold json. rewrite Hs. eexists. split; [reflexivity|].
  unfold GiveawayMeta_from_json, from_json_kwargs, check_kwargs, kw_truthy.
  simpl. rewrite Hm, Hg, Hc, He. reflexivity.
Qed.
End RoundTrip.

(** C4, as stated, fails.  A record that ends at the epoch instant, with
    every field set, does not come back from its own serialized form: the
    mapping is refused.  A record without a rule set comes back with one,
    the rule set read from the empty dict.  A record that ends at
    2300-01-11T16:11:29.869113 comes back ending one microsecond later,
    and one that ends at 9999-12-31T23:59:59.999999 does not come back:
    its timestamp rounds up to the year 10000. *)
Lemma roundtrip_fails :
  (∃ j, json id id no_requirements no_flags epoch_record = Ret j
        ∧ GiveawayMeta_from_json (default no_requirements)
            (fun o _ => default no_flags o) no_requirements no_flags 2000
            (update_bot (BotHandle 0) j)
          = Raise (GiveawayError "No ends_at provided for the giveaway."))
  ∧ (∃ j y, json id id no_requirements no_flags unruled_record = Ret j
            ∧ GiveawayMeta_from_json (default no_requirements)
                (fun o _ => default no_flags o) no_requirements no_flags 2000
                (update_bot (BotHandle 0) j)
              = Ret y
            ∧ requirements unruled_record = None
            ∧ requirements y = Some no_requirements)
  ∧ (∃ j y, json id id no_requirements no_flags far_record = Ret j
            ∧ GiveawayMeta_from_json (default no_requirements)
                (fun o _ => default no_flags o) no_requirements no_flags 2000
                (update_bot (BotHandle 0) j)
              = Ret y
            ∧ ends_at far_record = 10414714289869113
            ∧ ends_at y = 10414714289869114)
  ∧ (∃ j, json id id no_requirements no_flags last_record = Ret j
          ∧ GiveawayMeta_from_json (default no_requirements)
              (fun o _ => default no_flags o) no_requirements no_flags 2000
              (update_bot (BotHandle 0) j)
            = Raise ValueError).
Proof.
  split_and!.
  - eexists. split; reflexivity.
  - do 2 eexists. split; [reflexivity|]. split; [vm_compute; reflexivity|].
    split; reflexivity.
  - do 2 eexists. split; [reflexivity|]. split; [vm_compute; reflexivity|].
    split; reflexivity.
  - eexists. split; [reflexivity|]. vm_compute. reflexivity.
Qed.

Lemma from_json_json_witness :
  ∃ j, json id id no_requirements no_flags running_record = Ret j
       ∧ GiveawayMeta_from_json (default no_requirements)
           (fun o _ => default no_flags o) no_requirements no_flags 2000
           (update_bot (BotHandle 4) j)
         = Ret (set_bot (BotHandle 4) running_record).
Proof.
  apply (from_json_json id (default no_requirements) id
           (fun o _ => default no_flags o) no_requirements no_flags
           2000 (BotHandle 4) running_record 1000 no_requirements no_flags);
    (reflexivity || (simpl; lia)).
Defined.

(** ** Entry verification *)

Lemma verify_items_app (w : World) (g : GiveawayMeta)
    (cache : option (gmap Z Z)) (m : Member)
    (pre post : list (string * reqval)) :
  verify_items w g cache m (pre ++ post) =
    match verify_items w g cache m pre with
    | (Ret None, cache') => verify_items w g cache' m post
    | stop => stop
    end.
Proof.
  revert cache. induction pre as [|[key value] pre IH]; intros cache; simpl.
  - reflexivity.
  - destruct (truthy_reqval value); [|apply IH].
    destruct value as [|roles|n]; [apply IH| |].
    + destruct (verify_roles g key roles m); [reflexivity | apply IH].
    + destruct (verify_number w g cache m key n) as [[[stmt|]|e] cache'];
        [reflexivity | apply IH | reflexivity].
Qed.

(** The service raising at the primary lookup. *)
Lemma verify_number_level_raises (w : World) (g : GiveawayMeta)
    (cache : option (gmap Z Z)) (m : Member) (v : Z) :
  amari_get_user w LevelLookup (member_guild m) (member_id m) = AmariRaises →
  verify_number w g cache m "amari_level" v = (Raise ServiceError, cache).
Proof. intros H. unfold verify_number. simpl. by rewrite H. Qed.

Lemma verify_number_weekly_zero (w : World) (g : GiveawayMeta)
    (cache : option (gmap Z Z)) (m : Member) (key : string) (v : Z) :
  verify_number (weekly_zero w) g cache m key v = verify_number w g cache m key v.
Proof.
  unfold verify_number.
  destruct (String.eqb key "amari_level"); [reflexivity|].
  destruct (String.eqb key "amari_weekly"); [|reflexivity].
  simpl.
  by destruct (amari_get_user w WeeklyLookup (member_guild m) (member_id m))
    as [|[u|]].
Qed.

Lemma verify_items_weekly_zero (w : World) (g : GiveawayMeta)
    (cache : option (gmap Z Z)) (m : Member) (items : list (string * reqval)) :
  verify_items (weekly_zero w) g cache m items = verify_items w g cache m items.
Proof.
  revert cache. induction items as [|[key value] items IH]; intros cache; simpl.
  - reflexivity.
  - destruct (truthy_reqval value); [|apply IH].
    destruct value as [|roles|n]; [apply IH| |].
    + destruct (verify_roles g key roles m); [reflexivity | apply IH].
    + rewrite verify_number_weekly_zero.
      destruct (verify_number w g cache m key n) as [[[stmt|]|e] cache'];
        [reflexivity | apply IH | reflexivity].
Qed.

Lemma verify_entry_weekly_zero (w : World) (g : GiveawayMeta)
    (cache : option (gmap Z Z)) (member : option Member) :
  verify_entry (weekly_zero w) g cache member = verify_entry w g cache member.
Proof.
  unfold verify_entry.
  replace (is_excluded_donor (weekly_zero w) g member)
    with (is_excluded_donor w g member) by reflexivity.
  destruct (is_excluded_donor w g member) as [[|]|e]; try reflexivity.
  destruct (requirements g) as [r|]; [|reflexivity].
  destruct (null r); [reflexivity|].
  destruct member as [m|]; [|reflexivity].
  destruct (bypasses _ m) as [[|]|e]; try reflexivity.
  by rewrite verify_items_weekly_zero.
Qed.

(** A failed verification leaves the object's fields alone: [add_entrant]
    changes [_entrants] on the [True] path only. *)
Lemma add_entrant_meta (w : World) (g g' : Giveaway) (member : option Member)
    (r : res entry) :
  add_entrant w g member = (r, g') →
  r = Ret EntryTrue ∨ meta g' = meta g.
Proof.
  unfold add_entrant.
  destruct (verify_entry w (meta g) (_message_cache g) member)
    as [[[[|] stmt]|e] cache].
  - destruct member as [m|].
    + destruct (py_in _ _); intros [= <- <-]; auto.
    + intros [= <- <-]; auto.
  - intros [= <- <-]; auto.
  - intros [= <- <-]; auto.
Qed.

Lemma add_entrant_raises (w : World) (g : Giveaway) (member : option Member)
    (e : exn) :
  fst (verify_entry w (meta g) (_message_cache g) member) = Raise e →
  fst (add_entrant w g member) = Raise e
  ∧ meta (snd (add_entrant w g member)) = meta g.
Proof.
  unfold add_entrant.
  destruct (verify_entry w (meta g) (_message_cache g) member)
    as [[[[|] stmt]|e'] cache]; simpl; try discriminate.
  by intros [= ->].
Qed.

(** C9: when evaluation reaches the primary threshold (the donor check and
    the bypass test do not settle the entry, the items before "amari_level"
    pass, and the threshold is truthy) and the service raises on that
    lookup, [verify_entry] raises and so does [add_entrant], the entrant
    set untouched.  A weekly lookup that raises never shows: every
    evaluation comes out as it does when that lookup returns weekly score
    0. *)
Theorem amari_lookup_failures (w : World) (g : Giveaway) (m : Member)
    (r : Requirements) (pre post : list (string * reqval)) (v : Z) :
  is_excluded_donor w (meta g) (Some m) = Ret false →
  requirements (meta g) = Some r →
  null r = false →
  as_role_dict r (member_guild m) = pre ++ ("amari_level", RNum v) :: post →
  bypasses (as_role_dict r (member_guild m)) m = Ret false →
  fst (verify_items w (meta g) (_message_cache g) m pre) = Ret None →
  v ≠ 0 →
  amari_get_user w LevelLookup (member_guild m) (member_id m) = AmariRaises →
  fst (verify_entry w (meta g) (_message_cache g) (Some m)) = Raise ServiceError
  ∧ fst (add_entrant w g (Some m)) = Raise ServiceError
  ∧ _entrants (meta (snd (add_entrant w g (Some m)))) = _entrants (meta g)
  ∧ (∀ (w' : World) (g' : GiveawayMeta) (cache' : option (gmap Z Z))
       (member' : option Member),
       verify_entry w' g' cache' member'
       = verify_entry (weekly_zero w') g' cache' member')
  ∧ (∀ (w' : World) (g' : GiveawayMeta) (cache' : option (gmap Z Z))
       (m' : Member) (v' : Z),
       amari_get_user w' WeeklyLookup (member_guild m') (member_id m')
       = AmariRaises →
       is_ret (fst (verify_number w' g' cache' m' "amari_weekly" v')) = true
       ∧ (fst (verify_number w' g' cache' m' "amari_weekly" v') = Ret None
          ↔ v' <= 0)).
Proof.
  intros Hdonor Hreq Hnull Hitems Hbypass Hpre Hv Hraise.
  assert (Hverify :
    fst (verify_entry w (meta g) (_message_cache g) (Some m))
    = Raise ServiceError).
  { unfold verify_entry. rewrite Hdonor, Hreq, Hnull, Hbypass, Hitems.
    rewrite verify_items_app.
    destruct (verify_items w (meta g) (_message_cache g) m pre)
      as [[[stmt|]|e] cache'] eqn:Hp; simpl in Hpre; try discriminate.
    simpl. unfold truthy_int.
    destruct (v =? 0) eqn:Hz; [apply Z.eqb_eq in Hz; contradiction|].
    simpl. by rewrite verify_number_level_raises. }
  split; [exact Hverify|].
  destruct (add_entrant_raises w g (Some m) ServiceError Hverify) as [Ha Hm].
  split; [exact Ha|]. split; [by rewrite Hm|].
  split.
  - intros w' g' cache' member'. symmetry. apply verify_entry_weekly_zero.
  - intros w' g' cache' m' v' Hweekly.
    unfold verify_number. simpl. rewrite Hweekly. simpl.
    destruct (0 <? v') eqn:Hlt; simpl.
    + apply Z.ltb_lt in Hlt. split; [reflexivity|].
      split; [discriminate | lia].
    + apply Z.ltb_ge in Hlt. split; [reflexivity|]. by split.
Qed.

Lemma amari_lookup_failures_witness :
  fst (add_entrant amari_down levelled_giveaway (Some alice))
  = Raise ServiceError.
Proof.
  refine (proj1 (proj2
    (amari_lookup_failures amari_down levelled_giveaway alice level_five
       [("bypass", RRoles [])] [] 5 _ _ _ _ _ _ _ _)));
    try reflexivity.
  discriminate.
Defined.

(** ** The entrant set *)

(** An id is never found among the member objects of [self.entrants]. *)
Lemma int_not_in_members (n : Z) (l : list (option Member)) :
  py_in (PyInt n) (map of_member l) = false.
Proof.
  induction l as [|[m|] l IH]; simpl; [reflexivity | exact IH | exact IH].
Qed.

(** So [add_entrant] never takes its [return False]. *)
Lemma add_entrant_never_false (w : World) (g g' : Giveaway)
    (member : option Member) (r : entry) :
  add_entrant w g member = (Ret r, g') → r ≠ EntryFalse.
Proof.
  unfold add_entrant.
  destruct (verify_entry w (meta g) (_message_cache g) member)
    as [[[[|] stmt]|e] cache].
  - destruct member as [m|]; [|discriminate].
    rewrite int_not_in_members. intros [= <- <-]. discriminate.
  - intros [= <- <-]. discriminate.
  - discriminate.
Qed.

(** A verification that fails returns its statement and leaves the entrant
    set as it was. *)
Lemma add_entrant_rejected (w : World) (g : Giveaway) (member : option Member)
    (statement : string) (cache : option (gmap Z Z)) :
  verify_entry w (meta g) (_message_cache g) member
  = (Ret (false, statement), cache) →
  add_entrant w g member
  = (Ret (EntryStatement statement),
     {| meta := meta g; _message_cache := cache |}).
Proof. intros H. unfold add_entrant. by rewrite H. Qed.

(** Entering again leaves the entrant set unchanged, whatever is returned. *)
Lemma add_entrant_again (w : World) (g : Giveaway) (m : Member) :
  member_id m ∈ _entrants (meta g) →
  _entrants (meta (snd (add_entrant w g (Some m)))) = _entrants (meta g).
Proof.
  intros Hin. unfold add_entrant.
  destruct (verify_entry w (meta g) (_message_cache g) (Some m))
    as [[[[|] stmt]|e] cache]; simpl; try reflexivity.
  rewrite int_not_in_members. simpl.
  apply subseteq_union_1_L. by apply singleton_subseteq_l.
Qed.

(** C5: the code at the failing input.  A member enters a giveaway without
    rules, then enters again: the entrant set stays the same, and the
    second call returns [True] like the first, not [False]. *)
Theorem add_entrant_twice :
  ∃ g1 g2,
    add_entrant quiet_world fresh_giveaway (Some alice) = (Ret EntryTrue, g1)
    ∧ add_entrant quiet_world g1 (Some alice) = (Ret EntryTrue, g2)
    ∧ _entrants (meta g1) = {[ 7 ]}
    ∧ _entrants (meta g2) = _entrants (meta g1).
Proof. do 2 eexists. repeat split. Qed.

(** ** Winner selection *)

Lemma py_eq_key (a b : option Member) :
  py_eq (of_member a) (of_member b) = true ↔ member_key a = member_key b.
Proof.
  destruct a as [a|], b as [b|]; simpl; try (split; [discriminate | done]).
  - rewrite Z.eqb_eq. split; [by intros -> | by intros [= ->]].
  - done.
Qed.

Lemma py_in_key (c : option Member) (l : list (option Member)) :
  py_in (of_member c) (map of_member l) = true
  ↔ member_key c ∈ map member_key l.
Proof.
  unfold py_in. induction l as [|x l IH]; simpl.
  - split; [discriminate | by intros ?%elem_of_nil].
  - rewrite orb_true_iff, py_eq_key, IH, elem_of_cons. tauto.
Qed.

Lemma choice_elem_of {A : Type} (w : World) (n : nat) (seq : list A) (x : A) :
  choice w n seq = Ret x → x ∈ seq.
Proof.
  unfold choice.
  destruct (seq !! _) as [y|] eqn:Hy; [|discriminate].
  intros [= <-]. by eapply list_elem_of_lookup_2.
Qed.

Lemma choice_nonempty {A : Type} (w : World) (n : nat) (seq : list A) :
  seq ≠ [] → ∃ x, choice w n seq = Ret x ∧ x ∈ seq.
Proof.
  intros Hne. unfold choice.
  destruct (seq !! (random_index w n `mod` length seq)%nat) as [x|] eqn:Hx.
  - exists x. split; [done|]. by eapply list_elem_of_lookup_2.
  - apply lookup_ge_None in Hx.
    assert (length seq ≠ 0%nat) by (destruct seq; simpl; [done | lia]).
    pose proof (Nat.mod_upper_bound (random_index w n) (length seq)). lia.
Qed.

(** A [pick_loop] that returns has drawn once per round, keeps what was
    already picked, adds drawn candidates only, at most one per round, and
    under the no-multiple-winners flag never adds a candidate twice. *)
Lemma pick_loop_ret (w : World) (g : GiveawayMeta) (rounds : nat) :
  ∀ (pool w_list : list (option Member)) (cache : option (gmap Z Z)) (n : nat)
    (l : list (option Member)) (cache' : option (gmap Z Z)) (n' : nat),
    pick_loop w g rounds pool w_list cache n = (Ret l, cache', n') →
    n' = (n + rounds)%nat
    ∧ (length l ≤ length w_list + rounds)%nat
    ∧ (∀ x, x ∈ l → x ∈ w_list ∨ x ∈ pool)
    ∧ (∀ f, flags g = Some f → no_multiple_winners f = true →
            NoDup (map member_key w_list) → NoDup (map member_key l)).
Proof.
  induction rounds as [|rounds IH]; intros pool w_list cache n l cache' n';
    simpl.
  - intros [= <- <- <-]. repeat split; auto; lia.
  - destruct (choice w n pool) as [c|e] eqn:Hc; [|discriminate].
    apply choice_elem_of in Hc.
    destruct (verify_entry w g cache c) as [[[[|] stmt]|e] cache1];
      [| |discriminate].
    + destruct (flags g) as [f|] eqn:Hf; [|discriminate].
      destruct (no_multiple_winners f
                && py_in (of_member c) (map of_member w_list)) eqn:Hdup.
      * intros H. apply IH in H as (-> & Hlen & Hin & Hnd).
        repeat split; [lia | lia | exact Hin | exact Hnd].
      * intros H. apply IH in H as (-> & Hlen & Hin & Hnd).
        rewrite length_app in Hlen. simpl in Hlen.
        repeat split; [lia | lia | |].
        -- intros x Hx. destruct (Hin x Hx) as [Hx'|Hx']; [|by right].
           apply elem_of_app in Hx' as [Hx'|Hx']; [by left|].
           apply list_elem_of_singleton in Hx' as ->. by right.
        -- intros f' Hf' Hflag Hnodup. apply (Hnd f' Hf' Hflag).
           assert (f' = f) as -> by congruence.
           rewrite Hflag in Hdup. simpl in Hdup.
           rewrite map_app. simpl. apply NoDup_app. split; [done|].
           split; [|apply NoDup_singleton].
           intros k Hk ->%list_elem_of_singleton.
           apply py_in_key in Hk. congruence.
    + intros H. apply IH in H as (-> & Hlen & Hin & Hnd).
      repeat split; [lia | lia | exact Hin | exact Hnd].
Qed.

(** When every draw passes verification and the flag is unset, each round
    adds its draw. *)
Lemma pick_loop_all_pass (w : World) (g : GiveawayMeta) (f : GiveawayFlags)
    (pool : list (option Member)) (rounds : nat) :
  pool ≠ [] →
  flags g = Some f →
  no_multiple_winners f = false →
  ∀ (w_list : list (option Member)) (cache : option (gmap Z Z)) (n : nat),
    all_drawn_pass w g rounds pool cache n = true →
    ∃ l cache',
      pick_loop w g rounds pool w_list cache n
      = (Ret l, cache', (n + rounds)%nat)
      ∧ length l = (length w_list + rounds)%nat.
Proof.
  intros Hne Hf Hflag.
  induction rounds as [|rounds IH]; intros w_list cache n Hpass; simpl.
  - exists w_list, cache. split; [f_equal; f_equal; lia | lia].
  - simpl in Hpass.
    destruct (choice_nonempty w n pool Hne) as (c & Hc & _).
    rewrite Hc in *.
    destruct (verify_entry w g cache c) as [[[[|] stmt]|e] cache1];
      [|discriminate..].
    rewrite Hf, Hflag. simpl.
    destruct (IH (w_list ++ [c]) cache1 (S n) Hpass)
      as (l & cache' & Hl & Hlen).
    exists l, cache'. rewrite Hl.
    split; [f_equal; lia|]. rewrite Hlen, length_app. simpl. lia.
Qed.

(** Conversely, a loop that returns one winner per round has seen every
    draw pass. *)
Lemma pick_loop_full (w : World) (g : GiveawayMeta) (rounds : nat) :
  ∀ (pool w_list : list (option Member)) (cache : option (gmap Z Z)) (n : nat)
    (l : list (option Member)) (cache' : option (gmap Z Z)) (n' : nat),
    pick_loop w g rounds pool w_list cache n = (Ret l, cache', n') →
    length l = (length w_list + rounds)%nat →
    all_drawn_pass w g rounds pool cache n = true.
Proof.
  induction rounds as [|rounds IH]; intros pool w_list cache n l cache' n';
    simpl; [done|].
  destruct (choice w n pool) as [c|e]; [|done].
  destruct (verify_entry w g cache c) as [[[[|] stmt]|e] cache1];
    [| |discriminate].
  - destruct (flags g) as [f|]; [|discriminate].
    destruct (no_multiple_winners f
              && py_in (of_member c) (map of_member w_list)).
    + intros H Hlen. apply pick_loop_ret in H as (_ & H & _). lia.
    + intros H Hlen. apply (IH _ _ _ _ _ _ _ H).
      rewrite length_app. simpl. lia.
  - intros H Hlen. apply pick_loop_ret in H as (_ & H & _). lia.
Qed.

(** Candidates that pass whatever the counters are pass along the run. *)
Lemma all_drawn_pass_any_cache (w : World) (g : GiveawayMeta)
    (pool : list (option Member)) (rounds : nat) :
  ∀ (cache : option (gmap Z Z)) (n : nat),
    (∀ c cache, c ∈ drawn w n rounds pool →
                ∃ s, fst (verify_entry w g cache c) = Ret (true, s)) →
    all_drawn_pass w g rounds pool cache n = true.
Proof.
  induction rounds as [|rounds IH]; intros cache n Hpass; simpl; [done|].
  simpl in Hpass. destruct (choice w n pool) as [c|e]; [|done].
  destruct (Hpass c cache ltac:(left)) as (s & Hs).
  destruct (verify_entry w g cache c) as [r cache1]. simpl in Hs. subst r.
  apply IH. intros c' cache2 Hc'. apply Hpass. by right.
Qed.

Lemma pool_or_entrants_empty (w : World) (g : GiveawayMeta)
    (pool : option (list (option Member))) :
  pool_or_entrants w g pool = [] →
  entrants w g = [] ∧ (pool = None ∨ pool = Some []).
Proof.
  destruct pool as [[|c l]|]; simpl; [auto | discriminate | auto].
Qed.

(** Two draws asked for, two made, one rejected and not retried: one
    winner. *)
Lemma pick_winners_shortfall :
  pick_winners alternating_world vip_giveaway (Some [Some bob; Some alice]) 0
  = (Ret [Some bob], vip_giveaway, 2%nat).
Proof. reflexivity. Qed.

(** C1, as stated, fails: called with an empty candidate pool on a giveaway
    that has an entrant, [pick_winners] falls back on the giveaway's own
    entrants and returns a winner. *)
Lemma pick_winners_empty_pool_falls_back :
  pick_winners quiet_world entered_giveaway (Some []) 0
  = (Ret [Some alice], entered_giveaway, 1%nat).
Proof. reflexivity. Qed.

(** C1 (amended): the pool drawn from is the pool passed, or the giveaway's
    own entrants when the pool passed is empty or omitted.  For a giveaway
    with [amount_of_winners = N >= 0]: if that pool is empty the result is
    the empty list and nothing is drawn; a call that returns has a result
    no longer than [N], made of drawn candidates, and on a non-empty pool
    has drawn exactly [N] times; with the exclude-duplicates flag set its
    winners are pairwise distinct; with the flag unset and a pool of size
    at least [N], if every drawn candidate passes verification, each with
    the message counters as they are when it is drawn, then exactly [N]
    winners are returned, and a call that returns [N] winners has seen
    every draw pass; and a rejected draw is not retried, so fewer than [N]
    winners is possible. *)
Theorem pick_winners_draws (w : World) (g : Giveaway)
    (pool : option (list (option Member))) (n : nat) (N : Z) :
  amount_of_winners (meta g) = Some N →
  0 <= N →
  (pool_or_entrants w (meta g) pool = [] →
   pick_winners w g pool n = (Ret [], g, n))
  ∧ (∀ l g' n',
       pick_winners w g pool n = (Ret l, g', n') →
       Z.of_nat (length l) <= N
       ∧ meta g' = meta g
       ∧ (∀ x, x ∈ l → x ∈ pool_or_entrants w (meta g) pool)
       ∧ (pool_or_entrants w (meta g) pool ≠ [] → n' = (n + Z.to_nat N)%nat)
       ∧ (∀ f, flags (meta g) = Some f → no_multiple_winners f = true →
               NoDup (map member_key l))
       ∧ (Z.of_nat (length l) = N →
          all_drawn_pass w (meta g) (Z.to_nat N)
            (pool_or_entrants w (meta g) pool) (_message_cache g) n = true))
  ∧ (∀ f,
       N <= Z.of_nat (length (pool_or_entrants w (meta g) pool)) →
       flags (meta g) = Some f →
       no_multiple_winners f = false →
       all_drawn_pass w (meta g) (Z.to_nat N)
         (pool_or_entrants w (meta g) pool) (_message_cache g) n = true →
       ∃ l g', fst (pick_winners w g pool n) = (Ret l, g')
               ∧ Z.of_nat (length l) = N)
  ∧ (∃ w0 g0 pool0 l0,
       amount_of_winners (meta g0) = Some 2
       ∧ pick_winners w0 g0 pool0 0 = (Ret l0, g0, 2%nat)
       ∧ length l0 = 1%nat).
Proof.
  intros Hamount HN. unfold pick_winners. rewrite Hamount.
  set (candidates := pool_or_entrants w (meta g) pool).
  split; [by intros ->|]. split; [|split].
  - intros l g' n'. destruct candidates as [|c cs] eqn:Hcs; simpl.
    + intros [= <- <- <-]. simpl. split_and!.
      * lia.
      * reflexivity.
      * by intros x ?%elem_of_nil.
      * done.
      * intros. apply NoDup_nil_2.
      * intros <-. reflexivity.
    + destruct (pick_loop w (meta g) (Z.to_nat N) (c :: cs) []
                  (_message_cache g) n) as [[r cache] k] eqn:Hloop.
      intros [= -> <- ->].
      pose proof Hloop as Hfull.
      apply pick_loop_ret in Hloop as (-> & Hlen & Hin & Hnd).
      simpl in Hlen. split_and!.
      * lia.
      * reflexivity.
      * intros x Hx. destruct (Hin x Hx) as [[]%elem_of_nil|]; done.
      * done.
      * intros f Hf Hflag. apply (Hnd f Hf Hflag). apply NoDup_nil_2.
      * intros Hall. apply (pick_loop_full _ _ _ _ _ _ _ _ _ _ Hfull).
        simpl. lia.
  - intros f Hsize Hf Hflag Hpass.
    destruct candidates as [|c cs] eqn:Hcs; simpl.
    + simpl in Hsize. exists [], g. split; [done|]. simpl. lia.
    + destruct (pick_loop_all_pass w (meta g) f (c :: cs) (Z.to_nat N)
                  ltac:(done) Hf Hflag [] (_message_cache g) n Hpass)
        as (l & cache' & -> & Hlen).
      eexists l, _. split; [reflexivity|]. simpl in Hlen. lia.
  - exists alternating_world, vip_giveaway, (Some [Some bob; Some alice]),
      [Some bob].
    split; [reflexivity|]. split; [exact pick_winners_shortfall | reflexivity].
Qed.

(** Two draws asked of two candidates, one rejected: at most two winners;
    and the giveaway that has counted four messages of its one entrant
    returns that entrant, who passes with those counters. *)
Lemma pick_winners_draws_witness :
  Z.of_nat (length [Some bob]) <= 2
  ∧ ∃ l g', fst (pick_winners quiet_world counting_giveaway None 0)
            = (Ret l, g')
            ∧ Z.of_nat (length l) = 1.
Proof.
  split.
  - pose proof (pick_winners_draws alternating_world vip_giveaway
                  (Some [Some bob; Some alice]) 0 2 eq_refl ltac:(lia))
      as (_ & Hret & _).
    exact (proj1 (Hret _ _ _ pick_winners_shortfall)).
  - pose proof (pick_winners_draws quiet_world counting_giveaway None 0 1
                  eq_refl ltac:(lia)) as (_ & _ & Hall & _).
    apply (Hall no_flags); [vm_compute; discriminate | reflexivity..].
Defined.

(** ** Lifecycle guards *)

Lemma time_to_end_undefined (g : Giveaway) : has_attribute g "time_to_end" = false.
Proof. unfold has_attribute, instance_attributes. by destruct (_message_cache g). Qed.

(** The half of C2 that holds: [end] on a giveaway that has not started
    raises [GiveawayNotStarted] and leaves the giveaway as it was. *)
Lemma end_before_start
    (conclude : Giveaway → option string → res EndedGiveaway * Giveaway)
    (now : datetime) (g : Giveaway) (why : option string) (s : datetime) :
  starts_at (meta g) = Some s →
  now <= s →
  end_ conclude now g why
  = (Raise (GiveawayNotStarted
              ("The Giveaway (" +:+ pretty (message_id (meta g))
                 +:+ ") has not started yet")), g).
Proof.
  intros Hs Hle. unfold end_, started. rewrite Hs.
  destruct (s <? now) eqn:Hlt; [apply Z.ltb_lt in Hlt; lia | reflexivity].
Qed.

(** C2: the code at the failing inputs.  [start] on a giveaway that has
    ended leaves the giveaway as it was, but the exception it raises is an
    [AttributeError]: building the message of [GiveawayAlreadyEnded] reads
    [self.time_to_end], which no class of the giveaway defines. *)
Theorem start_after_end (publish : Giveaway → res unit * Giveaway)
    (now : datetime) (g : Giveaway) :
  ended now (meta g) = true →
  start publish now g = (Raise (AttributeError "time_to_end"), g).
Proof.
  intros Hended. unfold start. by rewrite Hended, time_to_end_undefined.
Qed.

Lemma start_after_end_witness :
  start (fun g => (Ret (), g)) 6000 fresh_giveaway
  = (Raise (AttributeError "time_to_end"), fresh_giveaway).
Proof.
  apply (start_after_end (fun g => (Ret (), g)) 6000 fresh_giveaway).
  reflexivity.
Defined.

(** ** Reroll *)

(** A [reroll_loop] that returns has drawn at most once per round and at
    least once per winner; it does not pass [count] winners, and it stops
    before the rounds are used up only on reaching [count]. *)
Lemma reroll_loop_ret (w : World) (g : GiveawayMeta) (count : Z)
    (rounds : nat) :
  ∀ (pool : list (option Member)) (winner : list Z) (n : nat) (l : list Z)
    (n' : nat),
    reroll_loop w g count rounds pool winner n = (Ret l, n') →
    (n ≤ n' ≤ n + rounds)%nat
    ∧ (length winner ≤ length l ≤ length winner + (n' - n))%nat
    ∧ (Z.of_nat (length winner) < count → Z.of_nat (length l) <= count)
    ∧ ((n' < n + rounds)%nat → Z.of_nat (length l) = count).
Proof.
  induction rounds as [|rounds IH]; intros pool winner n l n'; simpl.
  - intros [= <- <-]. split_and!; lia.
  - destruct (choice w n pool) as [c|e]; [|discriminate].
    destruct (fst (verify_entry w g None c)) as [[[|] stmt]|e];
      [| |discriminate].
    + destruct c as [m|]; [|discriminate].
      destruct (Z.of_nat (length (winner ++ [member_id m])) =? count) eqn:Hc.
      * apply Z.eqb_eq in Hc. intros [= <- <-].
        rewrite length_app in *. simpl in *. split_and!; lia.
      * apply Z.eqb_neq in Hc. intros H.
        apply IH in H as (Hn & Hlen & Hcount & Hearly).
        rewrite length_app in *. simpl in *. split_and!; lia.
    + intros H. apply IH in H as (Hn & Hlen & Hcount & Hearly).
      split_and!; lia.
Qed.

(** However a [reroll_loop] ends, it has drawn at most once per round. *)
Lemma reroll_loop_draws (w : World) (g : GiveawayMeta) (count : Z)
    (rounds : nat) :
  ∀ (pool : list (option Member)) (winner : list Z) (n : nat),
    (n ≤ snd (reroll_loop w g count rounds pool winner n) ≤ n + rounds)%nat.
Proof.
  induction rounds as [|rounds IH]; intros pool winner n; simpl.
  - lia.
  - destruct (choice w n pool) as [c|e]; simpl; [|lia].
    destruct (fst (verify_entry w g None c)) as [[[|] stmt]|e]; simpl;
      [| |lia].
    + destruct c as [m|]; simpl; [|lia].
      destruct (Z.of_nat (length (winner ++ [member_id m])) =? count); simpl;
        [lia|].
      specialize (IH pool (winner ++ [member_id m]) (S n)). lia.
    + specialize (IH (list_remove c pool) winner (S n)). lia.
Qed.

Lemma length_entrants (w : World) (g : GiveawayMeta) :
  length (entrants w g) = size (_entrants g).
Proof. unfold entrants. by rewrite length_map. Qed.

(** The draw that brings the winners to [count] is the last one: the
    rounds before it end one winner short. *)
Lemma reroll_loop_last_draw (w : World) (g : GiveawayMeta) (count : Z)
    (rounds : nat) :
  ∀ (pool : list (option Member)) (winner : list Z) (n : nat) (l : list Z)
    (n' : nat),
    reroll_loop w g count rounds pool winner n = (Ret l, n') →
    Z.of_nat (length winner) < count →
    Z.of_nat (length l) = count →
    ∃ l0 i, l = l0 ++ [i]
            ∧ reroll_loop w g count (n' - n - 1) pool winner n
              = (Ret l0, (n' - 1)%nat).
Proof.
  induction rounds as [|rounds IH]; intros pool winner n l n'; simpl.
  - intros [= <- <-]. lia.
  - destruct (choice w n pool) as [c|e] eqn:Hchoice; [|discriminate].
    destruct (fst (verify_entry w g None c)) as [[[|] stmt]|e] eqn:Hverify;
      [| |discriminate].
    + destruct c as [m|]; [|discriminate].
      destruct (Z.of_nat (length (winner ++ [member_id m])) =? count) eqn:Hc.
      * intros [= <- <-] _ _. exists winner, (member_id m).
        split; [reflexivity|].
        replace (S n - n - 1)%nat with 0%nat by lia. simpl.
        f_equal. lia.
      * intros H Hlt Hlen. apply Z.eqb_neq in Hc.
        pose proof (reroll_loop_ret _ _ _ _ _ _ _ _ _ H) as (Hn & Hl & _).
        rewrite length_app in Hc, Hl. simpl in Hc, Hl.
        destruct (IH _ _ _ _ _ H) as (l0 & i & -> & Hloop);
          [rewrite length_app; simpl; lia | done |].
        exists l0, i. split; [reflexivity|].
        replace (n' - n - 1)%nat with (S (n' - S n - 1)) by lia. simpl.
        rewrite Hchoice, Hverify, length_app. simpl.
        destruct (Z.of_nat (length winner + 1) =? count) eqn:Hc';
          [apply Z.eqb_eq in Hc'; lia | exact Hloop].
    + intros H Hlt Hlen.
      pose proof (reroll_loop_ret _ _ _ _ _ _ _ _ _ H) as (Hn & Hl & _).
      destruct (IH _ _ _ _ _ H Hlt Hlen) as (l0 & i & -> & Hloop).
      exists l0, i. split; [reflexivity|].
      replace (n' - n - 1)%nat with (S (n' - S n - 1)) by lia. simpl.
      by rewrite Hchoice, Hverify.
Qed.

(** A loop that has reached [count] winners has stopped: rounds added after
    the last one are not run. *)
Lemma reroll_loop_more_rounds (w : World) (g : GiveawayMeta) (count : Z)
    (rounds : nat) :
  ∀ (pool : list (option Member)) (winner : list Z) (n : nat) (l : list Z)
    (n' : nat),
    reroll_loop w g count rounds pool winner n = (Ret l, n') →
    Z.of_nat (length winner) < count →
    Z.of_nat (length l) = count →
    ∀ extra, reroll_loop w g count (rounds + extra) pool winner n
             = (Ret l, n').
Proof.
  induction rounds as [|rounds IH]; intros pool winner n l n'; simpl.
  - intros [= <- <-]. lia.
  - destruct (choice w n pool) as [c|e]; [|discriminate].
    destruct (fst (verify_entry w g None c)) as [[[|] stmt]|e];
      [| |discriminate].
    + destruct c as [m|]; [|discriminate].
      destruct (Z.of_nat (length (winner ++ [member_id m])) =? count) eqn:Hc.
      * done.
      * intros H Hlt Hlen. apply Z.eqb_neq in Hc.
        apply (IH _ _ _ _ _ H); [|done].
        rewrite length_app in *. simpl in *. lia.
    + intros H Hlt Hlen. by apply (IH _ _ _ _ _ H).
Qed.

(** C8, as stated, fails: a reroll asked for 0 winners is run as a reroll
    for 1, and stores one winner; a reroll asked for -1 winners stores one
    winner too. *)
Lemma reroll_zero_draws_one :
  (∃ out g',
     reroll quiet_world ended_example (Some 0) 0 = (Ret out, g', 1%nat)
     ∧ _winners (ended_meta g') = [7]
     ∧ ¬ Z.of_nat (length (_winners (ended_meta g'))) <= 0)
  ∧ (∃ out g',
       reroll quiet_world ended_example (Some (-1)) 0 = (Ret out, g', 1%nat)
       ∧ _winners (ended_meta g') = [7]
       ∧ ¬ Z.of_nat (length (_winners (ended_meta g'))) <= -1).
Proof.
  split; do 2 eexists; (split; [reflexivity|]); (split; [reflexivity|]);
    simpl; lia.
Qed.

(** The scenario of C8: one entrant, three winners asked for. *)
Lemma reroll_single_entrant :
  ∃ out g',
    reroll quiet_world ended_example (Some 3) 0 = (Ret out, g', 1%nat)
    ∧ _winners (ended_meta g') = [7].
Proof. do 2 eexists. split; reflexivity. Qed.

(** C8 (amended): the count in force is [count], or 1 when [count] is
    omitted or 0.  Whatever its outcome, a reroll draws at most once per
    original entrant; when the message is not found it draws nothing and
    changes nothing; on an empty expanded pool it replies that there were
    not enough entrants, draws nothing and changes nothing.  Otherwise, a
    call that returns, or that has changed the record, has stored a winners
    list no longer than the number of draws (so than the number of original
    entrants) and, the count in force being positive, no longer than that
    count, and has changed no other field.  Drawing stops early once the
    winners reach the count in force: the draw that completes the count is
    the last one, the draws before it leaving one winner less, and entrants
    left to iterate over are not drawn for; and it stops short of one draw
    per entrant on reaching that count only.  The call itself returns
    nothing: the winners are what it stores. *)
Theorem reroll_bounds (w : World) (g : EndedGiveaway) (count : option Z)
    (n : nat) :
  (n ≤ snd (reroll w g count n) ≤ n + size (_entrants (ended_meta g)))%nat
  ∧ (fetch_message w ≠ MessageFound → ∃ r, reroll w g count n = (r, g, n))
  ∧ (fetch_message w = MessageFound →
     apply_multi w (entrants w (ended_meta g)) = [] →
     reroll w g count n = (Ret [Reply not_enough_entrants], g, n))
  ∧ (∀ r g' n',
       fetch_message w = MessageFound →
       apply_multi w (entrants w (ended_meta g)) ≠ [] →
       reroll w g count n = (r, g', n') →
       is_ret r = true ∨ g' ≠ g →
       ended_meta g' = set_winners (_winners (ended_meta g')) (ended_meta g)
       ∧ reason g' = reason g
       ∧ (length (_winners (ended_meta g')) ≤ n' - n)%nat
       ∧ (length (_winners (ended_meta g'))
          ≤ size (_entrants (ended_meta g)))%nat
       ∧ (0 < winners_or_one count →
          Z.of_nat (length (_winners (ended_meta g')))
          <= winners_or_one count)
       ∧ ((n' < n + size (_entrants (ended_meta g)))%nat →
          Z.of_nat (length (_winners (ended_meta g')))
          = winners_or_one count)
       ∧ (Z.of_nat (length (_winners (ended_meta g'))) = winners_or_one count →
          (∃ before last,
             _winners (ended_meta g') = before ++ [last]
             ∧ reroll_loop w (ended_meta g) (winners_or_one count)
                 (n' - n - 1) (apply_multi w (entrants w (ended_meta g)))
                 [] n
               = (Ret before, (n' - 1)%nat))
          ∧ (∀ extra,
               reroll_loop w (ended_meta g) (winners_or_one count)
                 (size (_entrants (ended_meta g)) + extra)
                 (apply_multi w (entrants w (ended_meta g))) [] n
               = (Ret (_winners (ended_meta g')), n')))).
Proof.
  assert (0 ≠ winners_or_one count) as Hcount.
  { unfold winners_or_one. destruct count as [c|]; [|done].
    unfold truthy_int. destruct (c =? 0) eqn:Hc; simpl; [done|].
    apply Z.eqb_neq in Hc. lia. }
  unfold reroll. split; [|split; [|split]].
  - destruct (fetch_message w); simpl; [lia | lia |].
    destruct (apply_multi w (entrants w (ended_meta g))) as [|c pool]; simpl;
      [lia|].
    rewrite length_entrants.
    pose proof (reroll_loop_draws w (ended_meta g) (winners_or_one count)
                  (size (_entrants (ended_meta g))) (c :: pool) [] n)
      as Hdraws.
    destruct (reroll_loop w (ended_meta g) (winners_or_one count)
                (size (_entrants (ended_meta g))) (c :: pool) [] n)
      as [[winner|e] k]; simpl in *; [|lia].
    destruct (get_winners_str w _); simpl; lia.
  - intros Hfetch. destruct (fetch_message w); [by eexists..|done].
  - intros -> ->. reflexivity.
  - intros r g' n' -> Hpool.
    destruct (apply_multi w (entrants w (ended_meta g))) as [|c pool] eqn:Hp;
      [done|]. simpl. rewrite length_entrants.
    destruct (reroll_loop w (ended_meta g) (winners_or_one count)
                (size (_entrants (ended_meta g))) (c :: pool) [] n)
      as [[winner|e] k] eqn:Hloop.
    + intros Hr _.
      assert (g' = {| ended_meta := set_winners winner (ended_meta g);
                      reason := reason g |} ∧ n' = k) as [-> ->].
      { by destruct (get_winners_str w _); injection Hr as <- <- <-. }
      clear Hr. simpl.
      pose proof (reroll_loop_ret _ _ _ _ _ _ _ _ _ Hloop)
        as (Hn & Hlen & Hle & Hearly).
      simpl in *. split_and!; try done; try lia.
      intros Hfull. split.
      * apply (reroll_loop_last_draw _ _ _ _ _ _ _ _ _ Hloop);
          [simpl; lia | done].
      * apply (reroll_loop_more_rounds _ _ _ _ _ _ _ _ _ Hloop);
          [simpl; lia | done].
    + intros [= <- <- <-] [?|?]; done.
Qed.

Lemma reroll_bounds_witness :
  ∃ g', (length (_winners (ended_meta g'))
         ≤ size (_entrants (ended_meta ended_example)))%nat.
Proof.
  destruct reroll_single_entrant as (out & g' & Hreroll & _).
  exists g'.
  pose proof (reroll_bounds quiet_world ended_example (Some 3) 0)
    as (_ & _ & _ & Hdrawn).
  destruct (Hdrawn _ _ _ eq_refl ltac:(discriminate) Hreroll
              ltac:(left; reflexivity)) as (_ & _ & _ & Hsize & _).
  exact Hsize.
Defined.

(** C10: when the message cannot be fetched, or it is fetched and the
    expanded pool is empty, [reroll] returns after sending its one message:
    the object is what it was, field for field, and nothing was drawn.
    Conversely, a reroll that leaves a different object behind found the
    message and drew from a non-empty pool. *)
Theorem reroll_returns_before_mutation (w : World) (g : EndedGiveaway)
    (count : option Z) (n : nat) :
  fetch_message w = MessageMissing
  ∨ (fetch_message w = MessageFound
     ∧ apply_multi w (entrants w (ended_meta g)) = []) →
  (∃ out, reroll w g count n = (Ret out, g, n)
          ∧ (out = [CtxSend "I couldn't find the giveaway message."]
             ∨ out = [Reply not_enough_entrants]))
  ∧ (∀ (w' : World) (h : EndedGiveaway) (count' : option Z) (k : nat),
       snd (fst (reroll w' h count' k)) ≠ h →
       fetch_message w' = MessageFound
       ∧ apply_multi w' (entrants w' (ended_meta h)) ≠ []).
Proof.
  intros Hearly. split.
  - unfold reroll. destruct Hearly as [-> | [-> ->]]; simpl; eauto.
  - intros w' h count' k. unfold reroll.
    destruct (fetch_message w'); simpl; try done.
    destruct (apply_multi w' (entrants w' (ended_meta h))); simpl; done.
Qed.

Lemma reroll_returns_before_mutation_witness :
  ∃ out, reroll message_gone ended_example (Some 3) 0
         = (Ret out, ended_example, 0%nat).
Proof.
  destruct (reroll_returns_before_mutation message_gone ended_example
              (Some 3) 0%nat (or_introl eq_refl)) as [(out & Hout & _) _].
  exists out. exact Hout.
Defined.

(** * Further properties *)

(** ** The entrant set, continued *)

Lemma set_entrants_same (g : GiveawayMeta) : set_entrants (_entrants g) g = g.
Proof. by destruct g. Qed.

(** X1: [remove_entrant] returns whether the member was entered, leaves the
    entrant set without the member's id, and changes nothing else. *)
Theorem remove_entrant_spec (g : Giveaway) (m : Member) :
  ∃ g',
    remove_entrant g (Some m)
    = (Ret (bool_decide (member_id m ∈ _entrants (meta g))), g')
    ∧ meta g'
      = set_entrants (_entrants (meta g) ∖ {[ member_id m ]}) (meta g)
    ∧ (member_id m ∉ _entrants (meta g'))
    ∧ (∀ i, i ≠ member_id m →
            (i ∈ _entrants (meta g') ↔ i ∈ _entrants (meta g)))
    ∧ _message_cache g' = _message_cache g.
Proof.
  unfold remove_entrant.
  destruct (bool_decide (member_id m ∈ _entrants (meta g))) eqn:Hin.
  - eexists. split; [reflexivity|]. simpl. split_and!; try done.
    + rewrite elem_of_difference, elem_of_singleton. tauto.
    + intros i Hi. rewrite elem_of_difference, elem_of_singleton. tauto.
  - apply bool_decide_eq_false in Hin.
    exists g. split; [reflexivity|].
    assert (_entrants (meta g) ∖ {[member_id m]} = _entrants (meta g)) as ->.
    { apply set_eq. intros i.
      rewrite elem_of_difference, elem_of_singleton.
      split; [tauto|]. intros Hi. split; [done|]. by intros ->. }
    rewrite set_entrants_same. split_and!; done.
Qed.

(** ** Entry verification, continued *)

Lemma removed_truthy (g : GiveawayMeta) (rest : string) :
  truthy_str (removed g +:+ rest) = true.
Proof. reflexivity. Qed.

Lemma verify_roles_truthy (g : GiveawayMeta) (key : string)
    (roles : list Role) (m : Member) (s : string) :
  verify_roles g key roles m = Some s → truthy_str s = true.
Proof.
  induction roles as [|i roles IH]; simpl; [discriminate|].
  destruct (String.eqb key "blacklist" && has_role i m);
    [intros [= <-]; apply removed_truthy|].
  destruct (String.eqb key "required" && negb (has_role i m));
    [intros [= <-]; apply removed_truthy | exact IH].
Qed.

Lemma verify_number_truthy (w : World) (g : GiveawayMeta)
    (cache : option (gmap Z Z)) (m : Member) (key : string) (v : Z)
    (s : string) :
  fst (verify_number w g cache m key v) = Ret (Some s) → truthy_str s = true.
Proof.
  unfold verify_number.
  destruct (String.eqb key "amari_level").
  { destruct (amari_get_user w LevelLookup _ _) as [|u]; simpl; [discriminate|].
    destruct (_ <? v); simpl; [|discriminate].
    intros [= <-]. apply removed_truthy. }
  destruct (String.eqb key "amari_weekly").
  { simpl. destruct (_ <? v); simpl; [|discriminate].
    intros [= <-]. apply removed_truthy. }
  destruct (String.eqb key "messages"); [|discriminate].
  destruct cache as [d|]; simpl; [|discriminate].
  destruct (setdefault (member_id m) d) as [sent d'].
  destruct (negb (v <=? sent)); simpl; [|discriminate].
  intros [= <-]. apply removed_truthy.
Qed.

Lemma verify_items_truthy (w : World) (g : GiveawayMeta) (m : Member)
    (items : list (string * reqval)) :
  ∀ (cache : option (gmap Z Z)) (s : string),
    fst (verify_items w g cache m items) = Ret (Some s) → truthy_str s = true.
Proof.
  induction items as [|[key value] items IH]; intros cache s; simpl.
  - discriminate.
  - destruct (truthy_reqval value); [|apply IH].
    destruct value as [|roles|n]; [apply IH| |].
    + destruct (verify_roles g key roles m) as [stmt|] eqn:Hroles; [|apply IH].
      simpl. intros [= <-]. by eapply verify_roles_truthy.
    + destruct (verify_number w g cache m key n) as [[[stmt|]|e] cache']
        eqn:Hnum; [| apply IH | discriminate].
      simpl. intros [= <-].
      apply (verify_number_truthy w g cache m key n). by rewrite Hnum.
Qed.

(** X4: the pair [verify_entry] returns always reads one of two ways: an
    acceptance with the empty statement, or a refusal with a statement that
    is not empty. *)
Theorem verify_entry_statement (w : World) (g : GiveawayMeta)
    (cache cache' : option (gmap Z Z)) (member : option Member) (b : bool)
    (s : string) :
  verify_entry w g cache member = (Ret (b, s), cache') →
  (b = true ∧ s = "") ∨ (b = false ∧ truthy_str s = true).
Proof.
  unfold verify_entry.
  destruct (is_excluded_donor w g member) as [[|]|e]; [| |discriminate].
  { intros [= <- <- <-]. right. split; [done | apply removed_truthy]. }
  destruct (requirements g) as [r|]; [|discriminate].
  destruct (null r); [intros [= <- <- <-]; by left|].
  destruct member as [m|]; [|discriminate].
  destruct (bypasses _ m) as [[|]|e]; [| |discriminate].
  { intros [= <- <- <-]. by left. }
  destruct (verify_items w g cache m _) as [[[stmt|]|e] c] eqn:Hitems;
    [| |discriminate].
  - intros [= <- <- <-]. right. split; [done|].
    eapply (verify_items_truthy w g m _ cache). by rewrite Hitems.
  - intros [= <- <- <-]. by left.
Qed.

Lemma verify_entry_statement_witness :
  ∃ s, fst (verify_entry alternating_world (meta vip_giveaway) None (Some alice))
       = Ret (false, s)
       ∧ truthy_str s = true.
Proof.
  destruct (verify_entry alternating_world (meta vip_giveaway) None (Some alice))
    as [[[[|] s]|e] cache'] eqn:Hverify; try discriminate.
  exists s. split; [reflexivity|].
  destruct (verify_entry_statement _ _ _ _ _ _ _ Hverify) as [[? _]|[_ ?]];
    [discriminate | assumption].
Defined.

(** X5: with the no-donor flag set, the donor (the host when the flags name
    no donor) is refused before any rule is looked at, whatever the rule
    set is, a missing one included; [add_entrant] hands back the statement
    and leaves the giveaway as it was. *)
Theorem donor_refused_first (w : World) (g : Giveaway) (f : GiveawayFlags)
    (m d : Member) :
  flags (meta g) = Some f →
  no_donor f = true →
  match donor f with Some x => Some x | None => host w (meta g) end = Some d →
  member_id m = member_id d →
  ∃ s, add_entrant w g (Some m) = (Ret (EntryStatement s), g)
       ∧ verify_entry w (meta g) (_message_cache g) (Some m)
         = (Ret (false, s), _message_cache g)
       ∧ truthy_str s = true.
Proof.
  intros Hf Hflag Hdonor Hid.
  assert (Hdonor' : is_excluded_donor w (meta g) (Some m) = Ret true).
  { unfold is_excluded_donor. rewrite Hf, Hflag, Hdonor, Hid.
    by rewrite Z.eqb_refl. }
  eexists. unfold add_entrant, verify_entry. rewrite Hdonor'.
  split; [by destruct g|]. split; [reflexivity | apply removed_truthy].
Qed.

(** X6: a member who holds one of the bypass roles is accepted whatever the
    other rules say and whatever the reputation service does: no threshold
    is evaluated and the message counters are not touched. *)
Theorem bypass_role_accepts (w : World) (g : GiveawayMeta)
    (cache : option (gmap Z Z)) (m : Member) (r : Requirements)
    (roles : list Role) (role : Role) :
  is_excluded_donor w g (Some m) = Ret false →
  requirements g = Some r →
  getitem "bypass" (as_role_dict r (member_guild m)) = Ret (RRoles roles) →
  role ∈ roles →
  has_role role m = true →
  verify_entry w g cache (Some m) = (Ret (true, ""), cache).
Proof.
  intros Hdonor Hreq Hbypass Hrole Hheld.
  unfold verify_entry. rewrite Hdonor, Hreq.
  destruct (null r); [reflexivity|].
  unfold bypasses. rewrite Hbypass. simpl.
  destruct roles as [|r0 roles]; [by apply elem_of_nil in Hrole|].
  cbn [truthy_list].
  assert (existsb (fun role0 => has_role role0 m) (r0 :: roles) = true) as ->.
  { apply existsb_exists. exists role. split; [|exact Hheld].
    by apply list_elem_of_In. }
  reflexivity.
Qed.

(** X7: the role lists.  A required list passes exactly when the member
    holds every role in it, and is refused for its first role that the
    member does not hold; a blacklist passes exactly when the member holds
    none of its roles, and is refused for its first role that the member
    holds; a list under any other key always passes. *)
Theorem verify_roles_passes (g : GiveawayMeta) (roles : list Role)
    (m : Member) :
  (verify_roles g "required" roles m = None
   ↔ ∀ i, i ∈ roles → has_role i m = true)
  ∧ (verify_roles g "blacklist" roles m = None
     ↔ ∀ i, i ∈ roles → has_role i m = false)
  ∧ (∀ key, String.eqb key "required" = false →
            String.eqb key "blacklist" = false →
            verify_roles g key roles m = None)
  ∧ (∀ s, verify_roles g "required" roles m = Some s ↔
          ∃ held i rest,
            roles = held ++ i :: rest
            ∧ (∀ j, j ∈ held → has_role j m = true)
            ∧ has_role i m = false
            ∧ s = removed g
                    +:+ "You did not have the required role to join it."
                    +:+ nl +:+ "Required role: `" +:+ role_name i +:+ "`")
  ∧ (∀ s, verify_roles g "blacklist" roles m = Some s ↔
          ∃ clear i rest,
            roles = clear ++ i :: rest
            ∧ (∀ j, j ∈ clear → has_role j m = false)
            ∧ has_role i m = true
            ∧ s = removed g
                    +:+ "You had a role that was blacklisted from this giveaway."
                    +:+ nl +:+ "Blacklisted role: `" +:+ role_name i +:+ "`").
Proof.
  split_and!.
  - induction roles as [|i roles IH]; simpl.
    + split; [by intros _ i ?%elem_of_nil | done].
    + destruct (has_role i m) eqn:Hi; simpl.
      * rewrite IH. split.
        -- intros H j [->|Hj]%elem_of_cons; auto.
        -- intros H j Hj. apply H. by right.
      * split; [discriminate|]. intros H.
        specialize (H i ltac:(left)). congruence.
  - induction roles as [|i roles IH]; simpl.
    + split; [by intros _ i ?%elem_of_nil | done].
    + destruct (has_role i m) eqn:Hi; simpl.
      * split; [discriminate|]. intros H.
        specialize (H i ltac:(left)). congruence.
      * rewrite IH. split.
        -- intros H j [->|Hj]%elem_of_cons; auto.
        -- intros H j Hj. apply H. by right.
  - intros key Hreq Hbl. induction roles as [|i roles IH]; simpl; [done|].
    by rewrite Hreq, Hbl.
  - intros s. induction roles as [|i roles IH]; simpl.
    + split; [discriminate|]. intros (held & j & rest & H & _).
      by destruct held.
    + destruct (has_role i m) eqn:Hi; simpl.
      * rewrite IH. split.
        -- intros (held & j & rest & -> & Hheld & Hj & ->).
           exists (i :: held), j, rest. split_and!; try done.
           by intros k [->|Hk]%elem_of_cons; [|apply Hheld].
        -- intros (held & j & rest & Hroles & Hheld & Hj & ->).
           destruct held as [|h held]; simpl in Hroles;
             injection Hroles as <- ->; [congruence|].
           exists held, j, rest. split_and!; try done.
           intros k Hk. apply Hheld. by right.
      * split.
        -- intros [= <-]. exists [], i, roles. split_and!; try done.
           by intros j ?%elem_of_nil.
        -- intros (held & j & rest & Hroles & Hheld & Hj & ->).
           destruct held as [|h held]; simpl in Hroles;
             injection Hroles as <- ->; [done|].
           specialize (Hheld i ltac:(left)). congruence.
  - intros s. induction roles as [|i roles IH]; simpl.
    + split; [discriminate|]. intros (held & j & rest & H & _).
      by destruct held.
    + destruct (has_role i m) eqn:Hi; simpl.
      * split.
        -- intros [= <-]. exists [], i, roles. split_and!; try done.
           by intros j ?%elem_of_nil.
        -- intros (held & j & rest & Hroles & Hheld & Hj & ->).
           destruct held as [|h held]; simpl in Hroles;
             injection Hroles as <- ->; [done|].
           specialize (Hheld i ltac:(left)). congruence.
      * rewrite IH. split.
        -- intros (held & j & rest & -> & Hheld & Hj & ->).
           exists (i :: held), j, rest. split_and!; try done.
           by intros k [->|Hk]%elem_of_cons; [|apply Hheld].
        -- intros (held & j & rest & Hroles & Hheld & Hj & ->).
           destruct held as [|h held]; simpl in Hroles;
             injection Hroles as <- ->; [congruence|].
           exists held, j, rest. split_and!; try done.
           intros k Hk. apply Hheld. by right.
Qed.

Lemma donor_refused_first_witness :
  ∃ s, add_entrant quiet_world donor_giveaway (Some alice)
       = (Ret (EntryStatement s), donor_giveaway).
Proof.
  destruct (donor_refused_first quiet_world donor_giveaway _ alice alice
              eq_refl eq_refl eq_refl eq_refl) as (s & Hadd & _).
  exists s. exact Hadd.
Defined.

Lemma bypass_role_accepts_witness :
  verify_entry amari_down (example_record vip_bypass 1 ∅ 1000 5000) None
    (Some bob)
  = (Ret (true, ""), None).
Proof.
  apply (bypass_role_accepts amari_down _ None bob vip_bypass [vip] vip);
    try reflexivity.
  by apply list_elem_of_singleton.
Defined.

Lemma setdefault_subseteq (key : Z) (d : gmap Z Z) :
  d ⊆ snd (setdefault key d)
  ∧ ∀ k, d !! k = None → snd (setdefault key d) !! k ≠ None →
         k = key ∧ snd (setdefault key d) !! k = Some 0.
Proof.
  unfold setdefault. destruct (d !! key) as [v|] eqn:Hkey; simpl.
  - split; [done|]. intros k Hk Hk'. congruence.
  - split; [by apply insert_subseteq|].
    intros k Hk Hk'. destruct (decide (key = k)) as [<-|Hne].
    + split; [done|]. apply lookup_insert_eq.
    + rewrite lookup_insert_ne in Hk' by done. congruence.
Qed.

Lemma counters_kept_refl (who : option Z) (cache : option (gmap Z Z)) :
  counters_kept who cache cache.
Proof. destruct cache as [d|]; simpl; [|done]. split; [done | congruence]. Qed.

Lemma counters_kept_trans (who : option Z) (c1 c2 c3 : option (gmap Z Z)) :
  counters_kept who c1 c2 → counters_kept who c2 c3 → counters_kept who c1 c3.
Proof.
  destruct c1 as [d1|], c2 as [d2|], c3 as [d3|]; simpl; try done.
  intros [H12 N12] [H23 N23]. split; [by etrans|].
  intros k Hk Hk'. destruct (d2 !! k) as [v|] eqn:Hk2.
  - destruct (N12 k Hk ltac:(congruence)) as [-> H0]. split; [done|].
    eapply lookup_weaken; [|exact H23]. congruence.
  - by apply N23.
Qed.

Lemma verify_number_counters (w : World) (g : GiveawayMeta)
    (cache : option (gmap Z Z)) (m : Member) (key : string) (v : Z) :
  counters_kept (Some (member_id m)) cache
    (snd (verify_number w g cache m key v)).
Proof.
  unfold verify_number.
  destruct (String.eqb key "amari_level").
  { destruct (amari_get_user w LevelLookup _ _) as [|u]; simpl;
      [apply counters_kept_refl|].
    destruct (_ <? v); apply counters_kept_refl. }
  destruct (String.eqb key "amari_weekly").
  { simpl. destruct (_ <? v); apply counters_kept_refl. }
  destruct (String.eqb key "messages"); [|apply counters_kept_refl].
  destruct cache as [d|]; [|done].
  pose proof (setdefault_subseteq (member_id m) d) as [Hsub Hnew].
  destruct (setdefault (member_id m) d) as [sent d'].
  assert (counters_kept (Some (member_id m)) (Some d) (Some d')).
  { split; [done|]. intros k Hk Hk'.
    destruct (Hnew k Hk Hk') as [-> H0]. done. }
  by destruct (negb (v <=? sent)).
Qed.

Lemma verify_items_counters (w : World) (g : GiveawayMeta) (m : Member)
    (items : list (string * reqval)) :
  ∀ cache,
    counters_kept (Some (member_id m)) cache
      (snd (verify_items w g cache m items)).
Proof.
  induction items as [|[key value] items IH]; intros cache; simpl.
  - apply counters_kept_refl.
  - destruct (truthy_reqval value); [|apply IH].
    destruct value as [|roles|n]; [apply IH| |].
    + destruct (verify_roles g key roles m); [apply counters_kept_refl|apply IH].
    + pose proof (verify_number_counters w g cache m key n) as Hnum.
      destruct (verify_number w g cache m key n) as [[[stmt|]|e] cache'];
        [exact Hnum | | exact Hnum].
      eapply counters_kept_trans; [exact Hnum | apply IH].
Qed.

(** X8: [verify_entry] never lowers, raises or drops a message count: every
    count recorded before the call is recorded unchanged after it, the only
    count that may appear is the verified member's own, at 0, and an object
    without message counters comes out without them.  This holds on every
    outcome, a raise included. *)
Theorem verify_entry_keeps_counters (w : World) (g : GiveawayMeta)
    (cache : option (gmap Z Z)) (member : option Member) :
  counters_kept (member_key member) cache
    (snd (verify_entry w g cache member)).
Proof.
  unfold verify_entry.
  destruct (is_excluded_donor w g member) as [[|]|e];
    try apply counters_kept_refl.
  destruct (requirements g) as [r|]; [|apply counters_kept_refl].
  destruct (null r); [apply counters_kept_refl|].
  destruct member as [m|]; [|apply counters_kept_refl].
  destruct (bypasses _ m) as [[|]|e]; try apply counters_kept_refl.
  pose proof (verify_items_counters w g m
                (as_role_dict r (member_guild m)) cache) as Hkept.
  by destruct (verify_items w g cache m _) as [[[stmt|]|e] c].
Qed.

(** ** The entrant set and the message counters *)

(** The counters [verify_entry] leaves: see [counters_kept]. *)
Lemma verify_entry_counters (w : World) (g : GiveawayMeta)
    (cache : option (gmap Z Z)) (member : option Member) :
  counters_kept (member_key member) cache
    (snd (verify_entry w g cache member)).
Proof.
  unfold verify_entry.
  destruct (is_excluded_donor w g member) as [[|]|e];
    try apply counters_kept_refl.
  destruct (requirements g) as [r|]; [|apply counters_kept_refl].
  destruct (null r); [apply counters_kept_refl|].
  destruct member as [m|]; [|apply counters_kept_refl].
  destruct (bypasses _ m) as [[|]|e]; try apply counters_kept_refl.
  pose proof (verify_items_counters w g m
                (as_role_dict r (member_guild m)) cache) as Hkept.
  by destruct (verify_items w g cache m _) as [[[stmt|]|e] c].
Qed.

(** [add_entrant] leaves the counters that its [verify_entry] left. *)
Lemma add_entrant_cache (w : World) (g : Giveaway) (member : option Member) :
  _message_cache (snd (add_entrant w g member))
  = snd (verify_entry w (meta g) (_message_cache g) member).
Proof.
  unfold add_entrant.
  destruct (verify_entry w (meta g) (_message_cache g) member)
    as [[[[|] stmt]|e] cache]; simpl; try reflexivity.
  destruct member as [m|]; [|reflexivity]. by destruct (py_in _ _).
Qed.

(** X2: a member who was not entered, enters and is removed again: the
    second call returns [True], and the record, its entrant set included,
    is what it was before the two calls.  The message counters are not
    touched by the removal; of the entry they keep every count, and may
    have gained the member's own, at 0. *)
Theorem add_then_remove (w : World) (g g1 : Giveaway) (m : Member) :
  member_id m ∉ _entrants (meta g) →
  add_entrant w g (Some m) = (Ret EntryTrue, g1) →
  ∃ g2, remove_entrant g1 (Some m) = (Ret true, g2)
        ∧ _entrants (meta g2) = _entrants (meta g)
        ∧ meta g2 = meta g
        ∧ _message_cache g2 = _message_cache g1
        ∧ counters_kept (Some (member_id m)) (_message_cache g)
            (_message_cache g2).
Proof.
  intros Hnotin Hadd.
  pose proof (add_entrant_cache w g (Some m)) as Hcache.
  pose proof (verify_entry_counters w (meta g) (_message_cache g) (Some m))
    as Hkept.
  rewrite <- Hcache, Hadd in Hkept. simpl in Hkept. clear Hcache.
  revert Hadd. unfold add_entrant.
  destruct (verify_entry w (meta g) (_message_cache g) (Some m))
    as [[[[|] stmt]|e] cache]; try discriminate.
  rewrite int_not_in_members. intros [= <-].
  unfold remove_entrant. simpl.
  rewrite bool_decide_eq_true_2
    by (rewrite elem_of_union, elem_of_singleton; by left).
  eexists. split; [reflexivity|]. simpl.
  assert (({[member_id m]} ∪ _entrants (meta g)) ∖ {[member_id m]}
          = _entrants (meta g)) as ->.
  { apply set_eq. intros i.
    rewrite elem_of_difference, elem_of_union, elem_of_singleton.
    split; [tauto|]. intros Hi. split; [by right|]. by intros ->. }
  split; [reflexivity|]. split; [by destruct (meta g)|].
  split; [reflexivity | exact Hkept].
Qed.

Lemma add_then_remove_witness :
  ∃ g1 g2,
    add_entrant quiet_world fresh_giveaway (Some alice) = (Ret EntryTrue, g1)
    ∧ remove_entrant g1 (Some alice) = (Ret true, g2)
    ∧ _entrants (meta g2) = _entrants (meta fresh_giveaway).
Proof.
  eexists.
  destruct (add_then_remove quiet_world fresh_giveaway _ alice
              (not_elem_of_empty (C := gset Z) 7) eq_refl)
    as (g2 & Hremove & Hset & _).
  exists g2. split; [reflexivity|]. split; [exact Hremove | exact Hset].
Defined.

(** X3: whatever [add_entrant] does, it never returns [False]; when it
    returns [True] the entrant set has gained the member's id and no other
    field of the record changed; on every other outcome, a raise included,
    no field of the record changed.  On every outcome the message counters
    are the ones [verify_entry] left: every count kept, the member's own
    possibly added at 0. *)
Theorem add_entrant_outcomes (w : World) (g g' : Giveaway)
    (member : option Member) (r : res entry) :
  add_entrant w g member = (r, g') →
  r ≠ Ret EntryFalse
  ∧ (r = Ret EntryTrue →
     ∃ m, member = Some m
          ∧ meta g'
            = set_entrants ({[ member_id m ]} ∪ _entrants (meta g)) (meta g))
  ∧ (r ≠ Ret EntryTrue → meta g' = meta g)
  ∧ _message_cache g'
    = snd (verify_entry w (meta g) (_message_cache g) member)
  ∧ counters_kept (member_key member) (_message_cache g) (_message_cache g').
Proof.
  intros Hadd.
  pose proof (add_entrant_cache w g member) as Hcache.
  pose proof (verify_entry_counters w (meta g) (_message_cache g) member)
    as Hkept.
  rewrite <- Hcache, Hadd in Hkept. rewrite Hadd in Hcache.
  simpl in Hkept, Hcache.
  revert Hadd. unfold add_entrant.
  destruct (verify_entry w (meta g) (_message_cache g) member)
    as [[[[|] stmt]|e] cache].
  - destruct member as [m|].
    + rewrite int_not_in_members. intros [= <- <-]. simpl.
      split_and!; [discriminate | eauto | done | done | done].
    + intros [= <- <-]. simpl.
      split_and!; [discriminate | discriminate | done | done | done].
  - intros [= <- <-]. simpl.
    split_and!; [discriminate | discriminate | done | done | done].
  - intros [= <- <-]. simpl.
    split_and!; [discriminate | discriminate | done | done | done].
Qed.

(** A member below the message threshold is turned away, and the counters
    of the giveaway have gained that member's count, at 0. *)
Lemma add_entrant_outcomes_witness :
  fst (add_entrant quiet_world entered_giveaway (Some alice)) ≠ Ret EntryFalse
  ∧ ∃ s g', add_entrant quiet_world counting_giveaway (Some bob)
            = (Ret (EntryStatement s), g')
            ∧ meta g' = meta counting_giveaway
            ∧ _message_cache counting_giveaway = Some {[ 7 := 4 ]}
            ∧ _message_cache g' = Some (<[ 8 := 0 ]> {[ 7 := 4 ]}).
Proof.
  split.
  - destruct (add_entrant quiet_world entered_giveaway (Some alice))
      as [r g'] eqn:Hadd.
    exact (proj1 (add_entrant_outcomes quiet_world entered_giveaway g'
                    (Some alice) r Hadd)).
  - do 2 eexists. split; [reflexivity|]. split; [reflexivity|].
    split; reflexivity.
Defined.

(** ** Winner selection, continued *)

Lemma drawn_nonempty_pool (w : World) (n rounds : nat)
    (pool : list (option Member)) :
  pool ≠ [] → length (drawn w n rounds pool) = rounds.
Proof.
  intros Hne. revert n. induction rounds as [|rounds IH]; intros n; simpl.
  - reflexivity.
  - destruct (choice_nonempty w n pool Hne) as (c & -> & _). simpl.
    by rewrite IH.
Qed.

Lemma pick_loop_no_rules (w : World) (g : GiveawayMeta) (f : GiveawayFlags)
    (r : Requirements) (pool : list (option Member)) :
  pool ≠ [] →
  flags g = Some f →
  no_donor f = false →
  no_multiple_winners f = false →
  requirements g = Some r →
  null r = true →
  ∀ (rounds : nat) (w_list : list (option Member))
    (cache : option (gmap Z Z)) (n : nat),
    pick_loop w g rounds pool w_list cache n
    = (Ret (w_list ++ drawn w n rounds pool), cache, (n + rounds)%nat).
Proof.
  intros Hne Hf Hdonor Hmultiple Hreq Hnull.
  induction rounds as [|rounds IH]; intros w_list cache n; simpl.
  - rewrite app_nil_r. do 2 f_equal. lia.
  - destruct (choice_nonempty w n pool Hne) as (c & -> & _).
    unfold verify_entry, is_excluded_donor.
    rewrite Hf, Hdonor, Hreq, Hnull, Hmultiple. simpl.
    rewrite IH, <- app_assoc. simpl. do 2 f_equal. lia.
Qed.

(** X9: on a giveaway without rules, with neither the no-donor nor the
    exclude-duplicates flag, [pick_winners] returns its draws as they come:
    the winners are the [amount_of_winners] candidates that [random.choice]
    returned, in order, unresolved members ([None]) included, and nothing
    about the giveaway changes. *)
Theorem pick_winners_no_rules (w : World) (g : Giveaway) (f : GiveawayFlags)
    (r : Requirements) (pool : option (list (option Member))) (n : nat)
    (N : Z) :
  flags (meta g) = Some f →
  no_donor f = false →
  no_multiple_winners f = false →
  requirements (meta g) = Some r →
  null r = true →
  amount_of_winners (meta g) = Some N →
  pool_or_entrants w (meta g) pool ≠ [] →
  pick_winners w g pool n
  = (Ret (drawn w n (Z.to_nat N) (pool_or_entrants w (meta g) pool)), g,
     (n + Z.to_nat N)%nat)
  ∧ length (drawn w n (Z.to_nat N) (pool_or_entrants w (meta g) pool))
    = Z.to_nat N.
Proof.
  intros Hf Hdonor Hmultiple Hreq Hnull Hamount Hne.
  split; [|by apply drawn_nonempty_pool].
  unfold pick_winners. rewrite Hamount.
  destruct (pool_or_entrants w (meta g) pool) as [|c cs] eqn:Hpool; [done|].
  simpl.
  rewrite (pick_loop_no_rules w (meta g) f r (c :: cs) ltac:(done)
             Hf Hdonor Hmultiple Hreq Hnull).
  simpl. by destruct g.
Qed.

Lemma pick_winners_no_rules_witness :
  pick_winners quiet_world entered_giveaway None 0
  = (Ret [Some alice], entered_giveaway, 1%nat).
Proof.
  exact (proj1 (pick_winners_no_rules quiet_world entered_giveaway no_flags
                  no_requirements None 0 1 eq_refl eq_refl eq_refl eq_refl
                  eq_refl eq_refl ltac:(discriminate))).
Defined.

(** ** Reroll, continued *)

Lemma set_winners_same (g : GiveawayMeta) : set_winners (_winners g) g = g.
Proof. by destruct g. Qed.

(** X10: whatever [reroll] does, it changes no field but [_winners]: the
    entrants, the schedule, the rules and the reason of the ended giveaway
    are what they were, also when the call raises; and it only ever draws
    forward. *)
Theorem reroll_touches_only_winners (w : World) (g : EndedGiveaway)
    (count : option Z) (n : nat) :
  ended_meta (snd (fst (reroll w g count n)))
  = set_winners (_winners (ended_meta (snd (fst (reroll w g count n)))))
      (ended_meta g)
  ∧ _entrants (ended_meta (snd (fst (reroll w g count n))))
    = _entrants (ended_meta g)
  ∧ reason (snd (fst (reroll w g count n))) = reason g
  ∧ (n ≤ snd (reroll w g count n))%nat.
Proof.
  unfold reroll.
  destruct (fetch_message w); simpl;
    try (rewrite set_winners_same; split_and!; [done | done | done | lia]).
  destruct (apply_multi w (entrants w (ended_meta g))) as [|c pool]; simpl;
    [rewrite set_winners_same; split_and!; [done | done | done | lia]|].
  pose proof (reroll_loop_draws w (ended_meta g) (winners_or_one count)
                (length (entrants w (ended_meta g))) (c :: pool) [] n)
    as Hdraws.
  destruct (reroll_loop w (ended_meta g) (winners_or_one count)
              (length (entrants w (ended_meta g))) (c :: pool) [] n)
    as [[winner|e] k]; simpl in *.
  - destruct (get_winners_str w _); simpl; split_and!; try done; lia.
  - rewrite set_winners_same. split_and!; try done; lia.
Qed.

Lemma list_remove_subseteq (c x : option Member) (l : list (option Member)) :
  x ∈ list_remove c l → x ∈ l.
Proof.
  induction l as [|y l IH]; simpl; [done|].
  destruct (py_eq (of_member y) (of_member c)).
  - intros H. by right.
  - intros [->|H]%elem_of_cons; [by left | right; auto].
Qed.

(** The winners a [reroll_loop] adds are ids of candidates of the pool that
    [verify_entry] accepts. *)
Lemma reroll_loop_winners (w : World) (g : GiveawayMeta) (count : Z)
    (rounds : nat) :
  ∀ (pool : list (option Member)) (winner : list Z) (n : nat) (l : list Z)
    (n' : nat),
    reroll_loop w g count rounds pool winner n = (Ret l, n') →
    ∀ i, i ∈ l →
         i ∈ winner
         ∨ ∃ m s, Some m ∈ pool ∧ member_id m = i
                  ∧ fst (verify_entry w g None (Some m)) = Ret (true, s).
Proof.
  induction rounds as [|rounds IH]; intros pool winner n l n'; simpl.
  - intros [= <- <-] i Hi. by left.
  - destruct (choice w n pool) as [c|e] eqn:Hc; [|discriminate].
    apply choice_elem_of in Hc.
    destruct (fst (verify_entry w g None c)) as [[[|] stmt]|e] eqn:Hv;
      [| |discriminate].
    + destruct c as [m|]; [|discriminate].
      destruct (Z.of_nat (length (winner ++ [member_id m])) =? count).
      * intros [= <- <-] i [Hi|Hi]%elem_of_app; [by left|].
        apply list_elem_of_singleton in Hi as ->. right. eauto.
      * intros H i Hi.
        destruct (IH _ _ _ _ _ H i Hi) as [[Hw|Hw]%elem_of_app|Hp];
          [by left | | by right].
        apply list_elem_of_singleton in Hw as ->. right. eauto.
    + intros H i Hi.
      destruct (IH _ _ _ _ _ H i Hi) as [Hw|(m & s & Hm & Hid & Hs)];
        [by left|].
      right. exists m, s. split; [|done]. by eapply list_remove_subseteq.
Qed.

(** X11: every winner that a reroll stores is the id of a candidate of the
    expanded pool that [verify_entry] accepts. *)
Theorem reroll_winners_verified (w : World) (g g' : EndedGiveaway)
    (count : option Z) (n n' : nat) (r : res (list chat)) :
  reroll w g count n = (r, g', n') →
  _winners (ended_meta g') ≠ _winners (ended_meta g) →
  ∀ i, i ∈ _winners (ended_meta g') →
       ∃ m s, Some m ∈ apply_multi w (entrants w (ended_meta g))
              ∧ member_id m = i
              ∧ fst (verify_entry w (ended_meta g) None (Some m))
                = Ret (true, s).
Proof.
  unfold reroll.
  destruct (fetch_message w); try (by intros [= <- <- <-]).
  destruct (apply_multi w (entrants w (ended_meta g))) as [|c pool] eqn:Hpool;
    simpl; [by intros [= <- <- <-]|].
  destruct (reroll_loop w (ended_meta g) (winners_or_one count)
              (length (entrants w (ended_meta g))) (c :: pool) [] n)
    as [[winner|e] k] eqn:Hloop; [|by intros [= <- <- <-]].
  assert (Hfrom : ∀ i, i ∈ winner →
            ∃ m s, Some m ∈ c :: pool ∧ member_id m = i
                   ∧ fst (verify_entry w (ended_meta g) None (Some m))
                     = Ret (true, s)).
  { intros i Hi.
    destruct (reroll_loop_winners _ _ _ _ _ _ _ _ _ Hloop i Hi)
      as [[]%elem_of_nil|H]; exact H. }
  destruct (get_winners_str w _); intros [= <- <- <-] _; exact Hfrom.
Qed.

Lemma reroll_winners_verified_witness :
  ∃ m s, Some m ∈ apply_multi quiet_world
                    (entrants quiet_world (ended_meta ended_example))
         ∧ member_id m = 7
         ∧ fst (verify_entry quiet_world (ended_meta ended_example) None
                  (Some m))
           = Ret (true, s).
Proof.
  destruct (reroll quiet_world ended_example (Some 3) 0) as [[r g'] n']
    eqn:Hreroll.
  refine (reroll_winners_verified quiet_world ended_example g' (Some 3) 0 n' r
            Hreroll _ 7 _).
  - vm_compute in Hreroll. injection Hreroll as _ <- _. discriminate.
  - vm_compute in Hreroll. injection Hreroll as _ <- _.
    by apply list_elem_of_singleton.
Defined.

Lemma verify_items_not_IndexError (w : World) (g : GiveawayMeta) (m : Member)
    (items : list (string * reqval)) :
  ∀ cache, fst (verify_items w g cache m items) ≠ Raise IndexError.
Proof.
  induction items as [|[key value] items IH]; intros cache; simpl.
  - discriminate.
  - destruct (truthy_reqval value); [|apply IH].
    destruct value as [|roles|v]; [apply IH| |].
    + destruct (verify_roles g key roles m); [discriminate | apply IH].
    + destruct (verify_number w g cache m key v) as [[[stmt|]|e] cache']
        eqn:Hnum; [discriminate | apply IH |].
      simpl. intros [= ->]. revert Hnum. unfold verify_number.
      destruct (String.eqb key "amari_level").
      { destruct (amari_get_user w LevelLookup _ _); [discriminate|].
        destruct (_ <? v); discriminate. }
      destruct (String.eqb key "amari_weekly").
      { simpl. destruct (_ <? v); discriminate. }
      destruct (String.eqb key "messages"); [|discriminate].
      destruct cache as [d|]; [|discriminate].
      destruct (setdefault (member_id m) d) as [sent d'].
      destruct (negb (v <=? sent)); discriminate.
Qed.

Lemma getitem_not_IndexError (key : string) (items : list (string * reqval)) :
  getitem key items ≠ Raise IndexError.
Proof.
  induction items as [|[k v] items IH]; simpl; [discriminate|].
  destruct (String.eqb k key); [discriminate | exact IH].
Qed.

Lemma verify_entry_not_IndexError (w : World) (g : GiveawayMeta)
    (cache : option (gmap Z Z)) (member : option Member) :
  fst (verify_entry w g cache member) ≠ Raise IndexError.
Proof.
  unfold verify_entry.
  destruct (is_excluded_donor w g member) as [[|]|e] eqn:Hdonor;
    [discriminate | |].
  - destruct (requirements g) as [r|]; [|discriminate].
    destruct (null r); [discriminate|].
    destruct member as [m|]; [|discriminate].
    destruct (bypasses _ m) as [[|]|e] eqn:Hbypass; [discriminate | |].
    + pose proof (verify_items_not_IndexError w g m
                    (as_role_dict r (member_guild m)) cache) as Hitems.
      destruct (verify_items w g cache m _) as [[[stmt|]|e] c];
        [discriminate | discriminate |].
      simpl. intros [= ->]. by apply Hitems.
    + simpl. intros [= ->]. revert Hbypass. unfold bypasses.
      pose proof (getitem_not_IndexError "bypass"
                    (as_role_dict r (member_guild m))) as Hget.
      destruct (getitem "bypass" _) as [v|e]; simpl; [|congruence].
      destruct (truthy_reqval v); [|discriminate].
      destruct v; discriminate.
  - simpl. intros [= ->]. revert Hdonor. unfold is_excluded_donor.
    destruct (flags g) as [f|]; [|discriminate].
    destruct (no_donor f); [|discriminate].
    destruct member as [m|]; [|discriminate].
    destruct (match donor f with Some d => Some d | None => host w g end);
      discriminate.
Qed.

Lemma py_eq_refl (c : option Member) : py_eq (of_member c) (of_member c) = true.
Proof. destruct c as [m|]; simpl; [apply Z.eqb_refl | reflexivity]. Qed.

Lemma length_list_remove (c : option Member) (l : list (option Member)) :
  c ∈ l → S (length (list_remove c l)) = length l.
Proof.
  induction l as [|x l IH]; simpl; [by intros ?%elem_of_nil|].
  destruct (py_eq (of_member x) (of_member c)) eqn:Heq; [done|].
  intros [->|Hin]%elem_of_cons; [by rewrite py_eq_refl in Heq|].
  simpl. by rewrite IH.
Qed.

Lemma reroll_loop_not_IndexError (w : World) (g : GiveawayMeta) (count : Z)
    (rounds : nat) :
  ∀ (pool : list (option Member)) (winner : list Z) (n : nat),
    (rounds ≤ length pool)%nat →
    fst (reroll_loop w g count rounds pool winner n) ≠ Raise IndexError.
Proof.
  induction rounds as [|rounds IH]; intros pool winner n Hlen; simpl.
  - discriminate.
  - assert (Hne : pool ≠ []) by (destruct pool; simpl in Hlen; [lia | done]).
    destruct (choice_nonempty w n pool Hne) as (c & -> & Hc).
    pose proof (verify_entry_not_IndexError w g None c) as Hverify.
    destruct (fst (verify_entry w g None c)) as [[[|] stmt]|e]; simpl.
    + destruct c as [m|]; simpl; [|discriminate].
      destruct (Z.of_nat (length (winner ++ [member_id m])) =? count);
        [discriminate|].
      apply IH. lia.
    + apply IH. pose proof (length_list_remove c pool Hc). lia.
    + intros [= ->]. by apply Hverify.
Qed.

Lemma join_winners_not_IndexError (items : list (option Member * Z)) :
  join_winners items ≠ Raise IndexError.
Proof.
  induction items as [|[[k|] v] items IH]; simpl; [discriminate | |discriminate].
  destruct (join_winners items) as [s|e]; simpl; [discriminate | exact IH].
Qed.

(** X12: when the expanded pool holds at least as many candidates as there
    are entrants (as it does when the multiplier only adds entries),
    [reroll] never raises [IndexError]: [random.choice] is never handed a
    pool that the refusals have emptied. *)
Theorem reroll_no_IndexError (w : World) (g : EndedGiveaway)
    (count : option Z) (n : nat) :
  (size (_entrants (ended_meta g))
   ≤ length (apply_multi w (entrants w (ended_meta g))))%nat →
  fst (fst (reroll w g count n)) ≠ Raise IndexError.
Proof.
  intros Hsize. unfold reroll.
  destruct (fetch_message w); simpl; try discriminate.
  destruct (apply_multi w (entrants w (ended_meta g))) as [|c pool] eqn:Hpool;
    simpl; [discriminate|].
  pose proof (reroll_loop_not_IndexError w (ended_meta g)
                (winners_or_one count) (length (entrants w (ended_meta g)))
                (c :: pool) [] n) as Hloop.
  rewrite length_entrants in Hloop. specialize (Hloop Hsize).
  destruct (reroll_loop w (ended_meta g) (winners_or_one count)
              (size (_entrants (ended_meta g))) (c :: pool) [] n)
    as [[winner|e] k] eqn:Hrun; rewrite length_entrants, Hrun; simpl in *.
  - unfold get_winners_str.
    pose proof (join_winners_not_IndexError
                  (Counter (winners w (set_winners winner (ended_meta g)))))
      as Hjoin.
    destruct (join_winners _) as [s|e]; simpl; [discriminate|].
    intros [= ->]. by apply Hjoin.
  - intros [= ->]. by apply Hloop.
Qed.

Lemma reroll_no_IndexError_witness :
  fst (fst (reroll quiet_world ended_example (Some 3) 0)) ≠ Raise IndexError.
Proof.
  apply (reroll_no_IndexError quiet_world ended_example (Some 3) 0).
  vm_compute. lia.
Defined.

Lemma verify_items_without_counters (w : World) (g : GiveawayMeta)
    (m : Member) (items : list (string * reqval)) :
  snd (verify_items w g None m items) = None.
Proof.
  pose proof (verify_items_counters w g m items None) as H.
  by destruct (snd (verify_items w g None m items)).
Qed.

(** X13: an ended giveaway carries no message counters, so a reroll whose
    first draw reaches a message threshold (the donor check and the bypass
    test do not settle it, the items before "messages" pass) raises
    [AttributeError] for [_message_cache] and stores no winner. *)
Theorem reroll_message_rule_raises (w : World) (g : EndedGiveaway)
    (count : option Z) (n : nat) (m : Member) (r : Requirements)
    (pre post : list (string * reqval)) (v : Z) :
  fetch_message w = MessageFound →
  _entrants (ended_meta g) ≠ ∅ →
  choice w n (apply_multi w (entrants w (ended_meta g))) = Ret (Some m) →
  is_excluded_donor w (ended_meta g) (Some m) = Ret false →
  requirements (ended_meta g) = Some r →
  null r = false →
  as_role_dict r (member_guild m) = pre ++ ("messages", RNum v) :: post →
  bypasses (as_role_dict r (member_guild m)) m = Ret false →
  fst (verify_items w (ended_meta g) None m pre) = Ret None →
  v ≠ 0 →
  reroll w g count n = (Raise (AttributeError "_message_cache"), g, S n).
Proof.
  intros Hfound Hentrants Hchoice Hdonor Hreq Hnull Hitems Hbypass Hpre Hv.
  assert (Hverify : fst (verify_entry w (ended_meta g) None (Some m))
                    = Raise (AttributeError "_message_cache")).
  { unfold verify_entry. rewrite Hdonor, Hreq, Hnull, Hbypass, Hitems.
    rewrite verify_items_app.
    pose proof (verify_items_without_counters w (ended_meta g) m pre) as Hnone.
    destruct (verify_items w (ended_meta g) None m pre)
      as [[[stmt|]|e] cache'] eqn:Hp; simpl in Hpre, Hnone; try discriminate.
    subst cache'. simpl. unfold truthy_int.
    destruct (v =? 0) eqn:Hz; [apply Z.eqb_eq in Hz; contradiction|].
    reflexivity. }
  unfold reroll. rewrite Hfound.
  destruct (apply_multi w (entrants w (ended_meta g))) as [|c pool] eqn:Hpool.
  { discriminate Hchoice. }
  simpl. rewrite length_entrants.
  destruct (size (_entrants (ended_meta g))) as [|rounds] eqn:Hsize.
  { apply size_empty_iff in Hsize. by apply leibniz_equiv in Hsize. }
  simpl. rewrite Hchoice, Hverify. reflexivity.
Qed.

Lemma reroll_message_rule_raises_witness :
  reroll quiet_world ended_with_messages None 0
  = (Raise (AttributeError "_message_cache"), ended_with_messages, 1%nat).
Proof.
  apply (reroll_message_rule_raises quiet_world ended_with_messages None 0
           alice three_messages [("bypass", RRoles [])] [] 3);
    try reflexivity; discriminate.
Defined.

(** ** The winners summary *)

Lemma count_in_none (c : option Member) (items : list (option Member * Z)) :
  None ∈ map fst (count_in c items) ↔ c = None ∨ None ∈ map fst items.
Proof.
  induction items as [|[k v] items IH]; simpl.
  - rewrite list_elem_of_singleton. split; [by left | intros [?|?%elem_of_nil]; done].
  - destruct (py_eq (of_member c) (of_member k)) eqn:Heq; simpl.
    + rewrite elem_of_cons. split; [by right|].
      intros [->|H]; [|done]. left.
      destruct k as [k|]; [discriminate Heq | done].
    + rewrite !elem_of_cons, IH. tauto.
Qed.

Lemma Counter_none (seq : list (option Member)) :
  None ∈ map fst (Counter seq) ↔ None ∈ seq.
Proof.
  unfold Counter.
  assert (H : ∀ items, None ∈ map fst
                (fold_left (fun items c => count_in c items) seq items)
              ↔ None ∈ seq ∨ None ∈ map fst items).
  { induction seq as [|c seq IH]; intros items; simpl.
    - split; [by right | by intros [?%elem_of_nil|?]].
    - rewrite IH, count_in_none, elem_of_cons. split.
      + intros [?|[->|?]]; auto.
      + intros [[<-|?]|?]; auto. }
  rewrite H. simpl. split; [by intros [?|?%elem_of_nil] | by left].
Qed.

Lemma join_winners_ret (items : list (option Member * Z)) :
  is_ret (join_winners items) = true ↔ None ∉ map fst items.
Proof.
  induction items as [|[[k|] v] items IH]; simpl.
  - split; [by intros _ ?%elem_of_nil | done].
  - rewrite not_elem_of_cons, <- IH.
    destruct (join_winners items); simpl; split; try done; by intros [_ ?].
  - split; [discriminate|]. intros H. exfalso. apply H. by left.
Qed.

(** X14: [get_winners_str] returns exactly when every winner id resolves to
    a member of the guild; one winner who has left makes it raise
    [AttributeError].  On an empty winners list it returns the no-winners
    sentence. *)
Theorem get_winners_str_resolves (w : World) (g : GiveawayMeta) :
  (is_ret (get_winners_str w g) = true
   ↔ ∀ i, i ∈ _winners g → get_member w i ≠ None)
  ∧ (is_ret (get_winners_str w g) = false
     → get_winners_str w g = Raise (AttributeError "id"))
  ∧ (_winners g = [] → get_winners_str w g = Ret "There were no winners. ").
Proof.
  unfold get_winners_str, winners. split_and!.
  - transitivity (None ∉ map (get_member w) (_winners g)).
    + rewrite <- Counter_none, <- join_winners_ret.
      by destruct (join_winners _).
    + split.
      * intros Hnone i Hi Hres. apply Hnone. rewrite <- Hres.
        apply list_elem_of_In, in_map. by apply list_elem_of_In.
      * intros Hres Hnone. apply list_elem_of_In, in_map_iff in Hnone
          as (i & Hi & Hin). apply (Hres i); [by apply list_elem_of_In | done].
  - generalize (Counter (map (get_member w) (_winners g))).
    intros items. induction items as [|[[k|] v] items IH]; simpl;
      [discriminate | | done].
    destruct (join_winners items) as [s|e]; simpl in *; [discriminate|].
    intros _. specialize (IH eq_refl). by injection IH as ->.
  - by intros ->.
Qed.

Lemma count_in_total (c : option Member) (items : list (option Member * Z)) :
  foldr Z.add 0 (map snd (count_in c items))
  = foldr Z.add 0 (map snd items) + 1.
Proof.
  induction items as [|[k v] items IH]; simpl; [lia|].
  destruct (py_eq (of_member c) (of_member k)); simpl; lia.
Qed.

Lemma count_in_keys (c : option Member) (items : list (option Member * Z)) :
  NoDup (map (fun kv => member_key (fst kv)) items) →
  NoDup (map (fun kv => member_key (fst kv)) (count_in c items))
  ∧ ∀ x, x ∈ map (fun kv => member_key (fst kv)) (count_in c items) →
         x = member_key c ∨ x ∈ map (fun kv => member_key (fst kv)) items.
Proof.
  induction items as [|[k v] items IH]; simpl.
  - intros _. split; [apply NoDup_singleton|].
    intros x ->%list_elem_of_singleton. by left.
  - intros [Hk Hnodup]%NoDup_cons.
    destruct (py_eq (of_member c) (of_member k)) eqn:Heq; simpl.
    + split; [by apply NoDup_cons|]. intros x Hx. by right.
    + destruct (IH Hnodup) as [IHnodup IHin]. split.
      * apply NoDup_cons. split; [|done]. intros Hin.
        destruct (IHin _ Hin) as [Hc|Hin']; [|done].
        symmetry in Hc. apply py_eq_key in Hc. congruence.
      * intros x [->|Hx]%elem_of_cons; [right; by left|].
        destruct (IHin x Hx); [by left | right; by right].
Qed.

Lemma count_in_positive (c : option Member) (items : list (option Member * Z)) :
  (∀ kv, kv ∈ items → 1 <= snd kv) →
  ∀ kv, kv ∈ count_in c items → 1 <= snd kv.
Proof.
  induction items as [|[k v] items IH]; simpl; intros Hpos kv.
  - intros ->%list_elem_of_singleton. simpl. lia.
  - destruct (py_eq (of_member c) (of_member k)).
    + intros [->|Hin]%elem_of_cons.
      * specialize (Hpos (k, v) ltac:(left)). simpl in *. lia.
      * apply Hpos. by right.
    + intros [->|Hin]%elem_of_cons; [apply Hpos; by left|].
      apply IH; [|done]. intros kv' Hkv'. apply Hpos. by right.
Qed.

Lemma py_eq_sym (a b : option Member) :
  py_eq (of_member a) (of_member b) = py_eq (of_member b) (of_member a).
Proof.
  destruct a as [a|], b as [b|]; simpl; try reflexivity. apply Z.eqb_sym.
Qed.

Lemma py_eq_trans (a b c : option Member) :
  py_eq (of_member a) (of_member b) = true →
  py_eq (of_member b) (of_member c) = py_eq (of_member a) (of_member c).
Proof.
  intros Hab%py_eq_key.
  destruct (py_eq (of_member b) (of_member c)) eqn:Hbc.
  - apply py_eq_key in Hbc. symmetry. apply py_eq_key. congruence.
  - destruct (py_eq (of_member a) (of_member c)) eqn:Hac; [|done].
    apply py_eq_key in Hac.
    assert (py_eq (of_member b) (of_member c) = true) as Hbc'
      by (apply py_eq_key; congruence).
    congruence.
Qed.

Lemma count_in_tallied (k c : option Member)
    (items : list (option Member * Z)) :
  tallied k (count_in c items)
  = tallied k items + (if py_eq (of_member c) (of_member k) then 1 else 0).
Proof.
  induction items as [|[k' v] items IH]; simpl.
  - lia.
  - destruct (py_eq (of_member c) (of_member k')) eqn:Hc; simpl.
    + rewrite <- (py_eq_trans c k' k Hc).
      destruct (py_eq (of_member k') (of_member k)); lia.
    + rewrite IH. lia.
Qed.

Lemma Counter_tallied (k : option Member) (seq : list (option Member)) :
  ∀ items,
    tallied k (fold_left (fun items c => count_in c items) seq items)
    = tallied k items + occurrences k seq.
Proof.
  unfold occurrences.
  induction seq as [|c seq IH]; intros items; simpl; [lia|].
  rewrite IH, count_in_tallied.
  destruct (py_eq (of_member c) (of_member k)); simpl; lia.
Qed.

Lemma tallied_absent (k : option Member) (items : list (option Member * Z)) :
  member_key k ∉ map (fun kv => member_key (fst kv)) items →
  tallied k items = 0.
Proof.
  induction items as [|[k' v] items IH]; simpl; [done|].
  rewrite not_elem_of_cons. intros [Hk Hrest].
  destruct (py_eq (of_member k') (of_member k)) eqn:Heq.
  - apply py_eq_key in Heq. congruence.
  - rewrite IH by done. lia.
Qed.

Lemma tallied_entry (k : option Member) (v : Z)
    (items : list (option Member * Z)) :
  NoDup (map (fun kv => member_key (fst kv)) items) →
  (k, v) ∈ items → tallied k items = v.
Proof.
  induction items as [|[k' v'] items IH]; simpl.
  - by intros _ ?%elem_of_nil.
  - intros [Hk Hnodup]%NoDup_cons [[= <- <-]|Hin]%elem_of_cons.
    + assert (py_eq (of_member k) (of_member k) = true) as ->
        by by apply py_eq_key.
      rewrite tallied_absent by done. lia.
    + destruct (py_eq (of_member k') (of_member k)) eqn:Heq.
      * apply py_eq_key in Heq. exfalso. apply Hk. rewrite Heq.
        by apply (list_elem_of_fmap_2 (fun kv => member_key (fst kv))
                    items (k, v)).
      * rewrite IH by done. lia.
Qed.

Lemma tallied_present (k : option Member) (items : list (option Member * Z)) :
  tallied k items ≠ 0 →
  ∃ k' v, (k', v) ∈ items ∧ member_key k' = member_key k.
Proof.
  induction items as [|[k' v] items IH]; simpl; [done|].
  destruct (py_eq (of_member k') (of_member k)) eqn:Heq.
  - intros _. exists k', v. split; [by left | by apply py_eq_key].
  - intros H. destruct IH as (k'' & v' & Hin & Hkey); [lia|].
    exists k'', v'. split; [by right | done].
Qed.

Lemma count_in_objects (c : option Member) (items : list (option Member * Z)) :
  ∀ k v, (k, v) ∈ count_in c items → k = c ∨ k ∈ map fst items.
Proof.
  induction items as [|[k' v'] items IH]; simpl; intros k v.
  - intros [= -> _]%list_elem_of_singleton. by left.
  - destruct (py_eq (of_member c) (of_member k')).
    + intros [[= -> _]|Hin]%elem_of_cons; right; [by left|].
      right. by apply (list_elem_of_fmap_2 fst items (k, v)).
    + intros [[= -> _]|Hin]%elem_of_cons; [right; by left|].
      destruct (IH _ _ Hin); [by left | right; by right].
Qed.

Lemma Counter_objects (seq : list (option Member)) :
  ∀ items k v,
    (k, v) ∈ fold_left (fun items c => count_in c items) seq items →
    k ∈ seq ∨ k ∈ map fst items.
Proof.
  induction seq as [|c seq IH]; intros items k v; simpl.
  - intros Hin. right. by apply (list_elem_of_fmap_2 fst items (k, v)).
  - intros Hin. destruct (IH _ _ _ Hin) as [Hseq|Hitems].
    + left. by right.
    + apply list_elem_of_fmap in Hitems as ([k' v'] & -> & Hkv).
      destruct (count_in_objects _ _ _ _ Hkv) as [->|Hin'];
        [left; by left | by right].
Qed.

Lemma occurrences_elem_of (c : option Member) (seq : list (option Member)) :
  c ∈ seq → 1 <= occurrences c seq.
Proof.
  unfold occurrences. induction seq as [|x seq IH]; simpl.
  - by intros ?%elem_of_nil.
  - intros [<-|Hin]%elem_of_cons.
    + assert (py_eq (of_member c) (of_member c) = true) as ->
        by by apply py_eq_key.
      simpl. lia.
    + specialize (IH Hin).
      destruct (py_eq (of_member x) (of_member c)); simpl; lia.
Qed.

(** X15: the tally behind the winners summary names each distinct winner
    once, gives each a count of at least 1, and its counts add up to the
    number of winners; every winner of the list is named, the object that
    names it is one of the list, and its count is the number of entries of
    the list equal to it. *)
Theorem Counter_tally (seq : list (option Member)) :
  NoDup (map (fun kv => member_key (fst kv)) (Counter seq))
  ∧ (∀ kv, kv ∈ Counter seq → 1 <= snd kv)
  ∧ foldr Z.add 0 (map snd (Counter seq)) = Z.of_nat (length seq)
  ∧ (∀ c, c ∈ seq →
       ∃ k v, (k, v) ∈ Counter seq ∧ member_key k = member_key c)
  ∧ (∀ k v, (k, v) ∈ Counter seq → k ∈ seq ∧ v = occurrences k seq).
Proof.
  unfold Counter.
  assert (H : ∀ items,
    NoDup (map (fun kv => member_key (fst kv)) items) →
    (∀ kv, kv ∈ items → 1 <= snd kv) →
    NoDup (map (fun kv => member_key (fst kv))
             (fold_left (fun items c => count_in c items) seq items))
    ∧ (∀ kv, kv ∈ fold_left (fun items c => count_in c items) seq items →
             1 <= snd kv)
    ∧ foldr Z.add 0
        (map snd (fold_left (fun items c => count_in c items) seq items))
      = foldr Z.add 0 (map snd items) + Z.of_nat (length seq)).
  { induction seq as [|c seq IH]; intros items Hnodup Hpos; simpl.
    - split_and!; [done | done | lia].
    - destruct (IH (count_in c items)) as (H1 & H2 & H3).
      + by apply count_in_keys.
      + by apply count_in_positive.
      + split_and!; [done | done |]. rewrite H3, count_in_total. lia. }
  destruct (H []) as (H1 & H2 & H3).
  - apply NoDup_nil_2.
  - by intros kv ?%elem_of_nil.
  - split_and!; [done | done | by rewrite H3 | |].
    + intros c Hc. apply tallied_present.
      rewrite Counter_tallied. simpl.
      pose proof (occurrences_elem_of c seq Hc). lia.
    + intros k v Hkv. split.
      * by destruct (Counter_objects _ _ _ _ Hkv) as [?|?%elem_of_nil].
      * rewrite <- (tallied_entry k v _ H1 Hkv), Counter_tallied.
        simpl. lia.
Qed.

(** Two wins of member 7 around one of member 8: two items, in order of
    first appearance, with counts 2 and 1. *)
Lemma Counter_example :
  Counter [Some alice; Some bob; Some alice] = [(Some alice, 2); (Some bob, 1)].
Proof. reflexivity. Qed.

(** ** Serialization, continued *)

Section Reconstruction.
Context {ReqJson FlagsJson : Type}.
Variable Requirements_json : Requirements → ReqJson.
Variable Requirements_from_json : option ReqJson → Requirements.
Variable GiveawayFlags_json : GiveawayFlags → FlagsJson.
Variable GiveawayFlags_from_json : option FlagsJson → Z → GiveawayFlags.
Variable empty_requirements : ReqJson.
Variable empty_flags : FlagsJson.

Local Abbreviation to_json :=
  (json Requirements_json GiveawayFlags_json empty_requirements empty_flags).
Local Abbreviation ended_to_json :=
  (EndedGiveaway_json Requirements_json GiveawayFlags_json empty_requirements
     empty_flags).
Local Abbreviation of_json :=
  (GiveawayMeta_from_json Requirements_from_json GiveawayFlags_from_json
     empty_requirements empty_flags).
Local Abbreviation ended_of_json :=
  (EndedGiveaway_from_json Requirements_from_json GiveawayFlags_from_json
     empty_requirements empty_flags).
Local Abbreviation giveaway_of_json :=
  (Giveaway_from_json Requirements_from_json GiveawayFlags_from_json
     empty_requirements empty_flags).
Local Abbreviation snapshot :=
  (from_giveaway Requirements_json Requirements_from_json GiveawayFlags_json
     GiveawayFlags_from_json empty_requirements empty_flags).

(** X16: an ended giveaway comes back from its own serialized form, reason
    included, under the conditions of the plain record: ids non-zero,
    ends_at not the epoch instant, starts_at set, both instants given back
    by [fromtimestamp] from their float [timestamp], rules and flags
    present and reproduced by their own [json] and [from_json]. *)
Theorem ended_from_json_json (import_time now : datetime) (b : Bot)
    (x : EndedGiveaway) (s : datetime) (r : Requirements)
    (f : GiveawayFlags) :
  truthy_int (message_id (ended_meta x)) = true →
  truthy_int (guild_id (ended_meta x)) = true →
  truthy_int (channel_id (ended_meta x)) = true →
  ends_at (ended_meta x) ≠ 0 →
  starts_at (ended_meta x) = Some s →
  fromtimestamp (timestamp (ends_at (ended_meta x)))
  = Ret (ends_at (ended_meta x)) →
  fromtimestamp (timestamp s) = Ret s →
  requirements (ended_meta x) = Some r →
  flags (ended_meta x) = Some f →
  Requirements_from_json (Some (Requirements_json r)) = r →
  GiveawayFlags_from_json (Some (GiveawayFlags_json f))
    (guild_id (ended_meta x)) = f →
  ∃ j, ended_to_json x = Ret j
       ∧ ended_of_json import_time now (update_bot b j)
         = Ret {| ended_meta := set_bot b (ended_meta x);
                  reason := reason x |}.
Proof.
  intros Hm Hg Hc He Hs Hte Hts Hr Hf Hrr Hff.
  apply timestamp_truthy in He; [|exact Hte].
  unfold EndedGiveaway_json, json. rewrite Hs. simpl.
  eexists. split; [reflexivity|].
  unfold EndedGiveaway_from_json, from_json_kwargs, check_kwargs, kw_truthy.
  simpl. rewrite Hm, Hg, Hc, He. simpl. rewrite Hte. simpl. rewrite Hts.
  simpl. unfold EndedGiveaway_init, GiveawayMeta_init, check_kwargs, kw_truthy.
  simpl. rewrite Hm, Hg, Hc. simpl.
  rewrite !kw_get_pass, !kw_get_default_pass, list_to_set_elements_L.
  rewrite Hr, Hf, Hrr, Hff. unfold set_bot. by rewrite Hr, Hf, Hs.
Qed.

(** X17: the snapshot that [from_giveaway] returns keeps the ids, the
    prize, the entrants, the winners and the host of the giveaway; its
    schedule is the giveaway's as [fromtimestamp] reads it back from the
    float [timestamp]s; and it always carries a reason that is not empty:
    the one passed, or "Giveaway ended successfully." when none or an empty
    one is passed. *)
Theorem from_giveaway_snapshot (import_time now : datetime)
    (g : GiveawayMeta) (why : option string) (e : EndedGiveaway) :
  snapshot import_time now g why = Ret e →
  (∃ text, reason e = Some text ∧ truthy_str text = true
           ∧ (∀ given, why = Some given → truthy_str given = true →
                       text = given)
           ∧ (why = None ∨ why = Some "" →
              text = "Giveaway ended successfully."))
  ∧ bot (ended_meta e) = bot g
  ∧ message_id (ended_meta e) = message_id g
  ∧ channel_id (ended_meta e) = channel_id g
  ∧ guild_id (ended_meta e) = guild_id g
  ∧ prize (ended_meta e) = prize g
  ∧ amount_of_winners (ended_meta e) = amount_of_winners g
  ∧ _entrants (ended_meta e) = _entrants g
  ∧ _winners (ended_meta e) = _winners g
  ∧ _host (ended_meta e) = _host g
  ∧ (∃ s s', starts_at g = Some s
             ∧ fromtimestamp (timestamp s) = Ret s'
             ∧ starts_at (ended_meta e) = Some s')
  ∧ fromtimestamp (timestamp (ends_at g)) = Ret (ends_at (ended_meta e)).
Proof.
  unfold from_giveaway, json.
  destruct (starts_at g) as [s|] eqn:Hs; [|discriminate]. simpl.
  unfold EndedGiveaway_from_json, from_json_kwargs, check_kwargs, kw_truthy.
  simpl.
  destruct (truthy_int (message_id g)) eqn:Hm; [|discriminate].
  destruct (truthy_int (guild_id g)) eqn:Hg; [|discriminate].
  destruct (truthy_int (channel_id g)) eqn:Hc; [|discriminate].
  destruct (truthy_posix (timestamp (ends_at g))) eqn:He; [|discriminate].
  simpl.
  destruct (fromtimestamp (timestamp (ends_at g))) as [e'|] eqn:Hte;
    [|discriminate]. simpl.
  destruct (fromtimestamp (timestamp s)) as [s'|] eqn:Hts; [|discriminate].
  simpl.
  unfold EndedGiveaway_init, GiveawayMeta_init, check_kwargs, kw_truthy.
  simpl. rewrite Hm, Hg, Hc. simpl.
  rewrite !kw_get_pass, !kw_get_default_pass, list_to_set_elements_L.
  intros [= <-]. simpl. split_and!; try reflexivity.
  - destruct why as [[|a given]|]; simpl.
    + eexists. split; [reflexivity|]. split_and!; [done | | done].
      intros given [= <-]. discriminate.
    + eexists. split; [reflexivity|]. split_and!; [done | |].
      * by intros given' [= <-].
      * intros [?|?]; discriminate.
    + eexists. split; [reflexivity|]. split_and!; [done | | done].
      intros given ?. discriminate.
  - by exists s, s'.
Qed.

(** X18: [from_json] needs one key beyond the five that [check_kwargs]
    tests, and two timestamps that [fromtimestamp] accepts.  On a mapping
    that passes [check_kwargs] with [e] under "ends_at": an [e] that
    [fromtimestamp] refuses makes [from_json] raise the same error; past
    that, "starts_at" absent or [None] is a [TypeError], and a "starts_at"
    that [fromtimestamp] refuses raises that error; otherwise [from_json]
    succeeds with the two converted instants, and every optional key that
    is absent receives its default: the placeholder prize, one winner, the
    tada emoji, no entrants, no winners, no host. *)
Theorem from_json_optional_keys (now : datetime)
    (j : kwargs posix ReqJson FlagsJson) :
  is_ret (check_kwargs truthy_posix j) = true →
  ∃ e, k_ends_at j = Given e
  ∧ (∀ err, fromtimestamp e = Raise err → of_json now j = Raise err)
  ∧ (∀ e', fromtimestamp e = Ret e' →
     (kw_get (k_starts_at j) = None →
      of_json now j = Raise (TypeError "fromtimestamp"))
     ∧ (∀ t err, k_starts_at j = Given t → fromtimestamp t = Raise err →
          of_json now j = Raise err)
     ∧ (∀ t s', k_starts_at j = Given t → fromtimestamp t = Ret s' →
          ∃ x, of_json now j = Ret x
            ∧ starts_at x = Some s'
            ∧ ends_at x = e'
            ∧ (k_prize j = Absent → prize x = Some "Giveaway prize")
            ∧ (k_amount_of_winners j = Absent → amount_of_winners x = Some 1)
            ∧ (k_emoji j = Absent → emoji x = Some ":tada:")
            ∧ (k_entrants j = Absent → _entrants x = ∅)
            ∧ (k_winners j = Absent → _winners x = [])
            ∧ (k_host j = Absent → _host x = None)
            ∧ (k_requirements j = Absent →
               requirements x
               = Some (Requirements_from_json (Some empty_requirements))))).
Proof.
  intros Hck. unfold GiveawayMeta_from_json, from_json_kwargs.
  destruct (check_kwargs truthy_posix j) as [[[[[mid gid] cid] e] b]|err]
    eqn:Hcheck; [|discriminate].
  apply check_kwargs_ends_at in Hcheck
    as (_ & _ & _ & He & _ & Hm & Hg & Hc & _).
  exists e. split.
  { unfold provided, kw_get in He. by destruct (k_ends_at j); simplify_eq. }
  simpl. split.
  - by intros err ->.
  - intros e' ->. simpl. split_and!.
    + by intros ->.
    + intros t err -> Ht. simpl. by rewrite Ht.
    + intros t s' Hk Ht. rewrite Hk. simpl. rewrite Ht. simpl.
      unfold GiveawayMeta_init, check_kwargs, kw_truthy. simpl.
      rewrite Hm, Hg, Hc. simpl. eexists. split; [reflexivity|]. simpl.
      split_and!; try reflexivity; by intros ->.
Qed.

End Reconstruction.

Lemma ended_from_json_json_witness :
  ∃ j, EndedGiveaway_json id id no_requirements no_flags ended_example = Ret j
       ∧ EndedGiveaway_from_json (default no_requirements)
           (fun o _ => default no_flags o) no_requirements no_flags 10 6000
           (update_bot (BotHandle 4) j)
         = Ret {| ended_meta := set_bot (BotHandle 4) (ended_meta ended_example);
                  reason := reason ended_example |}.
Proof.
  apply (ended_from_json_json id (default no_requirements) id
           (fun o _ => default no_flags o) no_requirements no_flags
           10 6000 (BotHandle 4) ended_example 1000 no_requirements no_flags);
    (reflexivity || (simpl; lia)).
Defined.

Lemma from_giveaway_snapshot_witness :
  ∃ e, from_giveaway id (default no_requirements) id
         (fun o _ => default no_flags o) no_requirements no_flags 10 6000
         running_record None = Ret e
       ∧ _entrants (ended_meta e) = _entrants running_record
       ∧ fromtimestamp (timestamp (ends_at running_record))
         = Ret (ends_at (ended_meta e)).
Proof.
  eexists. split; [vm_compute; reflexivity|].
  pose proof (from_giveaway_snapshot id (default no_requirements) id
       (fun o _ => default no_flags o) no_requirements no_flags 10 6000
       running_record None _ ltac:(vm_compute; reflexivity)) as H.
  split; [exact (proj1 (proj2 (proj2 (proj2 (proj2 (proj2 (proj2 (proj2
                   H))))))))
         | exact (proj2 (proj2 (proj2 (proj2 (proj2 (proj2 (proj2 (proj2
                   (proj2 (proj2 (proj2 H)))))))))))].
Defined.

Lemma from_json_optional_keys_witness :
  ∃ x, GiveawayMeta_from_json (default no_requirements)
         (fun o _ => default no_flags o) no_requirements no_flags 6000
         bare_mapping = Ret x
       ∧ starts_at x = Some 1000
       ∧ ends_at x = 5000
       ∧ prize x = Some "Giveaway prize".
Proof.
  destruct (from_json_optional_keys (default no_requirements)
              (fun o _ => default no_flags o) no_requirements no_flags
              6000 bare_mapping eq_refl) as (e & He & _ & H).
  injection He as <-.
  destruct (H 5000 eq_refl) as (_ & _ & H').
  destruct (H' (timestamp 1000) 1000 eq_refl eq_refl)
    as (x & Hx & Hs & Hends & Hp & _).
  exists x. split_and!; [exact Hx | exact Hs | exact Hends | by apply Hp].
Defined.


(** ** Lifecycle, continued *)

(** X20: the two guards against the schedule.  When ends_at is not before
    starts_at, at every instant [start] or [end] gets past its guard.  When
    ends_at is before starts_at, which construction allows, both raise at
    the instant of the start, and the giveaway can be neither started nor
    ended then. *)
Theorem guards_and_schedule (publish : Giveaway → res unit * Giveaway)
    (conclude : Giveaway → option string → res EndedGiveaway * Giveaway)
    (g : Giveaway) (why : option string) (s : datetime) :
  starts_at (meta g) = Some s →
  (s <= ends_at (meta g) →
   ∀ now, start publish now g = publish g
          ∨ end_ conclude now g why = conclude g why)
  ∧ (ends_at (meta g) < s →
     is_ret (fst (start publish s g)) = false
     ∧ is_ret (fst (end_ conclude s g why)) = false
     ∧ snd (start publish s g) = g
     ∧ snd (end_ conclude s g why) = g).
Proof.
  intros Hs. unfold start, end_, started, ended. rewrite Hs. split.
  - intros Hle now.
    destruct (ends_at (meta g) <? now) eqn:He; [|by left].
    apply Z.ltb_lt in He. right.
    destruct (s <? now) eqn:Hlt; [done|]. apply Z.ltb_ge in Hlt. lia.
  - intros Hlt. rewrite Z.ltb_irrefl.
    destruct (ends_at (meta g) <? s) eqn:He;
      [|apply Z.ltb_ge in He; lia].
    by rewrite time_to_end_undefined.
Qed.

Lemma guards_and_schedule_witness :
  start (fun g => (Ret (), g)) 3000 fresh_giveaway = (Ret (), fresh_giveaway)
  ∨ end_ (fun g _ => (Raise IndexError, g)) 3000 fresh_giveaway None
    = (Raise IndexError, fresh_giveaway).
Proof.
  refine (proj1 (guards_and_schedule (fun g => (Ret (), g))
                   (fun g _ => (Raise IndexError, g)) fresh_giveaway None 1000
                   eq_refl) _ 3000).
  vm_compute. discriminate.
Defined.

(** X21: what [Giveaway.__init__] sets up besides the fields.  In a process
    that imported the module before constructing, a start waiter is
    scheduled exactly when a [starts_at] is passed and lies ahead: a
    giveaway constructed without [starts_at] never waits.  The message
    counters start empty when the flags or the rules ask for counting, and
    are not created otherwise. *)
Theorem Giveaway_init_schedules (import_time now : datetime) (a : init_args)
    (g : Giveaway) (waits : bool) :
  import_time <= now →
  Giveaway_init import_time now a = Ret (g, waits) →
  (waits = true ↔ ∃ s, a_starts_at a = Some s ∧ now < s)
  ∧ ∃ f, a_flags a = Some f
         ∧ _message_cache g
           = if truthy_int (message_count f)
                || truthy_opt truthy_int
                     (match a_requirements a with
                      | Some r => messages r
                      | None => None
                      end)
             then Some ∅ else None.
Proof.
  intros Himport. unfold Giveaway_init.
  destruct (GiveawayMeta_init now (super_kwargs import_time a)) as [m|err]
    eqn:Hinit; simpl; [|discriminate].
  apply init_ret_inv in Hinit as (mid & gid & cid & e & b & _ & ->).
  unfold starts_after, wants_message_cache. simpl. rewrite !kw_get_pass.
  destruct (a_flags a) as [f|]; simpl; [|discriminate].
  destruct (truthy_int (message_count f)) eqn:Hcount; simpl.
  - intros [= <- <-]. simpl. split.
    + rewrite Z.ltb_lt. destruct (a_starts_at a) as [s|]; simpl.
      * split; [eauto | by intros (s' & [= <-] & ?)].
      * split; [lia | by intros (s' & [=] & _)].
    + exists f. split; [done|]. by rewrite Hcount.
  - destruct (a_requirements a) as [r|]; simpl; [|discriminate].
    intros [= <- <-]. simpl. split.
    + rewrite Z.ltb_lt. destruct (a_starts_at a) as [s|]; simpl.
      * split; [eauto | by intros (s' & [= <-] & ?)].
      * split; [lia | by intros (s' & [=] & _)].
    + exists f. split; [done|]. by rewrite Hcount.
Qed.

Lemma Giveaway_init_schedules_witness :
  ∃ g waits, Giveaway_init 10 2000 optionals_omitted = Ret (g, waits)
             ∧ ¬ waits = true.
Proof.
  do 2 eexists. split; [reflexivity|].
  intros Hwaits.
  destruct (proj1 (proj1 (Giveaway_init_schedules 10 2000 optionals_omitted
                            _ _ ltac:(lia) eq_refl)) Hwaits)
    as (s & Hs & _).
  discriminate Hs.
Defined.

(** X22: the start waiter.  It goes round while the start lies ahead of the
    clock, and leaves the loop at the first pass whose reading has reached
    [starts_at], awaiting [start] there, once, at the next reading of the
    clock; as long as no reading has reached [starts_at] it is still
    asleep. *)
Theorem wait_until_start_first_pass
    (publish : Giveaway → res unit * Giveaway) (clock : nat → datetime)
    (g : Giveaway) (s : datetime) (k passes : nat) :
  starts_at (meta g) = Some s →
  (∀ j, (k ≤ j < k + passes)%nat →
        (∀ i, (k ≤ i < j)%nat → clock i < s) →
        s <= clock j →
        _wait_until_start publish clock g k passes
        = Some (j, start publish (clock (S j)) g))
  ∧ ((∀ i, (k ≤ i < k + passes)%nat → clock i < s) →
     _wait_until_start publish clock g k passes = None).
Proof.
  intros Hs. revert k. induction passes as [|passes IH]; intros k; simpl.
  - split; [intros j Hj; lia | done].
  - unfold starts_after. rewrite Hs. split.
    + intros j Hj Hbefore Hreached.
      destruct (clock k <? s) eqn:Hk.
      * apply Z.ltb_lt in Hk.
        assert (j ≠ k) by (intros ->; lia).
        apply (proj1 (IH (S k))); [lia | | done].
        intros i Hi. apply Hbefore. lia.
      * apply Z.ltb_ge in Hk.
        destruct (decide (j = k)) as [->|Hne]; [done|].
        specialize (Hbefore k ltac:(lia)). lia.
    + intros Hbefore.
      destruct (clock k <? s) eqn:Hk.
      * apply (proj2 (IH (S k))). intros i Hi. apply Hbefore. lia.
      * apply Z.ltb_ge in Hk. specialize (Hbefore k ltac:(lia)). lia.
Qed.

Lemma wait_until_start_first_pass_witness :
  _wait_until_start (fun g => (Ret (), g)) minute_clock fresh_giveaway 0 5
  = Some (2%nat, (Ret (), fresh_giveaway)).
Proof.
  refine (proj1 (wait_until_start_first_pass (fun g => (Ret (), g))
                   minute_clock fresh_giveaway 1000 0 5 eq_refl)
            2%nat ltac:(lia) _ _).
  - intros i Hi. unfold minute_clock. lia.
  - vm_compute. discriminate.
Defined.

Lemma filter_none {A : Type} (p : A → bool) (l : list A) :
  (∀ x, x ∈ l → p x = false) → List.filter p l = [].
Proof.
  induction l as [|x l IH]; simpl; [done|]. intros H.
  rewrite (H x) by by left. apply IH. intros y Hy. apply H. by right.
Qed.

(** X23: [_get_message] and its three outcomes.  Once the channel resolves
    no exception escapes the call: it returns the first message of the
    cache, in cache order, that carries the giveaway's message id, without
    fetching, and otherwise what [channel.fetch_message] returns, or [None]
    if that raises.  When the channel does not resolve it raises, a cached
    message notwithstanding. *)
Theorem get_message_outcomes (c : Client) (g : GiveawayMeta) :
  (∀ ch, resolve_channel c g = Ret (Some ch) →
     ∃ found, _get_message c g = Ret found
              ∧ (∀ x, x ∈ cached_messages c → msg_id x = message_id g →
                      ∃ first, found = Some first
                               ∧ first ∈ cached_messages c
                               ∧ msg_id first = message_id g)
              ∧ (∀ before first after,
                   cached_messages c = before ++ first :: after →
                   (∀ x, x ∈ before → msg_id x ≠ message_id g) →
                   msg_id first = message_id g →
                   found = Some first)
              ∧ ((∀ x, x ∈ cached_messages c → msg_id x ≠ message_id g) →
                 found = match channel_fetch_message c ch (message_id g) with
                         | Ret fetched => Some fetched
                         | Raise _ => None
                         end))
  ∧ (resolve_channel c g = Ret None →
     _get_message c g
     = Raise (GiveawayError "The channel for this giveaway could not be found."))
  ∧ (∀ e, resolve_channel c g = Raise e → _get_message c g = Raise e).
Proof.
  unfold _get_message. split_and!.
  - intros ch ->. simpl.
    destruct (List.filter (fun x => msg_id x =? message_id g)
                (cached_messages c)) as [|first rest] eqn:Hfilter.
    + exists (match channel_fetch_message c ch (message_id g) with
              | Ret fetched => Some fetched
              | Raise _ => None
              end).
      split; [by destruct (channel_fetch_message c ch (message_id g))|].
      assert (∀ x, x ∈ cached_messages c → msg_id x ≠ message_id g) as Hnone.
      { intros x Hx Hid.
        assert (Hin : In x (List.filter (fun x => msg_id x =? message_id g)
                              (cached_messages c))).
        { apply filter_In. split; [by apply list_elem_of_In|].
          by apply Z.eqb_eq. }
        by rewrite Hfilter in Hin. }
      split_and!; [| |done].
      * intros x Hx Hid. by destruct (Hnone x Hx).
      * intros before first after Hcache _ Hid. exfalso.
        apply (Hnone first); [|done].
        rewrite Hcache, elem_of_app. right. by left.
    + assert (Hfirst : In first (List.filter
                          (fun x => msg_id x =? message_id g)
                          (cached_messages c))) by (rewrite Hfilter; by left).
      apply filter_In in Hfirst as [Hin Hid]. apply Z.eqb_eq in Hid.
      eexists. split; [reflexivity|]. split_and!.
      * intros _ _ _. exists first. by rewrite <- list_elem_of_In in Hin.
      * intros before first' after Hcache Hbefore Hid'.
        rewrite Hcache, List.filter_app, filter_none in Hfilter.
        -- simpl in Hfilter. apply Z.eqb_eq in Hid'. rewrite Hid' in Hfilter.
           by injection Hfilter as -> _.
        -- intros x Hx. apply Z.eqb_neq. by apply Hbefore.
      * intros Hnone. exfalso.
        apply (Hnone first); [by apply list_elem_of_In | done].
  - by intros ->.
  - by intros e ->.
Qed.

Lemma get_message_outcomes_witness :
  _get_message warm_client running_record
  = Ret (Some {| msg_id := 1; msg_channel := 2 |}).
Proof.
  destruct (proj1 (get_message_outcomes warm_client running_record) 2 eq_refl)
    as (found & Hfound & _ & Hfirst & _).
  rewrite Hfound.
  rewrite (Hfirst [ {| msg_id := 5; msg_channel := 2 |} ]
             {| msg_id := 1; msg_channel := 2 |} [] eq_refl); [done| |done].
  by intros x ->%list_elem_of_singleton.
Defined.

(** X24: the serialized form does not carry the client handle.  Handed back
    to [from_json] as it is, the mapping of a record with sound ids and
    schedule is refused for the missing bot; nothing is reconstructed until
    the caller adds the handle. *)
Theorem from_json_needs_bot {ReqJson FlagsJson : Type}
    (Requirements_json : Requirements → ReqJson)
    (Requirements_from_json : option ReqJson → Requirements)
    (GiveawayFlags_json : GiveawayFlags → FlagsJson)
    (GiveawayFlags_from_json : option FlagsJson → Z → GiveawayFlags)
    (empty_requirements : ReqJson) (empty_flags : FlagsJson)
    (now : datetime) (x : GiveawayMeta) (s : datetime) :
  truthy_int (message_id x) = true →
  truthy_int (guild_id x) = true →
  truthy_int (channel_id x) = true →
  truthy_posix (timestamp (ends_at x)) = true →
  starts_at x = Some s →
  ∃ j, json Requirements_json GiveawayFlags_json empty_requirements
         empty_flags x = Ret j
       ∧ k_bot j = Absent
       ∧ GiveawayMeta_from_json Requirements_from_json
           GiveawayFlags_from_json empty_requirements empty_flags now j
         = Raise (GiveawayError "No bot object provided.").
Proof.
  intros Hm Hg Hc He Hs.
  unfold json. rewrite Hs. eexists. split; [reflexivity|].
  split; [reflexivity|].
  unfold GiveawayMeta_from_json, from_json_kwargs, check_kwargs, kw_truthy.
  simpl. rewrite Hm, Hg, Hc. simpl in He. by rewrite He.
Qed.

Lemma from_json_needs_bot_witness :
  ∃ j, json id id no_requirements no_flags running_record = Ret j
       ∧ GiveawayMeta_from_json (default no_requirements)
           (fun o _ => default no_flags o) no_requirements no_flags 6000 j
         = Raise (GiveawayError "No bot object provided.").
Proof.
  destruct (from_json_needs_bot id (default no_requirements) id
              (fun o _ => default no_flags o) no_requirements no_flags 6000
              running_record 1000 eq_refl eq_refl eq_refl eq_refl eq_refl)
    as (j & Hj & _ & Hback).
  exists j. split; [exact Hj | exact Hback].
Defined.

Lemma elem_of_map_key (c : option Member) (l : list (option Member)) :
  c ∈ l → member_key c ∈ map member_key l.
Proof. intros H. apply list_elem_of_In, in_map. by apply list_elem_of_In. Qed.

(** X25: with the exclude-duplicates flag set, [pick_winners] cannot return
    more winners than the pool has distinct candidates, however many were
    asked for. *)
Theorem pick_winners_distinct_bound (w : World) (g g' : Giveaway)
    (f : GiveawayFlags) (pool : option (list (option Member))) (n n' : nat)
    (l : list (option Member)) :
  flags (meta g) = Some f →
  no_multiple_winners f = true →
  pick_winners w g pool n = (Ret l, g', n') →
  (length l ≤ length (pool_or_entrants w (meta g) pool))%nat
  ∧ ∀ ks, NoDup ks →
          (∀ c, c ∈ pool_or_entrants w (meta g) pool → member_key c ∈ ks) →
          (length l ≤ length ks)%nat.
Proof.
  intros Hf Hflag. unfold pick_winners.
  destruct (pool_or_entrants w (meta g) pool) as [|c cs] eqn:Hpool; simpl.
  { intros [= <- <- <-]. split; [done|]. intros; simpl; lia. }
  destruct (amount_of_winners (meta g)) as [N|]; [|discriminate].
  destruct (pick_loop w (meta g) (Z.to_nat N) (c :: cs) []
              (_message_cache g) n) as [[r cache] k] eqn:Hloop.
  intros [= -> <- ->].
  apply pick_loop_ret in Hloop as (_ & _ & Hin & Hnd).
  specialize (Hnd f Hf Hflag (NoDup_nil_2 (A := option Z))).
  assert (Hbound : ∀ ks, (∀ x, x ∈ c :: cs → member_key x ∈ ks) →
                         (length l ≤ length ks)%nat).
  { intros ks Hks. rewrite <- (length_map member_key l).
    apply submseteq_length, NoDup_submseteq; [done|].
    intros x Hx. apply list_elem_of_In, in_map_iff in Hx as (y & <- & Hy).
    apply Hks. apply list_elem_of_In in Hy.
    by destruct (Hin y Hy) as [?%elem_of_nil|?]. }
  split.
  - pose proof (Hbound (map member_key (c :: cs))
                  (fun x Hx => elem_of_map_key x (c :: cs) Hx)) as Hlen.
    by rewrite length_map in Hlen.
  - intros ks _ Hks. by apply Hbound.
Qed.

Lemma pick_winners_distinct_bound_witness :
  pick_winners quiet_world distinct_giveaway None 0
  = (Ret [Some alice], distinct_giveaway, 3%nat)
  ∧ (length [Some alice] ≤ 1)%nat.
Proof.
  split; [reflexivity|].
  exact (proj1 (pick_winners_distinct_bound quiet_world distinct_giveaway
                  distinct_giveaway _ None 0 3 [Some alice]
                  eq_refl eq_refl eq_refl)).
Defined.
